(** * AITrading: the scoring-and-recommendation pipeline

    A shallow embedding of the three scripts of the repository
    ([ai_trading_system.py], [enhanced_market_analyzer.py],
    [simple_market_analyzer.py]) and the properties of their
    filter / score / combine / decide pipeline.

    Numbers are modelled as the code has them: Python [float] is IEEE-754
    binary64 with round-to-nearest-even, taken from the executable
    specification [SpecFloat] of the standard library; Python [int] is [Z].
    Exceptions are explicit ([result]); the wall clock is a parameter, and
    so is the interpreter where the builtin [sum] depends on it. *)

From Stdlib Require Import ZArith List String Ascii Bool Lia.
From Stdlib Require Import Sorting.Sorted Sorting.Permutation.
From Stdlib Require Import Floats.SpecFloat.
Import ListNotations.

Local Open Scope Z_scope.

(* ================================================================= *)
(** ** Binary64 arithmetic *)

Module F64.

Definition prec : Z := 53.
Definition emax : Z := 1024.

Definition float : Type := spec_float.

Definition add : float -> float -> float := SFadd prec emax.
Definition sub : float -> float -> float := SFsub prec emax.
Definition mul : float -> float -> float := SFmul prec emax.
Definition div : float -> float -> float := SFdiv prec emax.

(** [float(n)] for a Python integer [n]. *)
Definition of_Z (z : Z) : float := binary_normalize prec emax z 0 false.

(** A decimal literal [n/d] of the source text: the nearest binary64. *)
Definition lit (n d : Z) : float := div (of_Z n) (of_Z d).

(** Python's comparison operators on floats; every comparison with a
    NaN is [False]. *)
Definition lt (x y : float) : bool := SFltb x y.
Definition le (x y : float) : bool := SFleb x y.
Definition gt (x y : float) : bool := SFltb y x.
Definition ge (x y : float) : bool := SFleb y x.
Definition eq (x y : float) : bool := SFeqb x y.

(** The builtins [min(a, b)] and [max(a, b)]: the first argument is kept
    unless the second is strictly smaller (larger). *)
Definition py_min (a b : float) : float := if lt b a then b else a.
Definition py_max (a b : float) : float := if gt b a then b else a.

Definition is_nan (x : float) : bool :=
  match x with S754_nan => true | _ => false end.

(** The representation is a well-formed binary64 value. *)
Definition valid (x : float) : bool := valid_binary prec emax x.

(** Structural equality of representations. *)
Definition same (x y : float) : bool :=
  match x, y with
  | S754_zero a, S754_zero b => Bool.eqb a b
  | S754_infinity a, S754_infinity b => Bool.eqb a b
  | S754_nan, S754_nan => true
  | S754_finite a m e, S754_finite b n f =>
      Bool.eqb a b && Pos.eqb m n && Z.eqb e f
  | _, _ => false
  end.

(** [abs(x)] and [math.isfinite(x)]. *)
Definition abs (x : float) : float := SFabs x.

Definition is_finite (x : float) : bool :=
  match x with
  | S754_zero _ | S754_finite _ _ _ => true
  | S754_infinity _ | S754_nan => false
  end.

(** The exact value of a finite number in units of [2^-k], when it is a
    whole number of them. *)
Definition units (k : Z) (x : float) : option Z :=
  match x with
  | S754_zero _ => Some 0
  | S754_finite s m e =>
      if e + k <? 0 then None
      else Some ((if s then -1 else 1) * Z.shiftl (Z.pos m) (e + k))
  | S754_infinity _ | S754_nan => None
  end.

(** The closed interval [[0.0, 1.0]]. *)
Definition in_unit (x : float) : bool := le (of_Z 0) x && le x (of_Z 1).

(** The literals of the three scripts. *)
Definition c0_0  : float := Eval vm_compute in of_Z 0.
Definition c1_0  : float := Eval vm_compute in of_Z 1.
Definition c0_05 : float := Eval vm_compute in lit 5 100.
Definition c0_1  : float := Eval vm_compute in lit 1 10.
Definition c0_2  : float := Eval vm_compute in lit 2 10.
Definition c0_3  : float := Eval vm_compute in lit 3 10.
Definition c0_4  : float := Eval vm_compute in lit 4 10.
Definition c0_45 : float := Eval vm_compute in lit 45 100.
Definition c0_5  : float := Eval vm_compute in lit 5 10.
Definition c0_55 : float := Eval vm_compute in lit 55 100.
Definition c0_58 : float := Eval vm_compute in lit 58 100.
Definition c0_6  : float := Eval vm_compute in lit 6 10.

End F64.

Definition float : Type := F64.float.

(* ================================================================= *)
(** ** The Python fragment the scripts rely on *)

Module Py.

Inductive exn : Type :=
| ValueError
| TypeError.

Inductive result (A : Type) : Type :=
| Ok (a : A)
| Raise (e : exn).
Arguments Ok {A} a.
Arguments Raise {A} e.

Definition bind {A B : Type} (r : result A) (k : A -> result B) : result B :=
  match r with
  | Ok a => k a
  | Raise e => Raise e
  end.

Definition is_ok {A : Type} (r : result A) : bool :=
  match r with Ok _ => true | Raise _ => false end.

(** [try: body  except: pass] around a body that only updates [st]. *)
Definition try_pass {A : Type} (st : A) (body : result A) : A :=
  match body with
  | Ok st' => st'
  | Raise _ => st
  end.

(** *** Numeric fields of a decoded JSON record

    [d.get(k, 0)] followed by [float(...)]: the key may be absent, hold a
    number or a numeric string (what [float] returns for it is recorded),
    or hold something [float] rejects ([None], a non-numeric string). *)
Inductive num_field : Type :=
| NumAbsent
| NumValue (x : float)
| NumNull
| NumText.

Definition to_float (v : num_field) : result float :=
  match v with
  | NumAbsent => Ok (F64.of_Z 0)
  | NumValue x => Ok x
  | NumNull => Raise TypeError
  | NumText => Raise ValueError
  end.

(** *** Dates

    A [datetime] is naive or carries a UTC offset; both are recorded in
    microseconds.  [datetime.now()] is naive.  Comparing or subtracting a
    naive and an aware value raises [TypeError]. *)
Inductive datetime : Type :=
| Naive (us : Z)
| Aware (us : Z).

(** What [datetime.fromisoformat(s.replace('Z', '+00:00'))] does on a
    non-empty text [s]. *)
Inductive iso_text : Type :=
| IsoBad
| IsoNaive (us : Z)
| IsoAware (us : Z).

Inductive date_field : Type :=
| DateNone
| DateEmpty
| DateText (s : iso_text).

Definition truthy (d : date_field) : bool :=
  match d with DateText _ => true | _ => false end.

Definition fromisoformat (d : date_field) : result datetime :=
  match d with
  | DateText (IsoNaive t) => Ok (Naive t)
  | DateText (IsoAware t) => Ok (Aware t)
  | DateText IsoBad => Raise ValueError
  | DateEmpty => Raise ValueError
  | DateNone => Raise TypeError
  end.

Definition dt_gt (a b : datetime) : result bool :=
  match a, b with
  | Naive x, Naive y => Ok (y <? x)
  | Aware x, Aware y => Ok (y <? x)
  | _, _ => Raise TypeError
  end.

Definition dt_lt (a b : datetime) : result bool :=
  match a, b with
  | Naive x, Naive y => Ok (x <? y)
  | Aware x, Aware y => Ok (x <? y)
  | _, _ => Raise TypeError
  end.

Definition us_per_day : Z := 86400000000.

(** [(a - b).days]: the difference floored to whole days. *)
Definition dt_days (a b : datetime) : result Z :=
  match a, b with
  | Naive x, Naive y => Ok ((x - y) / us_per_day)
  | Aware x, Aware y => Ok ((x - y) / us_per_day)
  | _, _ => Raise TypeError
  end.

(** *** Text *)

Definition lower_char (c : ascii) : ascii :=
  let n := N_of_ascii c in
  if (65 <=? n)%N && (n <=? 90)%N then ascii_of_N (n + 32) else c.

Fixpoint lower (s : string) : string :=
  match s with
  | EmptyString => EmptyString
  | String c r => String (lower_char c) (lower r)
  end.

(** [word in text]. *)
Fixpoint is_in (word text : string) : bool :=
  if String.prefix word text then true
  else match text with
       | EmptyString => false
       | String _ rest => is_in word rest
       end.

(** [sum(1 for word in words if word in text)]. *)
Definition count_in (words : list string) (text : string) : Z :=
  Z.of_nat (List.length (filter (fun w => is_in w text) words)).

(** [a / b] on integers (true division). *)
Definition truediv (a b : Z) : float := F64.div (F64.of_Z a) (F64.of_Z b).

(** *** The builtin [sum]

    [sum(xs)] starts from the integer [0] and adds the items from left to
    right.  CPython up to 3.11 does just that.  Since CPython 3.12 the
    first float is added to the integer start as before, and every further
    float goes through a compensated addition (Neumaier): the rounding
    error of each addition is collected in [c] and added to the total when
    the items are exhausted, unless it is zero or not finite. *)
Inductive cpython : Type :=
| UpTo311
| From312.

Fixpoint neumaier (f_result c : float) (xs : list float) : float :=
  match xs with
  | [] =>
      if negb (F64.eq c (F64.of_Z 0)) && F64.is_finite c
      then F64.add f_result c
      else f_result
  | x :: rest =>
      let t := F64.add f_result x in
      let c :=
        if F64.ge (F64.abs f_result) (F64.abs x)
        then F64.add c (F64.add (F64.sub f_result t) x)
        else F64.add c (F64.add (F64.sub x t) f_result) in
      neumaier t c rest
  end.

(** [sum(xs)] on a list of floats. *)
Definition sum (py : cpython) (xs : list float) : float :=
  match py with
  | UpTo311 => fold_left F64.add xs (F64.of_Z 0)
  | From312 =>
      match xs with
      | [] => F64.of_Z 0
      | x :: rest => neumaier (F64.add (F64.of_Z 0) x) (F64.of_Z 0) rest
      end
  end.

(** *** Formatted text

    An f-string is kept as its pieces: the literal parts and the values
    with their format specifier. *)
Inductive piece : Type :=
| Lit (s : string)
| F2 (x : float)
| Money (x : float)
| Int (n : Z).

Definition line : Type := list piece.

(** A [for] loop that appends to a list: an iteration either skips its
    item ([continue], or the last test fails) or appends one, and an
    exception leaves the loop. *)
Fixpoint collect {A B : Type} (body : A -> result (option B)) (l : list A)
  : result (list B) :=
  match l with
  | [] => Ok []
  | x :: rest =>
      match body x with
      | Raise e => Raise e
      | Ok kept =>
          match collect body rest with
          | Raise e => Raise e
          | Ok tail =>
              Ok (match kept with Some y => y :: tail | None => tail end)
          end
      end
  end.

(** [xs.sort(key=..., reverse=True)]: a stable sort, largest key first. *)
Section Sort.
Context {A : Type} (key : A -> float).

Fixpoint insert_desc (x : A) (l : list A) : list A :=
  match l with
  | [] => [x]
  | y :: l' =>
      if F64.lt (key x) (key y) then y :: insert_desc x l' else x :: l
  end.

Definition sort_desc (l : list A) : list A :=
  fold_right insert_desc [] l.
End Sort.

End Py.

Import Py.

Declare Scope py_scope.
Delimit Scope py_scope with py.
Notation "x <- r ;; k" := (Py.bind r (fun x => k))
  (at level 61, r at next level, right associativity) : py_scope.
Local Open Scope py_scope.
Local Open Scope string_scope.
Local Open Scope list_scope.
Local Open Scope Z_scope.

(* ================================================================= *)
(** ** Records exchanged with the market-data API *)

Record market : Type := Market {
  mk_id : string;
  mk_question : string;
  mk_volume : num_field;
  mk_liquidity : num_field;
  mk_endDate : date_field;
  (* context copied from the parent event by [get_markets_from_events] *)
  mk_event_id : string;
  mk_event_title : string;
  mk_event_category : string;
  mk_event_end_date : date_field;
  (* written by the batch pre-filter *)
  mk_hype_score : option float
}.

Record event : Type := Event {
  ev_id : string;
  ev_title : string;
  ev_category : string;
  ev_endDate : date_field;
  ev_markets : list market
}.

Inductive action : Type := BUY | SELL | HOLD.

Definition action_name (a : action) : string :=
  match a with BUY => "BUY" | SELL => "SELL" | HOLD => "HOLD" end.

Definition set_hype_score (m : market) (h : float) : market :=
  {| mk_id := mk_id m; mk_question := mk_question m;
     mk_volume := mk_volume m; mk_liquidity := mk_liquidity m;
     mk_endDate := mk_endDate m; mk_event_id := mk_event_id m;
     mk_event_title := mk_event_title m;
     mk_event_category := mk_event_category m;
     mk_event_end_date := mk_event_end_date m;
     mk_hype_score := Some h |}.

(** [x['hype_score']] as a sort key; the pre-filter stores the key in every
    market it keeps before the sort runs. *)
Definition hype_key (m : market) : float :=
  match mk_hype_score m with
  | Some h => h
  | None => S754_nan
  end.

(* ================================================================= *)
(** ** ai_trading_system.py *)

Module AiTradingSystem.

(** The dictionaries returned by the scorers. *)
Record scored : Type := Scored {
  score : float;
  analysis : list line;
  sources : list string
}.

Record decision : Type := Decision {
  d_recommendation : action;
  d_confidence : float;
  d_reasoning : line;
  d_analysis : list line
}.

Record analysis_data : Type := AnalysisData {
  a_event_id : string;
  a_market_id : string;
  a_question : string;
  a_chain_of_thought : list line;
  a_recommendation : action;
  a_confidence : float;
  a_reasoning : line;
  a_data_sources : list string;
  a_volume : float;
  a_liquidity : float;
  a_days_until_end : Z;
  a_sentiment_score : float;
  a_historical_score : float;
  a_risk_score : float
}.

(** *** get_current_active_markets: the loop over the fetched events *)

Definition event_is_current (current_date : datetime) (ev : event) : bool :=
  let end_date := ev_endDate ev in
  if truthy end_date then
    match (end_dt <- fromisoformat end_date ;; dt_gt end_dt current_date) with
    | Ok b => b
    | Raise _ => true
    end
  else true.

Definition current_events (current_date : datetime) (data : list event)
  : list event :=
  filter (event_is_current current_date) data.

(** *** Keyword sentiment *)

Definition positive_current : list string :=
  ["rate cut"; "rate cuts"; "stimulus"; "growth"; "recovery"; "bullish";
   "positive"].
Definition negative_current : list string :=
  ["rate hike"; "recession"; "crisis"; "crash"; "bearish"; "negative";
   "decline"].
Definition positive_words : list string :=
  ["win"; "success"; "up"; "rise"; "gain"; "beat"; "victory"].
Definition negative_words : list string :=
  ["lose"; "fail"; "down"; "fall"; "loss"; "defeat"].

Definition positive_econ : list string :=
  ["growth"; "boom"; "recovery"; "increase"; "improve"; "strong"].
Definition negative_econ : list string :=
  ["recession"; "crisis"; "decline"; "weak"; "fall"; "crash"].

Definition positive_social : list string :=
  ["trending"; "popular"; "viral"; "hype"; "excited"; "optimistic"].
Definition negative_social : list string :=
  ["controversy"; "scandal"; "concern"; "worried"; "pessimistic"].

(** The counts the Reddit channel ends up with: the current-affairs
    keywords, or the general ones when none of the former occurs. *)
Definition reddit_counts (question : string) : Z * Z :=
  let question_lower := lower question in
  let pos_count := count_in positive_current question_lower in
  let neg_count := count_in negative_current question_lower in
  if pos_count + neg_count =? 0 then
    (count_in positive_words question_lower,
     count_in negative_words question_lower)
  else (pos_count, neg_count).

Definition _get_reddit_sentiment (question : string) : float :=
  let '(pos_count, neg_count) := reddit_counts question in
  if 0 <? pos_count + neg_count
  then truediv pos_count (pos_count + neg_count)
  else F64.c0_5.

Definition _get_news_sentiment (question : string) : float :=
  let question_lower := lower question in
  let pos_count := count_in positive_econ question_lower in
  let neg_count := count_in negative_econ question_lower in
  if 0 <? pos_count + neg_count
  then truediv pos_count (pos_count + neg_count)
  else F64.c0_5.

Definition _get_social_sentiment (question : string) : float :=
  let question_lower := lower question in
  let pos_count := count_in positive_social question_lower in
  let neg_count := count_in negative_social question_lower in
  if 0 <? pos_count + neg_count
  then truediv pos_count (pos_count + neg_count)
  else F64.c0_5.

Definition _analyze_market_sentiment (py : cpython) (question : string)
  : scored :=
  let reddit_score := _get_reddit_sentiment question in
  let news_score := _get_news_sentiment question in
  let social_score := _get_social_sentiment question in
  let sentiment_scores := [reddit_score; news_score; social_score] in
  let score :=
    F64.div (sum py sentiment_scores)
            (F64.of_Z (Z.of_nat (List.length sentiment_scores))) in
  {| score := score;
     analysis :=
       [ [Lit "  Reddit Sentiment Analysis:"];
         [Lit "    - Reddit sentiment: "; F2 reddit_score];
         [Lit "  News Sentiment Analysis:"];
         [Lit "    - News sentiment: "; F2 news_score];
         [Lit "  Social Media Sentiment:"];
         [Lit "    - Social sentiment: "; F2 social_score];
         [Lit "  Overall sentiment score: "; F2 score] ];
     sources :=
       ["Reddit API (free)"; "News keyword analysis (free)";
        "Social media keyword analysis (free)"] |}.

(** *** Historical / activity score *)

Definition volume_band (score : float) (volume : float) : float * line :=
  if F64.gt volume (F64.of_Z 100000) then
    (F64.add score F64.c0_2,
     [Lit "    - Very high volume (>$100K) - Strong interest"])
  else if F64.gt volume (F64.of_Z 50000) then
    (F64.add score F64.c0_1,
     [Lit "    - High volume (>$50K) - Good interest"])
  else if F64.gt volume (F64.of_Z 10000) then
    (score, [Lit "    - Moderate volume (>$10K) - Decent interest"])
  else
    (F64.sub score F64.c0_1,
     [Lit "    - Low volume (<$10K) - Limited interest"]).

Definition liquidity_band (score : float) (liquidity : float)
  : float * line :=
  if F64.gt liquidity (F64.of_Z 10000) then
    (F64.add score F64.c0_2,
     [Lit "    - High liquidity (>$10K) - Easy to trade"])
  else if F64.gt liquidity (F64.of_Z 1000) then
    (F64.add score F64.c0_1,
     [Lit "    - Good liquidity (>$1K) - Tradeable"])
  else if F64.gt liquidity (F64.of_Z 100) then
    (score, [Lit "    - Low liquidity (>$100) - Hard to trade"])
  else
    (F64.sub score F64.c0_2,
     [Lit "    - Very low liquidity (<$100) - Very hard to trade"]).

Definition high_volatility : list string := ["sports"; "politics"; "crypto"].

Definition category_band (score : float) (category : string)
  : float * line :=
  if existsb (String.eqb (lower category)) high_volatility then
    (F64.add score F64.c0_1,
     [Lit "    - High-volatility category: "; Lit category])
  else (score, [Lit "    - Category: "; Lit category]).

Definition clamp (score : float) : float :=
  F64.py_min (F64.py_max score F64.c0_0) F64.c1_0.

Definition _analyze_historical_performance (ev : event) (m : market)
  : result scored :=
  let score := F64.c0_5 in
  volume <- to_float (mk_volume m) ;;
  let '(score, l1) := volume_band score volume in
  liquidity <- to_float (mk_liquidity m) ;;
  let '(score, l2) := liquidity_band score liquidity in
  let category := ev_category ev in
  let '(score, l3) := category_band score category in
  Ok {| score := clamp score;
        analysis :=
          [ [Lit "  Volume Analysis:"]; l1;
            [Lit "  Liquidity Analysis:"]; l2;
            [Lit "  Category Analysis:"]; l3 ];
        sources := ["Polymarket historical data (free)"] |}.

(** *** Risk score *)

Definition time_risk (score : float) (days_until_end : Z) : float * line :=
  if days_until_end <=? 1 then
    (F64.sub score F64.c0_3,
     [Lit "    - Very high time risk (ends within 1 day)"])
  else if days_until_end <=? 3 then
    (F64.sub score F64.c0_2,
     [Lit "    - High time risk (ends within 3 days)"])
  else if days_until_end <=? 7 then
    (F64.sub score F64.c0_1,
     [Lit "    - Moderate time risk (ends within 1 week)"])
  else if days_until_end <=? 30 then
    (F64.add score F64.c0_1,
     [Lit "    - Low time risk (ends within 1 month)"])
  else
    (F64.add score F64.c0_2,
     [Lit "    - Very low time risk (ends in >1 month)"]).

Definition liquidity_risk (score : float) (liquidity : float)
  : float * line :=
  if F64.gt liquidity (F64.of_Z 5000) then
    (F64.add score F64.c0_1,
     [Lit "    - Low liquidity risk (high liquidity)"])
  else if F64.gt liquidity (F64.of_Z 1000) then
    (score, [Lit "    - Moderate liquidity risk"])
  else
    (F64.sub score F64.c0_2,
     [Lit "    - High liquidity risk (low liquidity)"]).

Definition _assess_trading_risk (m : market) (days_until_end : Z)
  : result scored :=
  let score := F64.c0_5 in
  let '(score, l1) := time_risk score days_until_end in
  liquidity <- to_float (mk_liquidity m) ;;
  let '(score, l2) := liquidity_risk score liquidity in
  Ok {| score := clamp score;
        analysis :=
          [ [Lit "  Time Risk Analysis:"]; l1;
            [Lit "  Liquidity Risk Analysis:"]; l2 ];
        sources := [] |}.

(** *** Recommendation *)

Definition overall_of (sentiment_score historical_score risk_score : float)
  : float :=
  F64.add
    (F64.add (F64.mul sentiment_score F64.c0_4)
             (F64.mul historical_score F64.c0_3))
    (F64.mul risk_score F64.c0_3).

Definition _generate_recommendation
    (volume liquidity : float) (days_until_end : Z)
    (sentiment_score historical_score risk_score : float) : decision :=
  let overall_score :=
    F64.add
      (F64.add (F64.mul sentiment_score F64.c0_4)
               (F64.mul historical_score F64.c0_3))
      (F64.mul risk_score F64.c0_3) in
  let '(recommendation, confidence, reasoning) :=
    if F64.ge overall_score F64.c0_6 then
      (BUY, overall_score,
       [Lit "Strong positive signals for current market (score: ";
        F2 overall_score; Lit ")"])
    else if F64.ge overall_score F64.c0_55 then
      (BUY, overall_score,
       [Lit "Positive signals with good confidence for current market (score: ";
        F2 overall_score; Lit ")"])
    else if F64.le overall_score F64.c0_4 then
      (SELL, F64.sub F64.c1_0 overall_score,
       [Lit "Negative signals for current market (score: ";
        F2 overall_score; Lit ")"])
    else if F64.le overall_score F64.c0_45 then
      (SELL, F64.sub F64.c1_0 overall_score,
       [Lit "Negative signals with good confidence for current market (score: ";
        F2 overall_score; Lit ")"])
    else
      (HOLD, F64.c0_5,
       [Lit "Mixed signals for current market (score: ";
        F2 overall_score; Lit ")"]) in
  {| d_recommendation := recommendation;
     d_confidence := confidence;
     d_reasoning := reasoning;
     d_analysis :=
       [ [Lit "  Overall Score Calculation:"];
         [Lit "    - Sentiment: "; F2 sentiment_score; Lit " (weight: 0.4)"];
         [Lit "    - Historical: "; F2 historical_score; Lit " (weight: 0.3)"];
         [Lit "    - Risk: "; F2 risk_score; Lit " (weight: 0.3)"];
         [Lit "    - Overall Score: "; F2 overall_score];
         [Lit "  Recommendation: "; Lit (action_name recommendation)];
         [Lit "  Confidence: "; F2 confidence];
         Lit "  Reasoning: " :: reasoning ] |}.

(** *** analyze_market_for_trading *)

Definition NL : string := String (ascii_of_N 10) EmptyString.

Definition days_until (now : datetime) (end_date : date_field) : Z :=
  let days_until_end := 0 in
  if truthy end_date then
    try_pass days_until_end
      (end_dt <- fromisoformat end_date ;; dt_days end_dt now)
  else days_until_end.

Definition analyze_market_for_trading (py : cpython) (now : datetime)
    (ev : event) (m : market) : result analysis_data :=
  let event_id := ev_id ev in
  let market_id := mk_id m in
  let question := mk_question m in
  volume <- to_float (mk_volume m) ;;
  liquidity <- to_float (mk_liquidity m) ;;
  let end_date := mk_endDate m in
  let days_until_end := days_until now end_date in
  let sentiment_data := _analyze_market_sentiment py question in
  historical_data <- _analyze_historical_performance ev m ;;
  risk_data <- _assess_trading_risk m days_until_end ;;
  let recommendation_data :=
    _generate_recommendation volume liquidity days_until_end
      (score sentiment_data) (score historical_data) (score risk_data) in
  Ok {| a_event_id := event_id;
        a_market_id := market_id;
        a_question := question;
        a_chain_of_thought :=
          [ [Lit "STEP 1: Analyzing Polymarket Data"];
            [Lit "  - Volume: $"; Money volume];
            [Lit "  - Liquidity: $"; Money liquidity];
            [Lit "  - Days until end: "; Int days_until_end];
            [Lit NL; Lit "STEP 2: Market Sentiment Analysis"] ]
          ++ analysis sentiment_data
          ++ [ [Lit NL; Lit "STEP 3: Historical Performance Analysis"] ]
          ++ analysis historical_data
          ++ [ [Lit NL; Lit "STEP 4: Risk Assessment"] ]
          ++ analysis risk_data
          ++ [ [Lit NL; Lit "STEP 5: Generate Trading Recommendation"] ]
          ++ d_analysis recommendation_data;
        a_recommendation := d_recommendation recommendation_data;
        a_confidence := d_confidence recommendation_data;
        a_reasoning := d_reasoning recommendation_data;
        a_data_sources :=
          sources sentiment_data ++ sources historical_data;
        a_volume := volume;
        a_liquidity := liquidity;
        a_days_until_end := days_until_end;
        a_sentiment_score := score sentiment_data;
        a_historical_score := score historical_data;
        a_risk_score := score risk_data |}.

(** *** run_trading_analysis: the activity filter and the analysis loop *)

Definition has_activity (m : market) : result bool :=
  liquidity <- to_float (mk_liquidity m) ;;
  volume <- to_float (mk_volume m) ;;
  Ok (F64.gt liquidity (F64.of_Z 0) || F64.gt volume (F64.of_Z 1000)).

Fixpoint active_in_event (ev : event) (markets : list market)
  : result (list (event * market)) :=
  match markets with
  | [] => Ok []
  | m :: rest =>
      keep <- has_activity m ;;
      tail <- active_in_event ev rest ;;
      Ok (if keep then (ev, m) :: tail else tail)
  end.

Fixpoint active_markets (events : list event)
  : result (list (event * market)) :=
  match events with
  | [] => Ok []
  | ev :: rest =>
      here <- active_in_event ev (ev_markets ev) ;;
      tail <- active_markets rest ;;
      Ok (here ++ tail)
  end.

(** The analysis loop; [clock k] is what [datetime.now()] returns inside
    the [k]-th call of [analyze_market_for_trading]. *)
Fixpoint analyze_all (py : cpython) (clock : nat -> datetime) (k : nat)
    (ms : list (event * market)) : result (list analysis_data) :=
  match ms with
  | [] => Ok []
  | (ev, m) :: rest =>
      a <- analyze_market_for_trading py (clock k) ev m ;;
      tail <- analyze_all py clock (S k) rest ;;
      Ok (a :: tail)
  end.

(** [response] is what the request for the events returned, [None] when
    it failed. *)
Definition run_trading_analysis (py : cpython) (current_date : datetime)
    (clock : nat -> datetime) (response : option (list event))
  : result (option (list analysis_data)) :=
  match response with
  | None => Ok None
  | Some data =>
      let events := current_events current_date data in
      active <- active_markets events ;;
      recommendations <- analyze_all py clock 0 (firstn 15 active) ;;
      Ok (Some recommendations)
  end.

End AiTradingSystem.

(* ================================================================= *)
(** ** enhanced_market_analyzer.py *)

Module EnhancedMarketAnalyzer.

Definition with_event_context (ev : event) (m : market) : market :=
  {| mk_id := mk_id m; mk_question := mk_question m;
     mk_volume := mk_volume m; mk_liquidity := mk_liquidity m;
     mk_endDate := mk_endDate m;
     mk_event_id := ev_id ev;
     mk_event_title := ev_title ev;
     mk_event_category := ev_category ev;
     mk_event_end_date := ev_endDate ev;
     mk_hype_score := mk_hype_score m |}.

Definition get_markets_from_events (events : list event) : list market :=
  flat_map (fun ev => map (with_event_context ev) (ev_markets ev)) events.

Definition volume_component (score volume : float) : float :=
  if F64.gt volume (F64.of_Z 50000) then F64.add score F64.c0_6
  else if F64.gt volume (F64.of_Z 20000) then F64.add score F64.c0_4
  else if F64.gt volume (F64.of_Z 10000) then F64.add score F64.c0_3
  else if F64.gt volume (F64.of_Z 5000) then F64.add score F64.c0_2
  else if F64.gt volume (F64.of_Z 1000) then F64.add score F64.c0_1
  else score.

Definition liquidity_component (score liquidity : float) : float :=
  if F64.gt liquidity (F64.of_Z 10000) then F64.add score F64.c0_4
  else if F64.gt liquidity (F64.of_Z 5000) then F64.add score F64.c0_3
  else if F64.gt liquidity (F64.of_Z 2000) then F64.add score F64.c0_2
  else if F64.gt liquidity (F64.of_Z 1000) then F64.add score F64.c0_1
  else if F64.gt liquidity (F64.of_Z 100) then F64.add score F64.c0_05
  else score.

Definition hype_of (volume liquidity : float) : float :=
  let score := F64.c0_0 in
  let score := volume_component score volume in
  let score := liquidity_component score liquidity in
  F64.py_min score F64.c1_0.

Definition _calculate_hype_score (m : market) : result float :=
  volume <- to_float (mk_volume m) ;;
  liquidity <- to_float (mk_liquidity m) ;;
  Ok (hype_of volume liquidity).

(** The first [try] of the loop body: is the market known to have ended? *)
Definition ended (current_date : datetime) (end_date : date_field) : bool :=
  if truthy end_date then
    try_pass false
      (end_dt <- fromisoformat end_date ;; dt_lt end_dt current_date)
  else false.

(** The second [try]: the urgency bonus. *)
Definition with_urgency (current_date : datetime) (end_date : date_field)
    (score : float) : float :=
  if truthy end_date then
    try_pass score
      (end_dt <- fromisoformat end_date ;;
       days_left <- dt_days end_dt current_date ;;
       Ok (if days_left <=? 7 then F64.add score F64.c0_2 else score))
  else score.

(** One iteration of the loop: [None] when the market is skipped. *)
Definition consider (current_date : datetime) (m : market)
  : result (option market) :=
  let end_date := mk_event_end_date m in
  if ended current_date end_date then Ok None
  else
    liquidity <- to_float (mk_liquidity m) ;;
    if F64.le liquidity (F64.of_Z 0) then Ok None
    else
      score <- _calculate_hype_score m ;;
      let score := with_urgency current_date end_date score in
      if F64.gt score F64.c0_1
      then Ok (Some (set_hype_score m (F64.py_min score F64.c1_0)))
      else Ok None.

(** The report printed for a selected market slices its end date, which
    fails on [None]. *)
Definition show (m : market) : result unit :=
  match mk_event_end_date m with
  | DateNone => Raise TypeError
  | _ => Ok tt
  end.

Fixpoint show_all (ms : list market) : result unit :=
  match ms with
  | [] => Ok tt
  | m :: rest => _ <- show m ;; show_all rest
  end.

Definition get_current_markets (current_date : datetime)
    (events_result : option (list event)) : result (list market) :=
  match events_result with
  | None => Ok []
  | Some events =>
      let all_markets := get_markets_from_events events in
      active_markets <- collect (consider current_date) all_markets ;;
      let active_markets := sort_desc hype_key active_markets in
      let top_markets := firstn 5 active_markets in
      _ <- show_all top_markets ;;
      Ok top_markets
  end.

End EnhancedMarketAnalyzer.

(* ================================================================= *)
(** ** simple_market_analyzer.py *)

Module SimpleMarketAnalyzer.

Definition volume_component (score volume : float) : float :=
  if F64.gt volume (F64.of_Z 10000) then F64.add score F64.c0_6
  else if F64.gt volume (F64.of_Z 5000) then F64.add score F64.c0_4
  else if F64.gt volume (F64.of_Z 1000) then F64.add score F64.c0_2
  else if F64.gt volume (F64.of_Z 100) then F64.add score F64.c0_1
  else score.

Definition liquidity_component (score liquidity : float) : float :=
  if F64.gt liquidity (F64.of_Z 5000) then F64.add score F64.c0_4
  else if F64.gt liquidity (F64.of_Z 1000) then F64.add score F64.c0_3
  else if F64.gt liquidity (F64.of_Z 500) then F64.add score F64.c0_2
  else if F64.gt liquidity (F64.of_Z 100) then F64.add score F64.c0_1
  else score.

Definition hype_of (volume liquidity : float) : float :=
  let score := F64.c0_0 in
  let score := volume_component score volume in
  let score := liquidity_component score liquidity in
  F64.py_min score F64.c1_0.

Definition _calculate_simple_hype_score (m : market) : result float :=
  volume <- to_float (mk_volume m) ;;
  liquidity <- to_float (mk_liquidity m) ;;
  Ok (hype_of volume liquidity).

Definition consider (current_date : datetime) (m : market)
  : result (option market) :=
  let end_date := mk_endDate m in
  if EnhancedMarketAnalyzer.ended current_date end_date then Ok None
  else
    liquidity <- to_float (mk_liquidity m) ;;
    if F64.le liquidity (F64.of_Z 0) then Ok None
    else
      score <- _calculate_simple_hype_score m ;;
      let score :=
        EnhancedMarketAnalyzer.with_urgency current_date end_date score in
      if F64.gt score F64.c0_1
      then Ok (Some (set_hype_score m (F64.py_min score F64.c1_0)))
      else Ok None.

(** [api_result] is the data of the markets request, [None] when it
    failed. *)
Definition get_hype_markets (current_date : datetime)
    (api_result : option (list market)) : result (list market) :=
  match api_result with
  | None => Ok []
  | Some markets =>
      hype_markets <- collect (consider current_date) markets ;;
      let hype_markets := sort_desc hype_key hype_markets in
      Ok (firstn 5 hype_markets)
  end.

End SimpleMarketAnalyzer.

(* ================================================================= *)
(** ** The decision tables as the specification words them *)

Module Spec.

(** [overall = sentiment*0.4 + historical*0.3 + risk*0.3]. *)
Definition weighted_overall (sentiment historical risk : float) : float :=
  F64.add
    (F64.add (F64.mul sentiment (F64.lit 4 10))
             (F64.mul historical (F64.lit 3 10)))
    (F64.mul risk (F64.lit 3 10)).

(** A band: its test, its recommendation and its confidence. *)
Definition band : Type := (float -> bool) * action * (float -> float).

(** Bands are tried top-down and the first match wins; [HOLD] with
    confidence 0.5 when none matches. *)
Fixpoint first_match (bands : list band) (overall : float)
  : action * float :=
  match bands with
  | [] => (HOLD, F64.lit 5 10)
  | (test, rec, conf) :: rest =>
      if test overall then (rec, conf overall) else first_match rest overall
  end.

Definition four_bands : list band :=
  [ (fun o => F64.ge o (F64.lit 6 10), BUY, fun o => o);
    (fun o => F64.ge o (F64.lit 55 100), BUY, fun o => o);
    (fun o => F64.le o (F64.lit 4 10), SELL, fun o => F64.sub (F64.of_Z 1) o);
    (fun o => F64.le o (F64.lit 45 100), SELL,
     fun o => F64.sub (F64.of_Z 1) o) ].

Definition two_bands : list band :=
  [ (fun o => F64.ge o (F64.lit 55 100), BUY, fun o => o);
    (fun o => F64.le o (F64.lit 45 100), SELL,
     fun o => F64.sub (F64.of_Z 1) o) ].

(** A sentiment sub-channel: neutral without keywords, the share of the
    positive ones otherwise. *)
Definition sub_score (pos neg : Z) : float :=
  if pos + neg =? 0 then F64.lit 5 10 else truediv pos (pos + neg).

Definition mean3 (a b c : float) : float :=
  F64.div (F64.add (F64.add a b) c) (F64.of_Z 3).

(** [y] is the arithmetic mean of [a], [b] and [c] up to [2^-52]:
    [|3*y - (a + b + c)| <= 3 * 2^-52] in exact arithmetic, the four
    numbers being whole multiples of [2^-64]. *)
Definition near_mean3 (a b c y : float) : bool :=
  match F64.units 64 a, F64.units 64 b, F64.units 64 c, F64.units 64 y with
  | Some A, Some B, Some C, Some Y =>
      Z.abs (3 * Y - (A + B + C)) <=? 3 * 2 ^ (64 - 52)
  | _, _, _, _ => false
  end.

End Spec.

(** The literal text a reasoning line starts with. *)
Definition template (l : line) : string :=
  match l with
  | Lit s :: _ => s
  | _ => ""
  end.

(** Descending order of a key, and keys that are numbers. *)
Definition desc_by {A : Type} (key : A -> float) (a b : A) : Prop :=
  F64.le (key b) (key a) = true.
Definition ordered_by {A : Type} (key : A -> float) (a : A) : Prop :=
  F64.is_nan (key a) = false.

(** Descending order of the ranking key. *)
Definition by_hype_desc : market -> market -> Prop := desc_by hype_key.

(** The pre-filter keeps [m] with the score [score]: the score passes the
    threshold and is stored, capped at 1.0. *)
Definition kept_as (score : float) (m k : market) : Prop :=
  F64.gt score F64.c0_1 = true /\
  k = set_hype_score m (F64.py_min score F64.c1_0).

(** A stored ranking key in [(0.1, 1.0]]. *)
Definition good_key (k : market) : Prop :=
  exists h, mk_hype_score k = Some h /\
            F64.gt h F64.c0_1 = true /\ F64.le h F64.c1_0 = true.

(** What the report needs of a selected market. *)
Definition dated (d : date_field) : bool :=
  match d with DateNone => false | _ => true end.

(** Sample records. *)
Definition sample_market (volume liquidity : num_field) : market :=
  {| mk_id := "m1"; mk_question := "Will growth and recovery continue?";
     mk_volume := volume; mk_liquidity := liquidity;
     mk_endDate := DateNone; mk_event_id := "e1"; mk_event_title := "";
     mk_event_category := "politics"; mk_event_end_date := DateEmpty;
     mk_hype_score := None |}.

Definition sample_event (markets : list market) : event :=
  {| ev_id := "e1"; ev_title := ""; ev_category := "politics";
     ev_endDate := DateEmpty; ev_markets := markets |}.

(** Every numeric field the scripts read from the market converts. *)
Definition numeric (m : market) : bool :=
  is_ok (to_float (mk_volume m)) && is_ok (to_float (mk_liquidity m)).

(* ================================================================= *)
(** ** Phase 3 of enhanced_market_analyzer.py: keyword research *)

Module EnhancedResearch.

Record research : Type := Research {
  r_market_id : string;
  r_question : string;
  r_reddit_sentiment : float;
  r_news_sentiment : float;
  r_web_sentiment : float;
  r_confidence_score : float;
  r_recommendation : action
}.

Definition c0_7 : float := Eval vm_compute in F64.lit 7 10.

(** The three sentiment functions wrap their body in [try]; on a text
    query the body raises nothing, so the handler is never entered. *)
Definition _get_reddit_sentiment (query : string) : float :=
  let query_lower := lower query in
  let positive_econ :=
    ["growth"; "bullish"; "positive"; "up"; "rise"; "gain"; "recovery";
     "boom"] in
  let negative_econ :=
    ["recession"; "crash"; "bearish"; "negative"; "down"; "fall";
     "decline"; "bust"] in
  let pos_count := count_in positive_econ query_lower in
  let neg_count := count_in negative_econ query_lower in
  if 0 <? pos_count + neg_count
  then truediv pos_count (pos_count + neg_count)
  else F64.c0_5.

Definition _get_news_sentiment (query : string) : float :=
  let query_lower := lower query in
  let positive_words :=
    ["win"; "success"; "positive"; "up"; "rise"; "gain"; "beat";
     "victory"] in
  let negative_words :=
    ["lose"; "fail"; "negative"; "down"; "fall"; "loss"; "defeat";
     "crisis"] in
  let pos_count := count_in positive_words query_lower in
  let neg_count := count_in negative_words query_lower in
  if 0 <? pos_count + neg_count
  then truediv pos_count (pos_count + neg_count)
  else F64.c0_5.

Definition _get_web_sentiment (query : string) : float :=
  let query_lower := lower query in
  let positive_words :=
    ["optimistic"; "strong"; "increase"; "improve"; "better"; "win"] in
  let negative_words :=
    ["pessimistic"; "weak"; "decrease"; "worse"; "decline"; "lose"] in
  let pos_count := count_in positive_words query_lower in
  let neg_count := count_in negative_words query_lower in
  if 0 <? pos_count + neg_count
  then truediv pos_count (pos_count + neg_count)
  else F64.c0_5.

(** The vote over the three sentiments. *)
Definition vote (sentiments : list float) : float * action :=
  let positive_count :=
    Z.of_nat (List.length (filter (fun s => F64.gt s F64.c0_6) sentiments)) in
  let negative_count :=
    Z.of_nat (List.length (filter (fun s => F64.lt s F64.c0_4) sentiments)) in
  if 2 <=? positive_count then (c0_7, BUY)
  else if 2 <=? negative_count then (F64.c0_3, SELL)
  else (F64.c0_5, HOLD).

Definition research_market (m : market) : research :=
  let question := mk_question m in
  let reddit_sentiment := _get_reddit_sentiment question in
  let news_sentiment := _get_news_sentiment question in
  let web_sentiment := _get_web_sentiment question in
  let sentiments := [reddit_sentiment; news_sentiment; web_sentiment] in
  let '(confidence_score, recommendation) := vote sentiments in
  {| r_market_id := mk_id m;
     r_question := question;
     r_reddit_sentiment := reddit_sentiment;
     r_news_sentiment := news_sentiment;
     r_web_sentiment := web_sentiment;
     r_confidence_score := confidence_score;
     r_recommendation := recommendation |}.

Definition is_action (a : action) (r : research) : bool :=
  match a, r_recommendation r with
  | BUY, BUY | SELL, SELL | HOLD, HOLD => true
  | _, _ => false
  end.

(** The dictionary returned by [run_complete_analysis]. *)
Inductive outcome : Type :=
| NoMarkets
| Analysed (current_markets : list market)
           (research_results : list research)
           (total_analyzed buy_recommendations sell_recommendations : Z).

Definition run_complete_analysis (current_date : datetime)
    (events_result : option (list event)) : result outcome :=
  current_markets <-
    EnhancedMarketAnalyzer.get_current_markets current_date events_result ;;
  match current_markets with
  | [] => Ok NoMarkets
  | _ =>
      let research_results := map research_market current_markets in
      let buy_recommendations := filter (is_action BUY) research_results in
      let sell_recommendations := filter (is_action SELL) research_results in
      Ok (Analysed current_markets research_results
            (Z.of_nat (List.length research_results))
            (Z.of_nat (List.length buy_recommendations))
            (Z.of_nat (List.length sell_recommendations)))
  end.

End EnhancedResearch.

(* ================================================================= *)
(** ** Phase 3 of simple_market_analyzer.py *)

Module SimpleResearch.

Definition _get_reddit_sentiment (query : string) : float :=
  let query_lower := lower query in
  let positive_econ :=
    ["growth"; "bullish"; "positive"; "up"; "rise"; "gain"; "recovery"] in
  let negative_econ :=
    ["recession"; "crash"; "bearish"; "negative"; "down"; "fall";
     "decline"] in
  let pos_count := count_in positive_econ query_lower in
  let neg_count := count_in negative_econ query_lower in
  if 0 <? pos_count + neg_count
  then truediv pos_count (pos_count + neg_count)
  else F64.c0_5.

Definition _get_news_sentiment (query : string) : float :=
  let query_lower := lower query in
  let positive_words :=
    ["win"; "success"; "positive"; "up"; "rise"; "gain"; "beat"] in
  let negative_words :=
    ["lose"; "fail"; "negative"; "down"; "fall"; "loss"; "defeat"] in
  let pos_count := count_in positive_words query_lower in
  let neg_count := count_in negative_words query_lower in
  if 0 <? pos_count + neg_count
  then truediv pos_count (pos_count + neg_count)
  else F64.c0_5.

Definition _get_web_sentiment (query : string) : float :=
  let query_lower := lower query in
  let positive_keywords :=
    ["win"; "success"; "positive"; "up"; "rise"; "gain"] in
  let negative_keywords :=
    ["lose"; "fail"; "negative"; "down"; "fall"; "loss"] in
  let pos_count := count_in positive_keywords query_lower in
  let neg_count := count_in negative_keywords query_lower in
  if 0 <? pos_count + neg_count
  then truediv pos_count (pos_count + neg_count)
  else F64.c0_5.

Definition vote (sentiments : list float) : float * action :=
  let positive_count :=
    Z.of_nat (List.length (filter (fun s => F64.gt s F64.c0_5) sentiments)) in
  let negative_count :=
    Z.of_nat (List.length (filter (fun s => F64.lt s F64.c0_3) sentiments)) in
  if 2 <=? positive_count then (EnhancedResearch.c0_7, BUY)
  else if 2 <=? negative_count then (F64.c0_3, SELL)
  else (F64.c0_5, HOLD).

Definition research_market (m : market) : EnhancedResearch.research :=
  let question := mk_question m in
  let reddit_sentiment := _get_reddit_sentiment question in
  let news_sentiment := _get_news_sentiment question in
  let web_sentiment := _get_web_sentiment question in
  let sentiments := [reddit_sentiment; news_sentiment; web_sentiment] in
  let '(confidence_score, recommendation) := vote sentiments in
  {| EnhancedResearch.r_market_id := mk_id m;
     EnhancedResearch.r_question := question;
     EnhancedResearch.r_reddit_sentiment := reddit_sentiment;
     EnhancedResearch.r_news_sentiment := news_sentiment;
     EnhancedResearch.r_web_sentiment := web_sentiment;
     EnhancedResearch.r_confidence_score := confidence_score;
     EnhancedResearch.r_recommendation := recommendation |}.

Definition run_complete_analysis (current_date : datetime)
    (api_result : option (list market)) : result EnhancedResearch.outcome :=
  hype_markets <-
    SimpleMarketAnalyzer.get_hype_markets current_date api_result ;;
  match hype_markets with
  | [] => Ok EnhancedResearch.NoMarkets
  | _ =>
      let research_results := map research_market hype_markets in
      let buy_recommendations :=
        filter (EnhancedResearch.is_action BUY) research_results in
      let sell_recommendations :=
        filter (EnhancedResearch.is_action SELL) research_results in
      Ok (EnhancedResearch.Analysed hype_markets research_results
            (Z.of_nat (List.length research_results))
            (Z.of_nat (List.length buy_recommendations))
            (Z.of_nat (List.length sell_recommendations)))
  end.

End SimpleResearch.

(* ================================================================= *)
(** ** The summary of run_trading_analysis *)

Module AiTradingReport.

Import AiTradingSystem.

(** The counters of the analysis loop. *)
Fixpoint tally (recommendations : list analysis_data) (counts : Z * Z * Z)
  : Z * Z * Z :=
  match recommendations with
  | [] => counts
  | a :: rest =>
      let '(buy_count, sell_count, hold_count) := counts in
      tally rest
        (match a_recommendation a with
         | BUY => (buy_count + 1, sell_count, hold_count)
         | SELL => (buy_count, sell_count + 1, hold_count)
         | HOLD => (buy_count, sell_count, hold_count + 1)
         end)
  end.

(** The recommendations of one kind, as the report lists them. *)
Definition is_rec (which : action) (a : analysis_data) : bool :=
  match which, a_recommendation a with
  | BUY, BUY | SELL, SELL | HOLD, HOLD => true
  | _, _ => false
  end.

Definition count_rec (which : action) (recs : list analysis_data) : Z :=
  Z.of_nat (List.length (filter (is_rec which) recs)).

(** The dictionary returned by [run_trading_analysis]. *)
Inductive report : Type :=
| Failed
| Done (total_analyzed buy_recommendations sell_recommendations
          hold_recommendations : Z)
       (recommendations : list analysis_data).

Definition summary (py : cpython) (current_date : datetime)
    (clock : nat -> datetime) (response : option (list event))
  : result report :=
  outcome <- run_trading_analysis py current_date clock response ;;
  match outcome with
  | None => Ok Failed
  | Some recommendations =>
      let '(buy_count, sell_count, hold_count) :=
        tally recommendations (0, 0, 0) in
      Ok (Done (Z.of_nat (List.length recommendations))
               buy_count sell_count hold_count recommendations)
  end.

End AiTradingReport.

(** At least two of three values pass a test. *)
Definition at_least_two (p : float -> bool) (a b c : float) : bool :=
  (p a && p b) || (p a && p c) || (p b && p c).

(** What a batch script reports for the markets [top] that its ranker
    selected: nothing for an empty selection, otherwise the markets, one
    research result per market and the three counters. *)
Definition reports (research_market : market -> EnhancedResearch.research)
    (top : list market) (out : EnhancedResearch.outcome) : Prop :=
  match out with
  | EnhancedResearch.NoMarkets => top = []
  | EnhancedResearch.Analysed markets results total buy sell =>
      markets = top /\ results = map research_market top /\
      total = Z.of_nat (List.length top) /\ 1 <= total <= 5 /\
      buy = Z.of_nat (List.length
                        (filter (EnhancedResearch.is_action BUY) results)) /\
      sell = Z.of_nat (List.length
                         (filter (EnhancedResearch.is_action SELL) results)) /\
      buy + sell <= total
  end.

(** A market of an event that holds nothing else, and a question without
    any keyword. *)
Definition sample_dated_event (end_date : date_field)
    (markets : list market) : event :=
  {| ev_id := "e2"; ev_title := "Sample"; ev_category := "economy";
     ev_endDate := end_date; ev_markets := markets |}.

Definition plain_market (volume liquidity : num_field)
    (end_date : date_field) : market :=
  {| mk_id := "m2"; mk_question := "Is the sky blue?";
     mk_volume := volume; mk_liquidity := liquidity;
     mk_endDate := end_date; mk_event_id := ""; mk_event_title := "";
     mk_event_category := ""; mk_event_end_date := DateNone;
     mk_hype_score := None |}.

Definition asking (question : string) : market :=
  {| mk_id := "m3"; mk_question := question;
     mk_volume := NumAbsent; mk_liquidity := NumAbsent;
     mk_endDate := DateNone; mk_event_id := ""; mk_event_title := "";
     mk_event_category := ""; mk_event_end_date := DateNone;
     mk_hype_score := None |}.

(* ================================================================= *)
(** ** Shapes of rounded binary64 values *)

(** The result of rounding to mantissa [m] and exponent [e]: a finite
    float, or an infinity past the largest exponent. *)
Definition fin_or_inf (s : bool) (m : positive) (e : Z) : float :=
  if e <=? 971 then S754_finite s m e else S754_infinity s.

(** The mantissa of a finite float fits 53 bits. *)
Definition bounded53 (x : float) : Prop :=
  match x with
  | S754_finite _ m _ => Z.pos m < 2 ^ 53
  | _ => True
  end.

(** A positive float with exponent at least -52, or plus infinity. *)
Definition at_least_one (x : float) : Prop :=
  match x with
  | S754_finite false _ e => -52 <= e
  | S754_infinity false => True
  | _ => False
  end.

(* ================================================================= *)
(** ** Finite enumerations used by the proofs *)

Module Enum.

Definition upto (k : nat) : list Z := map Z.of_nat (seq 0 (S k)).

(** The sub-scores of a channel whose keyword lists have at most [P]
    positive and [N] negative entries. *)
Definition ratios (P N : nat) : list float :=
  flat_map (fun p => map (fun n => Spec.sub_score p n) (upto N)) (upto P).

Fixpoint dedup (l : list float) : list float :=
  match l with
  | [] => []
  | x :: r => if existsb (F64.same x) r then dedup r else x :: dedup r
  end.

Definition reddit_values : list float := dedup (ratios 7 7).
Definition news_values : list float := dedup (ratios 6 6).
Definition social_values : list float := dedup (ratios 6 5).

(** The mean of three sub-scores, as either interpreter computes it, is
    in [[0.0, 1.0]] and within [2^-52] of their exact mean. *)
Definition mean_ok (py : cpython) (a b c : float) : bool :=
  let y := F64.div (sum py [a; b; c]) (F64.of_Z 3) in
  F64.in_unit y && Spec.near_mean3 a b c y.

(** A three-fold [forallb]. *)
Definition all3 {A : Type} (f : A -> A -> A -> bool) (la lb lc : list A)
  : bool :=
  forallb (fun a => forallb (fun b => forallb (fun c => f a b c) lc) lb) la.

Definition zero_neutral (a : float) : bool :=
  F64.same (F64.add (F64.of_Z 0) a) a.

End Enum.

(* ================================================================= *)
(** ** Order facts on binary64 *)

Ltac cmp_cases :=
  repeat match goal with
  | H : context [Z.compare ?a ?b] |- _ => destruct (Z.compare_spec a b)
  | |- context [Z.compare ?a ?b] => destruct (Z.compare_spec a b)
  | H : context [Pos.compare_cont Eq ?a ?b] |- _ =>
      change (Pos.compare_cont Eq a b) with (Pos.compare a b) in *;
      destruct (Pos.compare_spec a b)
  | |- context [Pos.compare_cont Eq ?a ?b] =>
      change (Pos.compare_cont Eq a b) with (Pos.compare a b) in *;
      destruct (Pos.compare_spec a b)
  end.

Ltac order_float :=
  unfold F64.le, F64.lt, F64.gt, F64.ge, F64.eq, SFleb, SFltb, SFeqb,
    SFcompare, F64.is_nan in *;
  repeat match goal with
  | x : F64.float |- _ => destruct x as [[]|[]| |[] ? ?]
  | x : float |- _ => destruct x as [[]|[]| |[] ? ?]
  | x : spec_float |- _ => destruct x as [[]|[]| |[] ? ?]
  end; simpl in *; try congruence; try reflexivity;
  cmp_cases; simpl in *; subst; try congruence; try reflexivity; try lia.

Lemma le_trans (x y z : float) :
  F64.le x y = true -> F64.le y z = true -> F64.le x z = true.
Proof. intros H1 H2. order_float. Qed.

Lemma lt_le_trans (x y z : float) :
  F64.lt x y = true -> F64.le y z = true -> F64.lt x z = true.
Proof. intros H1 H2. order_float. Qed.

Lemma le_lt_trans (x y z : float) :
  F64.le x y = true -> F64.lt y z = true -> F64.lt x z = true.
Proof. intros H1 H2. order_float. Qed.

Lemma not_lt_le (x y : float) :
  F64.is_nan x = false -> F64.is_nan y = false ->
  F64.lt x y = false -> F64.le y x = true.
Proof. intros H1 H2 H3. order_float. Qed.

Lemma lt_not_le (x y : float) :
  F64.lt x y = true -> F64.le y x = false.
Proof. intros H1. order_float. Qed.

Lemma lt_le (x y : float) : F64.lt x y = true -> F64.le x y = true.
Proof. intros H1. order_float. Qed.

Lemma le_not_nan (x y : float) :
  F64.le x y = true -> F64.is_nan x = false /\ F64.is_nan y = false.
Proof. intros H1. split; order_float. Qed.

Lemma lt_not_nan (x y : float) :
  F64.lt x y = true -> F64.is_nan x = false /\ F64.is_nan y = false.
Proof. intros H1. split; order_float. Qed.

Lemma eq_not_lt (x y : float) : F64.eq x y = true -> F64.lt y x = false.
Proof. intros H1. order_float. Qed.

Lemma le_not_lt (x y : float) : F64.le x y = true -> F64.lt y x = false.
Proof. intros H1. order_float. Qed.

Lemma eq_not_gt (x y : float) : F64.eq x y = true -> F64.gt x y = false.
Proof. exact (eq_not_lt x y). Qed.

Lemma le_not_gt (x y : float) : F64.le x y = true -> F64.gt x y = false.
Proof. exact (le_not_lt x y). Qed.

Lemma gt_above (c x y : float) :
  F64.gt x c = true -> F64.le x y = true -> F64.gt y c = true.
Proof. unfold F64.gt. intros H1 H2. exact (lt_le_trans c x y H1 H2). Qed.

(* ================================================================= *)
(** ** The recommendation combiner *)

Import AiTradingSystem.

Lemma literals :
  F64.lit 4 10 = F64.c0_4 /\ F64.lit 3 10 = F64.c0_3 /\
  F64.lit 6 10 = F64.c0_6 /\ F64.lit 55 100 = F64.c0_55 /\
  F64.lit 45 100 = F64.c0_45 /\ F64.lit 5 10 = F64.c0_5 /\
  F64.of_Z 1 = F64.c1_0 /\ F64.of_Z 0 = F64.c0_0.
Proof. vm_compute. repeat split. Qed.

Lemma generate_is_four_bands v l d s h r :
  let dec := _generate_recommendation v l d s h r in
  (d_recommendation dec, d_confidence dec) =
  Spec.first_match Spec.four_bands (Spec.weighted_overall s h r).
Proof.
  destruct literals as (E4 & E3 & E6 & E55 & E45 & E5 & E1 & E0).
  unfold _generate_recommendation, Spec.weighted_overall, Spec.four_bands,
    Spec.first_match.
  rewrite E4, E3, E6, E55, E45, E5, E1.
  set (o := F64.add _ _).
  destruct (F64.ge o F64.c0_6); [reflexivity|].
  destruct (F64.ge o F64.c0_55); [reflexivity|].
  destruct (F64.le o F64.c0_4); [reflexivity|].
  destruct (F64.le o F64.c0_45); reflexivity.
Qed.

(** C4: the combiner weighs the three scores by 0.4 / 0.3 / 0.3 and maps
    the sum through the four bands, first match first; 0.58 gives BUY with
    confidence 0.58 and 0.50 gives HOLD with confidence 0.5 (three scores
    of 0.58, resp. 0.5, have exactly these overall scores). *)
Theorem C4_weighted_bands :
  (forall v l d s h r,
     let dec := _generate_recommendation v l d s h r in
     (d_recommendation dec, d_confidence dec) =
     Spec.first_match Spec.four_bands (Spec.weighted_overall s h r)) /\
  Spec.first_match Spec.four_bands (F64.lit 58 100) = (BUY, F64.lit 58 100) /\
  Spec.first_match Spec.four_bands (F64.lit 50 100) = (HOLD, F64.lit 5 10) /\
  Spec.weighted_overall (F64.lit 58 100) (F64.lit 58 100) (F64.lit 58 100)
    = F64.lit 58 100 /\
  Spec.weighted_overall (F64.lit 5 10) (F64.lit 5 10) (F64.lit 5 10)
    = F64.lit 50 100.
Proof.
  split; [exact generate_is_four_bands|].
  vm_compute. repeat split.
Qed.

Lemma buy_excludes_sell (o : float) :
  F64.ge o (F64.lit 55 100) = true -> F64.le o (F64.lit 45 100) = false.
Proof.
  unfold F64.ge. intros H.
  destruct (F64.le o (F64.lit 45 100)) eqn:E; [|reflexivity].
  pose proof (le_trans _ _ _ H E) as K. vm_compute in K. discriminate.
Qed.

Lemma tight_buy_is_buy (o : float) :
  F64.ge o (F64.lit 6 10) = true -> F64.ge o (F64.lit 55 100) = true.
Proof.
  unfold F64.ge. intros H.
  apply le_trans with (y := F64.lit 6 10); [vm_compute; reflexivity|exact H].
Qed.

Lemma tight_sell_is_sell (o : float) :
  F64.le o (F64.lit 4 10) = true -> F64.le o (F64.lit 45 100) = true.
Proof.
  intros H.
  apply le_trans with (y := F64.lit 4 10); [exact H|vm_compute; reflexivity].
Qed.

Lemma four_bands_two_bands (o : float) :
  Spec.first_match Spec.four_bands o = Spec.first_match Spec.two_bands o.
Proof.
  unfold Spec.four_bands, Spec.two_bands, Spec.first_match.
  destruct (F64.ge o (F64.lit 6 10)) eqn:E6.
  - rewrite (tight_buy_is_buy o E6). reflexivity.
  - destruct (F64.ge o (F64.lit 55 100)) eqn:E55; [reflexivity|].
    destruct (F64.le o (F64.lit 4 10)) eqn:E4; [|reflexivity].
    rewrite (tight_sell_is_sell o E4). reflexivity.
Qed.

(** C5, as the code has it: on recommendation and confidence the four
    bands equal the two-band table (BUY with the overall score iff
    [overall >= 0.55], SELL with [1 - overall] iff [overall <= 0.45], HOLD
    with 0.5 otherwise); each of the five branches of the code is taken by
    some scores and attaches a reasoning text of its own. *)
Theorem C5_two_band_table :
  (forall v l d s h r,
     let dec := _generate_recommendation v l d s h r in
     let o := Spec.weighted_overall s h r in
     (d_recommendation dec, d_confidence dec)
       = Spec.first_match Spec.two_bands o /\
     (d_recommendation dec = BUY <-> F64.ge o (F64.lit 55 100) = true) /\
     (d_recommendation dec = SELL <-> F64.le o (F64.lit 45 100) = true) /\
     (d_recommendation dec = BUY -> d_confidence dec = o) /\
     (d_recommendation dec = SELL ->
      d_confidence dec = F64.sub (F64.of_Z 1) o) /\
     (d_recommendation dec = HOLD -> d_confidence dec = F64.lit 5 10)) /\
  (let text x :=
     template (d_reasoning
       (_generate_recommendation F64.c0_0 F64.c0_0 0 x x x)) in
   text (F64.lit 7 10)
     = "Strong positive signals for current market (score: " /\
   text (F64.lit 58 100)
     = "Positive signals with good confidence for current market (score: " /\
   text (F64.lit 3 10)
     = "Negative signals for current market (score: " /\
   text (F64.lit 42 100)
     = "Negative signals with good confidence for current market (score: " /\
   text (F64.lit 5 10)
     = "Mixed signals for current market (score: ").
Proof.
  split; [|vm_compute; repeat split].
  intros v l d s h r dec o.
  pose proof (generate_is_four_bands v l d s h r) as G.
  fold dec in G. fold o in G. rewrite four_bands_two_bands in G.
  split; [exact G|].
  revert G. unfold Spec.two_bands, Spec.first_match.
  destruct (F64.ge o (F64.lit 55 100)) eqn:E55.
  - rewrite (buy_excludes_sell o E55).
    intros G; inversion G as [[G1 G2]].
    repeat split; intros; congruence.
  - destruct (F64.le o (F64.lit 45 100)) eqn:E45;
      intros G; inversion G as [[G1 G2]];
      repeat split; intros; congruence.
Qed.

(** The claim C5 fails where it says that the tighter thresholds are never
    reached: the branch [overall >= 0.6] is taken, and it is told apart
    from the branch [overall >= 0.55] by the reasoning it returns. *)
Lemma C5_tighter_band_reached :
  ~ (forall s h r : float,
       template (d_reasoning
         (_generate_recommendation F64.c0_0 F64.c0_0 0 s h r))
       <> "Strong positive signals for current market (score: ").
Proof.
  intros H.
  apply (H (F64.lit 7 10) (F64.lit 7 10) (F64.lit 7 10)).
  vm_compute. reflexivity.
Qed.

(* ================================================================= *)
(** ** The sentiment scorer *)

Lemma same_eq (x y : float) : F64.same x y = true -> x = y.
Proof.
  destruct x as [a|a| |a m e], y as [b|b| |b n f]; simpl; try discriminate;
    try reflexivity.
  - intros H. apply Bool.eqb_prop in H. congruence.
  - intros H. apply Bool.eqb_prop in H. congruence.
  - intros H. apply andb_prop in H. destruct H as [H He].
    apply andb_prop in H. destruct H as [Hs Hm].
    apply Bool.eqb_prop in Hs. apply Pos.eqb_eq in Hm. apply Z.eqb_eq in He.
    congruence.
Qed.

Lemma In_dedup (x : float) (l : list float) : In x l -> In x (Enum.dedup l).
Proof.
  induction l as [|y r IH]; simpl; [tauto|].
  intros [E | H].
  - subst y. destruct (existsb (F64.same x) r) eqn:Ex.
    + apply existsb_exists in Ex. destruct Ex as (z & Hz & Hs).
      apply same_eq in Hs. subst z. exact (IH Hz).
    + left. reflexivity.
  - destruct (existsb (F64.same y) r); [exact (IH H)|right; exact (IH H)].
Qed.

Lemma In_upto (k : nat) (z : Z) : 0 <= z <= Z.of_nat k -> In z (Enum.upto k).
Proof.
  intros H. unfold Enum.upto. apply in_map_iff.
  exists (Z.to_nat z). split; [lia|]. apply in_seq. lia.
Qed.

Lemma In_ratios (P N : nat) (p n : Z) :
  0 <= p <= Z.of_nat P -> 0 <= n <= Z.of_nat N ->
  In (Spec.sub_score p n) (Enum.ratios P N).
Proof.
  intros Hp Hn. unfold Enum.ratios. apply in_flat_map.
  exists p. split; [exact (In_upto P p Hp)|].
  apply in_map_iff. exists n. split; [reflexivity|exact (In_upto N n Hn)].
Qed.

Lemma ratios_mono (P N P' N' : nat) (x : float) :
  (P <= P')%nat -> (N <= N')%nat ->
  In x (Enum.ratios P N) -> In x (Enum.ratios P' N').
Proof.
  intros HP HN H. unfold Enum.ratios in H.
  apply in_flat_map in H. destruct H as (p & Hp & H).
  apply in_map_iff in H. destruct H as (n & E & Hn). subst x.
  unfold Enum.upto in Hp, Hn.
  apply in_map_iff in Hp. destruct Hp as (a & Ea & Ha).
  apply in_map_iff in Hn. destruct Hn as (b & Eb & Hb).
  apply in_seq in Ha. apply in_seq in Hb.
  apply In_ratios; lia.
Qed.

Lemma count_in_bounds (words : list string) (text : string) :
  0 <= count_in words text <= Z.of_nat (List.length words).
Proof.
  unfold count_in. split; [lia|].
  apply Nat2Z.inj_le. apply filter_length_le.
Qed.

(** The test of the code, [pos + neg > 0], and the test of the
    specification, [pos + neg == 0], select the same branch on counts. *)
Lemma sub_score_source (pos neg : Z) :
  0 <= pos -> 0 <= neg ->
  (if 0 <? pos + neg then truediv pos (pos + neg) else F64.c0_5)
  = Spec.sub_score pos neg.
Proof.
  intros Hp Hn. unfold Spec.sub_score.
  destruct literals as (_ & _ & _ & _ & _ & E5 & _). rewrite E5.
  destruct (Z.ltb_spec 0 (pos + neg)), (Z.eqb_spec (pos + neg) 0);
    try reflexivity; lia.
Qed.

Lemma reddit_counts_bounds (q : string) :
  0 <= fst (reddit_counts q) <= 7 /\ 0 <= snd (reddit_counts q) <= 7.
Proof.
  unfold reddit_counts.
  pose proof (count_in_bounds positive_current (lower q)) as A.
  pose proof (count_in_bounds negative_current (lower q)) as B.
  pose proof (count_in_bounds positive_words (lower q)) as C.
  pose proof (count_in_bounds negative_words (lower q)) as D.
  simpl List.length in A, B, C, D.
  destruct (_ =? 0); simpl; lia.
Qed.

Lemma reddit_is_sub_score (q : string) :
  _get_reddit_sentiment q
  = Spec.sub_score (fst (reddit_counts q)) (snd (reddit_counts q)).
Proof.
  unfold _get_reddit_sentiment.
  pose proof (reddit_counts_bounds q) as [A B].
  destruct (reddit_counts q) as [p n]. simpl in *.
  apply sub_score_source; lia.
Qed.

Lemma news_is_sub_score (q : string) :
  _get_news_sentiment q
  = Spec.sub_score (count_in positive_econ (lower q))
                   (count_in negative_econ (lower q)).
Proof.
  unfold _get_news_sentiment. cbv zeta.
  apply sub_score_source; apply count_in_bounds.
Qed.

Lemma social_is_sub_score (q : string) :
  _get_social_sentiment q
  = Spec.sub_score (count_in positive_social (lower q))
                   (count_in negative_social (lower q)).
Proof.
  unfold _get_social_sentiment. cbv zeta.
  apply sub_score_source; apply count_in_bounds.
Qed.

Lemma reddit_value (q : string) :
  In (_get_reddit_sentiment q) Enum.reddit_values.
Proof.
  rewrite reddit_is_sub_score. apply In_dedup.
  pose proof (reddit_counts_bounds q) as [A B].
  apply In_ratios; simpl; lia.
Qed.

Lemma news_value (q : string) : In (_get_news_sentiment q) Enum.news_values.
Proof.
  rewrite news_is_sub_score. apply In_dedup.
  pose proof (count_in_bounds positive_econ (lower q)) as A.
  pose proof (count_in_bounds negative_econ (lower q)) as B.
  apply In_ratios; simpl in *; lia.
Qed.

Lemma social_value (q : string) :
  In (_get_social_sentiment q) Enum.social_values.
Proof.
  rewrite social_is_sub_score. apply In_dedup.
  pose proof (count_in_bounds positive_social (lower q)) as A.
  pose proof (count_in_bounds negative_social (lower q)) as B.
  apply In_ratios; simpl in *; lia.
Qed.

Lemma all_means_checked (py : cpython) :
  Enum.all3 (Enum.mean_ok py) Enum.reddit_values Enum.news_values
    Enum.social_values = true.
Proof. destruct py; vm_compute; reflexivity. Qed.

Lemma zero_neutral_checked :
  forallb Enum.zero_neutral Enum.reddit_values = true.
Proof. vm_compute. reflexivity. Qed.

Lemma sentiment_unfold (py : cpython) (q : string) :
  score (_analyze_market_sentiment py q)
  = F64.div (sum py [_get_reddit_sentiment q; _get_news_sentiment q;
                     _get_social_sentiment q]) (F64.of_Z 3).
Proof. reflexivity. Qed.

Lemma all3_spec {A : Type} (f : A -> A -> A -> bool) (la lb lc : list A) :
  Enum.all3 f la lb lc = true ->
  forall a b c, In a la -> In b lb -> In c lc -> f a b c = true.
Proof.
  unfold Enum.all3. intros H a b c Ha Hb Hc.
  rewrite forallb_forall in H. specialize (H a Ha). cbv beta in H.
  rewrite forallb_forall in H. specialize (H b Hb). cbv beta in H.
  rewrite forallb_forall in H. exact (H c Hc).
Qed.

Lemma sentiment_checked (py : cpython) (q : string) :
  F64.in_unit (score (_analyze_market_sentiment py q)) = true /\
  Spec.near_mean3 (_get_reddit_sentiment q) (_get_news_sentiment q)
    (_get_social_sentiment q) (score (_analyze_market_sentiment py q))
  = true.
Proof.
  rewrite sentiment_unfold.
  pose proof (all3_spec (Enum.mean_ok py) Enum.reddit_values
                Enum.news_values Enum.social_values (all_means_checked py)
                (_get_reddit_sentiment q) (_get_news_sentiment q)
                (_get_social_sentiment q)
                (reddit_value q) (news_value q) (social_value q)) as H.
  unfold Enum.mean_ok in H. cbv zeta in H. apply andb_prop in H. exact H.
Qed.

Lemma sentiment_in_unit (py : cpython) (q : string) :
  F64.in_unit (score (_analyze_market_sentiment py q)) = true.
Proof. exact (proj1 (sentiment_checked py q)). Qed.

(** With CPython up to 3.11 the score is the left-to-right binary64 mean. *)
Lemma sentiment_is_mean (q : string) :
  score (_analyze_market_sentiment UpTo311 q)
  = Spec.mean3 (_get_reddit_sentiment q) (_get_news_sentiment q)
               (_get_social_sentiment q).
Proof.
  pose proof (proj1 (forallb_forall Enum.zero_neutral Enum.reddit_values)
                zero_neutral_checked _ (reddit_value q)) as H.
  unfold Enum.zero_neutral in H. apply same_eq in H.
  rewrite sentiment_unfold. unfold Spec.mean3, sum.
  cbn [fold_left]. rewrite H. reflexivity.
Qed.

(** The two ways of summing give different sentiment scores: on the
    sub-scores 1/3, 1/4 and 1/6 the compensated sum is 0.75 and the plain
    one is the number just below. *)
Lemma sum_depends_on_interpreter :
  let xs := [F64.lit 1 3; F64.lit 1 4; F64.lit 1 6] in
  sum From312 xs = F64.lit 3 4 /\
  F64.lt (sum UpTo311 xs) (F64.lit 3 4) = true.
Proof. split; vm_compute; reflexivity. Qed.

(* ================================================================= *)
(** ** The banded scorers *)

(** Case analysis on the band tests of a scorer. *)
Ltac split_bands :=
  repeat match goal with
  | |- context [F64.gt ?x (F64.of_Z ?c)] => destruct (F64.gt x (F64.of_Z c))
  | |- context [existsb ?f ?l] => destruct (existsb f l)
  | |- context [Z.leb ?d ?c] => destruct (Z.leb d c)
  end.

Lemma historical_in_unit (ev : event) (m : market) (v l : float) :
  to_float (mk_volume m) = Ok v -> to_float (mk_liquidity m) = Ok l ->
  exists r, _analyze_historical_performance ev m = Ok r /\
            F64.in_unit (score r) = true.
Proof.
  intros Hv Hl. unfold _analyze_historical_performance.
  rewrite Hv, Hl. cbn [bind].
  unfold volume_band, liquidity_band, category_band.
  split_bands; eexists; (split; [reflexivity|vm_compute; reflexivity]).
Qed.

Lemma risk_in_unit (m : market) (days : Z) (l : float) :
  to_float (mk_liquidity m) = Ok l ->
  exists r, _assess_trading_risk m days = Ok r /\
            F64.in_unit (score r) = true.
Proof.
  intros Hl. unfold _assess_trading_risk, time_risk.
  split_bands; rewrite Hl; cbn [bind]; unfold liquidity_risk;
    split_bands; eexists; (split; [reflexivity|vm_compute; reflexivity]).
Qed.

Lemma enhanced_hype_in_unit (v l : float) :
  F64.in_unit (EnhancedMarketAnalyzer.hype_of v l) = true.
Proof.
  unfold EnhancedMarketAnalyzer.hype_of,
    EnhancedMarketAnalyzer.volume_component,
    EnhancedMarketAnalyzer.liquidity_component.
  split_bands; vm_compute; reflexivity.
Qed.

Lemma simple_hype_in_unit (v l : float) :
  F64.in_unit (SimpleMarketAnalyzer.hype_of v l) = true.
Proof.
  unfold SimpleMarketAnalyzer.hype_of,
    SimpleMarketAnalyzer.volume_component,
    SimpleMarketAnalyzer.liquidity_component.
  split_bands; vm_compute; reflexivity.
Qed.

(** C3: each of the four scorers returns a score in [[0.0, 1.0]]: the
    sentiment score of any question, and, for a market whose volume and
    liquidity convert to numbers, the historical score, the risk score and
    the hype score of both pre-filters. *)
Theorem C3_scores_in_unit (py : cpython) (ev : event) (m : market)
    (days : Z) (v l : float) :
  to_float (mk_volume m) = Ok v ->
  to_float (mk_liquidity m) = Ok l ->
  F64.in_unit (score (_analyze_market_sentiment py (mk_question m))) = true /\
  (exists r, _analyze_historical_performance ev m = Ok r /\
             F64.in_unit (score r) = true) /\
  (exists r, _assess_trading_risk m days = Ok r /\
             F64.in_unit (score r) = true) /\
  (exists h, EnhancedMarketAnalyzer._calculate_hype_score m = Ok h /\
             F64.in_unit h = true) /\
  (exists h, SimpleMarketAnalyzer._calculate_simple_hype_score m = Ok h /\
             F64.in_unit h = true).
Proof.
  intros Hv Hl.
  split; [apply sentiment_in_unit|].
  split; [exact (historical_in_unit ev m v l Hv Hl)|].
  split; [exact (risk_in_unit m days l Hl)|].
  split.
  - exists (EnhancedMarketAnalyzer.hype_of v l).
    unfold EnhancedMarketAnalyzer._calculate_hype_score.
    rewrite Hv, Hl. split; [reflexivity|apply enhanced_hype_in_unit].
  - exists (SimpleMarketAnalyzer.hype_of v l).
    unfold SimpleMarketAnalyzer._calculate_simple_hype_score.
    rewrite Hv, Hl. split; [reflexivity|apply simple_hype_in_unit].
Qed.

(* ================================================================= *)
(** ** The sub-channels of the sentiment scorer *)

Lemma count_in_app (a b : list string) (text : string) :
  count_in (a ++ b) text = count_in a text + count_in b text.
Proof.
  unfold count_in. rewrite filter_app, length_app. lia.
Qed.

Lemma sub_score_all_positive (p : Z) :
  1 <= p <= 2 -> Spec.sub_score p 0 = F64.of_Z 1.
Proof.
  intros H. assert (p = 1 \/ p = 2) as [E | E] by lia; subst p;
    vm_compute; reflexivity.
Qed.

Lemma reddit_two_positive (q : string) :
  count_in (positive_current ++ positive_words) (lower q) = 2 ->
  count_in (negative_current ++ negative_words) (lower q) = 0 ->
  _get_reddit_sentiment q = F64.of_Z 1.
Proof.
  rewrite !count_in_app. intros Hp Hn.
  rewrite reddit_is_sub_score. unfold reddit_counts.
  pose proof (count_in_bounds positive_current (lower q)) as A.
  pose proof (count_in_bounds negative_current (lower q)) as B.
  pose proof (count_in_bounds positive_words (lower q)) as C.
  pose proof (count_in_bounds negative_words (lower q)) as D.
  set (pc := count_in positive_current (lower q)) in *.
  set (nc := count_in negative_current (lower q)) in *.
  set (pw := count_in positive_words (lower q)) in *.
  set (nw := count_in negative_words (lower q)) in *.
  assert (nc = 0) as En by lia. assert (nw = 0) as Ew by lia.
  rewrite En, Ew.
  destruct (Z.eqb_spec (pc + 0) 0) as [E | E]; cbn [fst snd];
    apply sub_score_all_positive; lia.
Qed.

(** C6: every sub-channel scores 0.5 when it counts no keyword and
    [pos/(pos+neg)] otherwise; the sentiment score is the mean of the three
    sub-scores: within [2^-52] of their exact mean whichever way the
    interpreter sums them, and, with the plain sum of CPython up to 3.11,
    exactly the binary64 value of [(a + b + c) / 3]; and a question with
    exactly two positive and no negative keywords of a sub-channel scores
    1.0 in that sub-channel. *)
Theorem C6_sentiment_sub_channels (py : cpython) (q : string) :
  _get_reddit_sentiment q
    = Spec.sub_score (fst (reddit_counts q)) (snd (reddit_counts q)) /\
  _get_news_sentiment q
    = Spec.sub_score (count_in positive_econ (lower q))
                     (count_in negative_econ (lower q)) /\
  _get_social_sentiment q
    = Spec.sub_score (count_in positive_social (lower q))
                     (count_in negative_social (lower q)) /\
  Spec.near_mean3 (_get_reddit_sentiment q) (_get_news_sentiment q)
    (_get_social_sentiment q) (score (_analyze_market_sentiment py q))
    = true /\
  score (_analyze_market_sentiment UpTo311 q)
    = Spec.mean3 (_get_reddit_sentiment q) (_get_news_sentiment q)
                 (_get_social_sentiment q) /\
  (count_in (positive_current ++ positive_words) (lower q) = 2 ->
   count_in (negative_current ++ negative_words) (lower q) = 0 ->
   _get_reddit_sentiment q = F64.of_Z 1) /\
  (count_in positive_econ (lower q) = 2 ->
   count_in negative_econ (lower q) = 0 ->
   _get_news_sentiment q = F64.of_Z 1) /\
  (count_in positive_social (lower q) = 2 ->
   count_in negative_social (lower q) = 0 ->
   _get_social_sentiment q = F64.of_Z 1).
Proof.
  split; [apply reddit_is_sub_score|].
  split; [apply news_is_sub_score|].
  split; [apply social_is_sub_score|].
  split; [exact (proj2 (sentiment_checked py q))|].
  split; [apply sentiment_is_mean|].
  split; [apply reddit_two_positive|].
  split.
  - intros Hp Hn. rewrite news_is_sub_score, Hp, Hn.
    vm_compute. reflexivity.
  - intros Hp Hn. rewrite social_is_sub_score, Hp, Hn.
    vm_compute. reflexivity.
Qed.

(** A question with "growth" and "recovery" and nothing negative. *)
Lemma C6_witness :
  _get_reddit_sentiment "Will growth and recovery continue?" = F64.of_Z 1 /\
  _get_news_sentiment "Will growth and recovery continue?" = F64.of_Z 1.
Proof.
  pose proof (C6_sentiment_sub_channels From312
                "Will growth and recovery continue?")
    as (_ & _ & _ & _ & _ & R & N & _).
  split; [apply R|apply N]; vm_compute; reflexivity.
Defined.

(* ================================================================= *)
(** ** Monotonicity of the hype score *)

Ltac split_bands_eq :=
  repeat match goal with
  | |- context [F64.gt ?x (F64.of_Z ?c)] =>
      let E := fresh "E" in destruct (F64.gt x (F64.of_Z c)) eqn:E
  end.

(** A band reached by the smaller argument is reached by the larger. *)
Ltac band_order :=
  match goal with
  | H1 : F64.gt ?a ?c = true, H2 : F64.gt ?b ?c = false,
    L : F64.le ?a ?b = true |- _ =>
      rewrite (gt_above c a b H1 L) in H2; discriminate H2
  end.

Ltac monotone_bands :=
  split_bands_eq; first [band_order | vm_compute; reflexivity].

Lemma enhanced_hype_volume (v1 v2 l : float) :
  F64.le v1 v2 = true ->
  F64.le (EnhancedMarketAnalyzer.hype_of v1 l)
         (EnhancedMarketAnalyzer.hype_of v2 l) = true.
Proof.
  intros L.
  unfold EnhancedMarketAnalyzer.hype_of,
    EnhancedMarketAnalyzer.volume_component,
    EnhancedMarketAnalyzer.liquidity_component.
  monotone_bands.
Qed.

Lemma enhanced_hype_liquidity (v l1 l2 : float) :
  F64.le l1 l2 = true ->
  F64.le (EnhancedMarketAnalyzer.hype_of v l1)
         (EnhancedMarketAnalyzer.hype_of v l2) = true.
Proof.
  intros L.
  unfold EnhancedMarketAnalyzer.hype_of,
    EnhancedMarketAnalyzer.volume_component,
    EnhancedMarketAnalyzer.liquidity_component.
  monotone_bands.
Qed.

Lemma simple_hype_volume (v1 v2 l : float) :
  F64.le v1 v2 = true ->
  F64.le (SimpleMarketAnalyzer.hype_of v1 l)
         (SimpleMarketAnalyzer.hype_of v2 l) = true.
Proof.
  intros L.
  unfold SimpleMarketAnalyzer.hype_of,
    SimpleMarketAnalyzer.volume_component,
    SimpleMarketAnalyzer.liquidity_component.
  monotone_bands.
Qed.

Lemma simple_hype_liquidity (v l1 l2 : float) :
  F64.le l1 l2 = true ->
  F64.le (SimpleMarketAnalyzer.hype_of v l1)
         (SimpleMarketAnalyzer.hype_of v l2) = true.
Proof.
  intros L.
  unfold SimpleMarketAnalyzer.hype_of,
    SimpleMarketAnalyzer.volume_component,
    SimpleMarketAnalyzer.liquidity_component.
  monotone_bands.
Qed.

(** C7: for two markets that differ in volume only, or in liquidity only,
    the one with the smaller value has the smaller or equal hype score, in
    both pre-filters. *)
Theorem C7_hype_monotone (m1 m2 : market) (v1 v2 l1 l2 : float) :
  to_float (mk_volume m1) = Ok v1 -> to_float (mk_liquidity m1) = Ok l1 ->
  to_float (mk_volume m2) = Ok v2 -> to_float (mk_liquidity m2) = Ok l2 ->
  (F64.le v1 v2 = true /\ l1 = l2) \/ (v1 = v2 /\ F64.le l1 l2 = true) ->
  (exists h1 h2,
     EnhancedMarketAnalyzer._calculate_hype_score m1 = Ok h1 /\
     EnhancedMarketAnalyzer._calculate_hype_score m2 = Ok h2 /\
     F64.le h1 h2 = true) /\
  (exists h1 h2,
     SimpleMarketAnalyzer._calculate_simple_hype_score m1 = Ok h1 /\
     SimpleMarketAnalyzer._calculate_simple_hype_score m2 = Ok h2 /\
     F64.le h1 h2 = true).
Proof.
  intros Hv1 Hl1 Hv2 Hl2 H.
  unfold EnhancedMarketAnalyzer._calculate_hype_score,
    SimpleMarketAnalyzer._calculate_simple_hype_score.
  rewrite Hv1, Hl1, Hv2, Hl2. cbn [bind].
  split; eexists; eexists; (split; [reflexivity|split; [reflexivity|]]);
    destruct H as [[L E] | [E L]]; subst.
  - apply enhanced_hype_volume; exact L.
  - apply enhanced_hype_liquidity; exact L.
  - apply simple_hype_volume; exact L.
  - apply simple_hype_liquidity; exact L.
Qed.

(* ================================================================= *)
(** ** The stable descending sort *)

Section SortDesc.
Context {A : Type} (key : A -> float).

Lemma insert_desc_perm (x : A) (l : list A) :
  Permutation (insert_desc key x l) (x :: l).
Proof.
  induction l as [|y l IH]; simpl; [reflexivity|].
  destruct (F64.lt (key x) (key y)); [|reflexivity].
  rewrite IH. apply perm_swap.
Qed.

Lemma sort_desc_perm (l : list A) : Permutation (sort_desc key l) l.
Proof.
  induction l as [|x l IH]; simpl; [reflexivity|].
  rewrite insert_desc_perm. apply perm_skip. exact IH.
Qed.

Lemma insert_desc_sorted (x : A) (l : list A) :
  ordered_by key x -> Forall (ordered_by key) l ->
  StronglySorted (desc_by key) l -> StronglySorted (desc_by key) (insert_desc key x l).
Proof.
  intros Hx Hl Hs. induction Hs as [|y l Hs IH Hy]; simpl.
  - constructor; [constructor|constructor].
  - inversion Hl as [|? ? Oy Ol]; subst.
    destruct (F64.lt (key x) (key y)) eqn:E.
    + constructor; [exact (IH Ol)|].
      apply (Permutation_Forall (Permutation_sym (insert_desc_perm x l))).
      constructor; [exact (lt_le _ _ E)|exact Hy].
    + assert (desc_by key x y) as Dxy by exact (not_lt_le _ _ Hx Oy E).
      constructor; [constructor; assumption|].
      constructor; [exact Dxy|].
      apply Forall_forall. intros z Hz.
      rewrite Forall_forall in Hy.
      exact (le_trans _ _ _ (Hy z Hz) Dxy).
Qed.

Lemma sort_desc_sorted (l : list A) :
  Forall (ordered_by key) l -> StronglySorted (desc_by key) (sort_desc key l).
Proof.
  induction l as [|x l IH]; simpl; intros H; [constructor|].
  inversion H as [|? ? Ox Ol]; subst.
  apply insert_desc_sorted; [exact Ox| |exact (IH Ol)].
  exact (Permutation_Forall (Permutation_sym (sort_desc_perm l)) Ol).
Qed.

Lemma firstn_sorted (n : nat) (l : list A) :
  StronglySorted (desc_by key) l -> StronglySorted (desc_by key) (firstn n l).
Proof.
  intros Hs. revert n. induction Hs as [|y l Hs IH Hy]; intros n.
  - rewrite firstn_nil. constructor.
  - destruct n as [|n]; simpl; [constructor|].
    constructor; [apply IH|].
    apply Forall_forall. intros z Hz. rewrite Forall_forall in Hy.
    apply Hy. revert Hz. clear. revert n.
    induction l as [|a l IHl]; intros [|n]; simpl; try tauto.
    intros [E | H]; [left; exact E|right; exact (IHl n H)].
Qed.
End SortDesc.

Lemma In_firstn {A : Type} (n : nat) (l : list A) (x : A) :
  In x (firstn n l) -> In x l.
Proof.
  revert n. induction l as [|a l IH]; intros [|n]; simpl; try tauto.
  intros [E | H]; [left; exact E|right; exact (IH n H)].
Qed.

Lemma collect_kept {A B : Type} (body : A -> result (option B))
    (l : list A) (out : list B) :
  collect body l = Ok out ->
  forall y, In y out -> exists x, In x l /\ body x = Ok (Some y).
Proof.
  revert out. induction l as [|x l IH]; simpl; intros out H y Hy.
  - inversion H; subst. destruct Hy.
  - destruct (body x) as [kept|e] eqn:Ex; [|discriminate].
    destruct (collect body l) as [tail|e] eqn:El; [|discriminate].
    inversion H; subst. destruct kept as [k|].
    + destruct Hy as [E | Hy].
      * subst. exists x. split; [left; reflexivity|exact Ex].
      * destruct (IH tail eq_refl y Hy) as (x' & Hx' & Hb).
        exists x'. split; [right; exact Hx'|exact Hb].
    + destruct (IH tail eq_refl y Hy) as (x' & Hx' & Hb).
      exists x'. split; [right; exact Hx'|exact Hb].
Qed.

Lemma collect_total {A B : Type} (body : A -> result (option B))
    (l : list A) :
  (forall x, In x l -> is_ok (body x) = true) ->
  exists out, collect body l = Ok out.
Proof.
  induction l as [|x l IH]; simpl; intros H; [eexists; reflexivity|].
  pose proof (H x (or_introl eq_refl)) as Hx.
  destruct (body x) as [kept|e]; [|discriminate].
  destruct IH as (tail & Et); [intros z Hz; apply H; right; exact Hz|].
  rewrite Et. eexists; reflexivity.
Qed.

(* ================================================================= *)
(** ** The batch pre-filter *)

(** A score above the threshold is stored as a key in [(0.1, 1.0]]. *)
Lemma stored_key_range (s : float) :
  F64.gt s F64.c0_1 = true ->
  F64.gt (F64.py_min s F64.c1_0) F64.c0_1 = true /\
  F64.le (F64.py_min s F64.c1_0) F64.c1_0 = true.
Proof.
  intros H. unfold F64.py_min.
  destruct (F64.lt F64.c1_0 s) eqn:E.
  - split; vm_compute; reflexivity.
  - split; [exact H|].
    apply not_lt_le; [reflexivity| |exact E].
    unfold F64.gt in H. exact (proj2 (lt_not_nan _ _ H)).
Qed.

Lemma enhanced_consider_kept (now : datetime) (m k : market) :
  EnhancedMarketAnalyzer.consider now m = Ok (Some k) ->
  exists v l,
    to_float (mk_volume m) = Ok v /\ to_float (mk_liquidity m) = Ok l /\
    EnhancedMarketAnalyzer.ended now (mk_event_end_date m) = false /\
    F64.le l (F64.of_Z 0) = false /\
    kept_as (EnhancedMarketAnalyzer.with_urgency now (mk_event_end_date m)
               (EnhancedMarketAnalyzer.hype_of v l)) m k.
Proof.
  unfold EnhancedMarketAnalyzer.consider,
    EnhancedMarketAnalyzer._calculate_hype_score.
  destruct (EnhancedMarketAnalyzer.ended now (mk_event_end_date m));
    [discriminate|].
  destruct (to_float (mk_liquidity m)) as [l|e]; [|discriminate].
  cbn [bind].
  destruct (F64.le l (F64.of_Z 0)) eqn:El; [discriminate|].
  destruct (to_float (mk_volume m)) as [v|e]; [|discriminate].
  cbn [bind].
  destruct (F64.gt _ F64.c0_1) eqn:Eg; [|discriminate].
  intros H. inversion H; subst.
  exists v, l. repeat split; try reflexivity; assumption.
Qed.

Lemma simple_consider_kept (now : datetime) (m k : market) :
  SimpleMarketAnalyzer.consider now m = Ok (Some k) ->
  exists v l,
    to_float (mk_volume m) = Ok v /\ to_float (mk_liquidity m) = Ok l /\
    EnhancedMarketAnalyzer.ended now (mk_endDate m) = false /\
    F64.le l (F64.of_Z 0) = false /\
    kept_as (EnhancedMarketAnalyzer.with_urgency now (mk_endDate m)
               (SimpleMarketAnalyzer.hype_of v l)) m k.
Proof.
  unfold SimpleMarketAnalyzer.consider,
    SimpleMarketAnalyzer._calculate_simple_hype_score.
  destruct (EnhancedMarketAnalyzer.ended now (mk_endDate m));
    [discriminate|].
  destruct (to_float (mk_liquidity m)) as [l|e]; [|discriminate].
  cbn [bind].
  destruct (F64.le l (F64.of_Z 0)) eqn:El; [discriminate|].
  destruct (to_float (mk_volume m)) as [v|e]; [|discriminate].
  cbn [bind].
  destruct (F64.gt _ F64.c0_1) eqn:Eg; [|discriminate].
  intros H. inversion H; subst.
  exists v, l. repeat split; try reflexivity; assumption.
Qed.

Lemma kept_key (score : float) (m k : market) :
  kept_as score m k ->
  exists h, mk_hype_score k = Some h /\ hype_key k = h /\
            F64.gt h F64.c0_1 = true /\ F64.le h F64.c1_0 = true.
Proof.
  intros [G E]. subst k. exists (F64.py_min score F64.c1_0).
  destruct (stored_key_range score G) as [A B].
  repeat split; assumption.
Qed.

Lemma enhanced_consider_ok (now : datetime) (m : market) :
  numeric m = true -> is_ok (EnhancedMarketAnalyzer.consider now m) = true.
Proof.
  unfold numeric, EnhancedMarketAnalyzer.consider,
    EnhancedMarketAnalyzer._calculate_hype_score.
  destruct (to_float (mk_volume m)) as [v|e],
           (to_float (mk_liquidity m)) as [l|e']; try discriminate.
  intros _. cbn [bind].
  destruct (EnhancedMarketAnalyzer.ended _ _); [reflexivity|].
  destruct (F64.le l (F64.of_Z 0)); [reflexivity|].
  destruct (F64.gt _ F64.c0_1); reflexivity.
Qed.

Lemma simple_consider_ok (now : datetime) (m : market) :
  numeric m = true -> is_ok (SimpleMarketAnalyzer.consider now m) = true.
Proof.
  unfold numeric, SimpleMarketAnalyzer.consider,
    SimpleMarketAnalyzer._calculate_simple_hype_score.
  destruct (to_float (mk_volume m)) as [v|e],
           (to_float (mk_liquidity m)) as [l|e']; try discriminate.
  intros _. cbn [bind].
  destruct (EnhancedMarketAnalyzer.ended _ _); [reflexivity|].
  destruct (F64.le l (F64.of_Z 0)); [reflexivity|].
  destruct (F64.gt _ F64.c0_1); reflexivity.
Qed.

(* ================================================================= *)
(** ** The batch ranker *)

Lemma good_key_ordered (k : market) : good_key k -> ordered_by hype_key k.
Proof.
  intros (h & E & G & _). unfold ordered_by, hype_key. rewrite E.
  unfold F64.gt in G. exact (proj2 (lt_not_nan _ _ G)).
Qed.

Lemma kept_good_key (score : float) (m k : market) :
  kept_as score m k -> good_key k.
Proof.
  intros H. destruct (kept_key score m k H) as (h & E & _ & G & L).
  exists h. repeat split; assumption.
Qed.

Lemma top_five (out : list market) :
  Forall good_key out ->
  let top := firstn 5 (sort_desc hype_key out) in
  (List.length top <= 5)%nat /\
  StronglySorted by_hype_desc top /\
  Forall good_key top /\
  (forall k, In k top -> In k out).
Proof.
  intros H top. split; [apply firstn_le_length|].
  split.
  - apply (firstn_sorted hype_key). apply sort_desc_sorted.
    apply Forall_forall. intros k Hk. apply good_key_ordered.
    rewrite Forall_forall in H. exact (H k Hk).
  - assert (forall k, In k top -> In k out) as Sub.
    { intros k Hk. apply In_firstn in Hk.
      exact (Permutation_in k (sort_desc_perm hype_key out) Hk). }
    split; [|exact Sub].
    apply Forall_forall. intros k Hk. rewrite Forall_forall in H.
    exact (H k (Sub k Hk)).
Qed.

Lemma enhanced_collect_good (now : datetime) (ms out : list market) :
  collect (EnhancedMarketAnalyzer.consider now) ms = Ok out ->
  Forall good_key out.
Proof.
  intros H. apply Forall_forall. intros k Hk.
  destruct (collect_kept _ _ _ H k Hk) as (m & _ & Hm).
  destruct (enhanced_consider_kept now m k Hm) as (v & l & _ & _ & _ & _ & K).
  exact (kept_good_key _ m k K).
Qed.

Lemma simple_collect_good (now : datetime) (ms out : list market) :
  collect (SimpleMarketAnalyzer.consider now) ms = Ok out ->
  Forall good_key out.
Proof.
  intros H. apply Forall_forall. intros k Hk.
  destruct (collect_kept _ _ _ H k Hk) as (m & _ & Hm).
  destruct (simple_consider_kept now m k Hm) as (v & l & _ & _ & _ & _ & K).
  exact (kept_good_key _ m k K).
Qed.

Lemma enhanced_ranked (now : datetime) (events_result : option (list event))
    (top : list market) :
  EnhancedMarketAnalyzer.get_current_markets now events_result = Ok top ->
  (List.length top <= 5)%nat /\ StronglySorted by_hype_desc top /\
  Forall good_key top.
Proof.
  unfold EnhancedMarketAnalyzer.get_current_markets.
  destruct events_result as [events|].
  - destruct (collect _ _) as [out|e] eqn:Ec; [|discriminate]. cbn [bind].
    destruct (EnhancedMarketAnalyzer.show_all _); [|discriminate].
    intros H. inversion H; subst.
    destruct (top_five out (enhanced_collect_good now _ out Ec))
      as (A & B & C & _).
    repeat split; assumption.
  - intros H. inversion H; subst. simpl.
    repeat split; [lia|constructor|constructor].
Qed.

Lemma simple_ranked (now : datetime) (api_result : option (list market))
    (top : list market) :
  SimpleMarketAnalyzer.get_hype_markets now api_result = Ok top ->
  (List.length top <= 5)%nat /\ StronglySorted by_hype_desc top /\
  Forall good_key top.
Proof.
  unfold SimpleMarketAnalyzer.get_hype_markets.
  destruct api_result as [markets|].
  - destruct (collect _ _) as [out|e] eqn:Ec; [|discriminate]. cbn [bind].
    intros H. inversion H; subst.
    destruct (top_five out (simple_collect_good now _ out Ec))
      as (A & B & C & _).
    repeat split; assumption.
  - intros H. inversion H; subst. simpl.
    repeat split; [lia|constructor|constructor].
Qed.

Lemma simple_returns (now : datetime) (markets : list market) :
  forallb numeric markets = true ->
  exists top,
    SimpleMarketAnalyzer.get_hype_markets now (Some markets) = Ok top.
Proof.
  intros H. unfold SimpleMarketAnalyzer.get_hype_markets.
  destruct (collect_total (SimpleMarketAnalyzer.consider now) markets)
    as (out & E).
  - intros m Hm. apply simple_consider_ok.
    rewrite forallb_forall in H. exact (H m Hm).
  - rewrite E. cbn [bind]. eexists; reflexivity.
Qed.

Lemma show_all_ok (ms : list market) :
  (forall m, In m ms -> dated (mk_event_end_date m) = true) ->
  EnhancedMarketAnalyzer.show_all ms = Ok tt.
Proof.
  induction ms as [|m ms IH]; simpl; intros H; [reflexivity|].
  pose proof (H m (or_introl eq_refl)) as Hm.
  unfold EnhancedMarketAnalyzer.show.
  destruct (mk_event_end_date m); try discriminate; cbn [bind];
    apply IH; intros z Hz; apply H; right; exact Hz.
Qed.

Lemma In_markets_from_events (events : list event) (m : market) :
  In m (EnhancedMarketAnalyzer.get_markets_from_events events) ->
  exists ev m0, In ev events /\ In m0 (ev_markets ev) /\
                m = EnhancedMarketAnalyzer.with_event_context ev m0.
Proof.
  unfold EnhancedMarketAnalyzer.get_markets_from_events.
  intros H. apply in_flat_map in H. destruct H as (ev & Hev & H).
  apply in_map_iff in H. destruct H as (m0 & E & Hm0).
  exists ev, m0. repeat split; [exact Hev|exact Hm0|symmetry; exact E].
Qed.

Lemma enhanced_returns (now : datetime) (events : list event) :
  forallb (fun ev => dated (ev_endDate ev) && forallb numeric (ev_markets ev))
          events = true ->
  exists top,
    EnhancedMarketAnalyzer.get_current_markets now (Some events) = Ok top.
Proof.
  intros H. unfold EnhancedMarketAnalyzer.get_current_markets.
  rewrite forallb_forall in H.
  assert (forall m,
            In m (EnhancedMarketAnalyzer.get_markets_from_events events) ->
            numeric m = true /\ dated (mk_event_end_date m) = true) as W.
  { intros m Hm.
    destruct (In_markets_from_events events m Hm) as (ev & m0 & A & B & E).
    specialize (H ev A). apply andb_prop in H. destruct H as [D N].
    rewrite forallb_forall in N. specialize (N m0 B). subst m.
    split; [exact N|exact D]. }
  destruct (collect_total (EnhancedMarketAnalyzer.consider now)
              (EnhancedMarketAnalyzer.get_markets_from_events events))
    as (out & E).
  - intros m Hm. apply enhanced_consider_ok. exact (proj1 (W m Hm)).
  - rewrite E. cbn [bind]. rewrite show_all_ok; [eexists; reflexivity|].
    intros k Hk. apply In_firstn in Hk.
    apply (Permutation_in k (sort_desc_perm hype_key out)) in Hk.
    destruct (collect_kept _ _ _ E k Hk) as (m & Hm & Hc).
    destruct (enhanced_consider_kept now m k Hc)
      as (v & l & _ & _ & _ & _ & _ & Ek).
    subst k. exact (proj2 (W m Hm)).
Qed.

(** C8: the batch ranker returns at most five markets, largest hype score
    first; it does return when the numeric fields convert (and, in the
    enhanced script, the events carry an end date for the report). *)
Theorem C8_top_five_sorted (now : datetime) :
  (forall events_result top,
     EnhancedMarketAnalyzer.get_current_markets now events_result = Ok top ->
     (List.length top <= 5)%nat /\ StronglySorted by_hype_desc top) /\
  (forall api_result top,
     SimpleMarketAnalyzer.get_hype_markets now api_result = Ok top ->
     (List.length top <= 5)%nat /\ StronglySorted by_hype_desc top) /\
  (forall events,
     forallb (fun ev => dated (ev_endDate ev)
                        && forallb numeric (ev_markets ev)) events = true ->
     exists top,
       EnhancedMarketAnalyzer.get_current_markets now (Some events) = Ok top) /\
  (forall markets,
     forallb numeric markets = true ->
     exists top,
       SimpleMarketAnalyzer.get_hype_markets now (Some markets) = Ok top).
Proof.
  split; [|split; [|split]].
  - intros r top H. destruct (enhanced_ranked now r top H) as (A & B & _).
    split; assumption.
  - intros r top H. destruct (simple_ranked now r top H) as (A & B & _).
    split; assumption.
  - exact (enhanced_returns now).
  - exact (simple_returns now).
Qed.

(** C10: a market whose hype score, urgency bonus included, is at most 0.1
    is dropped by the pre-filter, also when it is not expired and has
    liquidity (a market with volume 500 and liquidity 50 is dropped by
    both scripts); every market the ranker returns has a stored
    [hype_score] in [(0.1, 1.0]]. *)
Theorem C10_hype_threshold (now : datetime) :
  (forall m v l,
     to_float (mk_volume m) = Ok v -> to_float (mk_liquidity m) = Ok l ->
     F64.le (EnhancedMarketAnalyzer.with_urgency now (mk_event_end_date m)
               (EnhancedMarketAnalyzer.hype_of v l)) F64.c0_1 = true ->
     EnhancedMarketAnalyzer.consider now m = Ok None) /\
  (forall m v l,
     to_float (mk_volume m) = Ok v -> to_float (mk_liquidity m) = Ok l ->
     F64.le (EnhancedMarketAnalyzer.with_urgency now (mk_endDate m)
               (SimpleMarketAnalyzer.hype_of v l)) F64.c0_1 = true ->
     SimpleMarketAnalyzer.consider now m = Ok None) /\
  (let quiet :=
     sample_market (NumValue (F64.of_Z 500)) (NumValue (F64.of_Z 50)) in
   EnhancedMarketAnalyzer.ended now (mk_event_end_date quiet) = false /\
   EnhancedMarketAnalyzer.ended now (mk_endDate quiet) = false /\
   F64.le (F64.of_Z 50) (F64.of_Z 0) = false /\
   EnhancedMarketAnalyzer.consider now quiet = Ok None /\
   SimpleMarketAnalyzer.consider now quiet = Ok None) /\
  (forall events_result top k,
     EnhancedMarketAnalyzer.get_current_markets now events_result = Ok top ->
     In k top -> good_key k) /\
  (forall api_result top k,
     SimpleMarketAnalyzer.get_hype_markets now api_result = Ok top ->
     In k top -> good_key k).
Proof.
  split; [|split; [|split; [|split]]].
  - intros m v l Hv Hl H.
    unfold EnhancedMarketAnalyzer.consider,
      EnhancedMarketAnalyzer._calculate_hype_score.
    rewrite Hv, Hl. cbn [bind].
    destruct (EnhancedMarketAnalyzer.ended _ _); [reflexivity|].
    destruct (F64.le l (F64.of_Z 0)); [reflexivity|].
    rewrite (le_not_gt _ _ H). reflexivity.
  - intros m v l Hv Hl H.
    unfold SimpleMarketAnalyzer.consider,
      SimpleMarketAnalyzer._calculate_simple_hype_score.
    rewrite Hv, Hl. cbn [bind].
    destruct (EnhancedMarketAnalyzer.ended _ _); [reflexivity|].
    destruct (F64.le l (F64.of_Z 0)); [reflexivity|].
    rewrite (le_not_gt _ _ H). reflexivity.
  - vm_compute. repeat split.
  - intros r top k H Hk.
    destruct (enhanced_ranked now r top H) as (_ & _ & G).
    rewrite Forall_forall in G. exact (G k Hk).
  - intros r top k H Hk.
    destruct (simple_ranked now r top H) as (_ & _ & G).
    rewrite Forall_forall in G. exact (G k Hk).
Qed.

(* ================================================================= *)
(** ** Numeric coercion *)

Lemma analyze_completes (py : cpython) (now : datetime) (ev : event) (m : market)
    (v l : float) :
  to_float (mk_volume m) = Ok v -> to_float (mk_liquidity m) = Ok l ->
  exists a, analyze_market_for_trading py now ev m = Ok a /\
            a_volume a = v /\ a_liquidity a = l.
Proof.
  intros Hv Hl. unfold analyze_market_for_trading.
  rewrite Hv, Hl. cbn [bind].
  destruct (historical_in_unit ev m v l Hv Hl) as (h & Eh & _).
  destruct (risk_in_unit m (days_until now (mk_endDate m)) l Hl)
    as (r & Er & _).
  rewrite Eh. cbn [bind]. rewrite Er. cbn [bind].
  eexists. split; [reflexivity|split; reflexivity].
Qed.

(** C1, as the code has it: an absent volume or liquidity is read as 0.0
    and a numeric one as its value, and the analysis of such a market
    completes with a recommendation (the enhanced pre-filter likewise
    finishes its iteration); a field that is present and that [float]
    rejects makes the analysis raise. *)
Theorem C1_numeric_coercion (py : cpython) (now : datetime) (ev : event) (m : market) :
  to_float NumAbsent = Ok F64.c0_0 /\
  (forall x, to_float (NumValue x) = Ok x) /\
  (forall v l,
     to_float (mk_volume m) = Ok v -> to_float (mk_liquidity m) = Ok l ->
     (exists a, analyze_market_for_trading py now ev m = Ok a /\
                a_volume a = v /\ a_liquidity a = l) /\
     is_ok (EnhancedMarketAnalyzer.consider now m) = true) /\
  (forall e,
     to_float (mk_volume m) = Raise e ->
     analyze_market_for_trading py now ev m = Raise e) /\
  (forall v e,
     to_float (mk_volume m) = Ok v -> to_float (mk_liquidity m) = Raise e ->
     analyze_market_for_trading py now ev m = Raise e).
Proof.
  split; [reflexivity|]. split; [reflexivity|].
  split; [|split].
  - intros v l Hv Hl. split; [exact (analyze_completes py now ev m v l Hv Hl)|].
    apply enhanced_consider_ok. unfold numeric. rewrite Hv, Hl. reflexivity.
  - intros e He. unfold analyze_market_for_trading. rewrite He. reflexivity.
  - intros v e Hv He. unfold analyze_market_for_trading.
    rewrite Hv, He. reflexivity.
Qed.

(** The claim C1 fails on a volume that is not a number: the analysis
    raises [ValueError] and produces no recommendation, under either
    interpreter. *)
Lemma C1_non_numeric_volume_raises :
  analyze_market_for_trading UpTo311 (Naive 0)
    (sample_event []) (sample_market NumText NumAbsent)
  = Raise ValueError /\
  analyze_market_for_trading From312 (Naive 0)
    (sample_event []) (sample_market NumText NumAbsent)
  = Raise ValueError.
Proof. split; reflexivity. Qed.

(* ================================================================= *)
(** ** The eligibility filter *)

(** C2, as the code has it.  In [ai_trading_system] an event with an end
    time without UTC offset is kept iff that time is strictly after the
    current time, one without a usable end date is kept, and a market is
    kept iff [liquidity > 0 or volume > 1000].  In the enhanced and simple
    pre-filters a market whose offset-free end time is strictly before the
    current time is dropped, and so is every market with
    [liquidity <= 0], whatever its volume. *)
Theorem C2_eligibility :
  (forall now ev t,
     ev_endDate ev = DateText (IsoNaive t) ->
     event_is_current (Naive now) ev = (now <? t)) /\
  (forall now ev,
     ev_endDate ev = DateNone \/ ev_endDate ev = DateEmpty \/
     ev_endDate ev = DateText IsoBad ->
     event_is_current now ev = true) /\
  (forall m v l,
     to_float (mk_volume m) = Ok v -> to_float (mk_liquidity m) = Ok l ->
     has_activity m
       = Ok (F64.gt l (F64.of_Z 0) || F64.gt v (F64.of_Z 1000)) /\
     (F64.eq l (F64.of_Z 0) = true -> F64.le v (F64.of_Z 1000) = true ->
      has_activity m = Ok false) /\
     (F64.gt l (F64.of_Z 0) = true \/ F64.gt v (F64.of_Z 1000) = true ->
      has_activity m = Ok true)) /\
  (forall now m t,
     t < now ->
     (mk_event_end_date m = DateText (IsoNaive t) ->
      EnhancedMarketAnalyzer.consider (Naive now) m = Ok None) /\
     (mk_endDate m = DateText (IsoNaive t) ->
      SimpleMarketAnalyzer.consider (Naive now) m = Ok None)) /\
  (forall now m l,
     to_float (mk_liquidity m) = Ok l -> F64.le l (F64.of_Z 0) = true ->
     EnhancedMarketAnalyzer.consider now m = Ok None /\
     SimpleMarketAnalyzer.consider now m = Ok None).
Proof.
  split; [|split; [|split; [|split]]].
  - intros now ev t E. unfold event_is_current. rewrite E. reflexivity.
  - intros now ev [E | [E | E]]; unfold event_is_current; rewrite E;
      reflexivity.
  - intros m v l Hv Hl. unfold has_activity. rewrite Hv, Hl. cbn [bind].
    split; [reflexivity|]. split.
    + intros E L.
      rewrite (eq_not_gt _ _ E), (le_not_gt _ _ L). reflexivity.
    + intros [G | G]; rewrite G; [reflexivity|].
      rewrite orb_true_r. reflexivity.
  - intros now m t H. split; intros E.
    + unfold EnhancedMarketAnalyzer.consider, EnhancedMarketAnalyzer.ended.
      rewrite E. cbn.
      destruct (Z.ltb_spec t now); [reflexivity|lia].
    + unfold SimpleMarketAnalyzer.consider, EnhancedMarketAnalyzer.ended.
      rewrite E. cbn.
      destruct (Z.ltb_spec t now); [reflexivity|lia].
  - intros now m l Hl L. split.
    + unfold EnhancedMarketAnalyzer.consider.
      destruct (EnhancedMarketAnalyzer.ended _ _); [reflexivity|].
      rewrite Hl. cbn [bind]. rewrite L. reflexivity.
    + unfold SimpleMarketAnalyzer.consider.
      destruct (EnhancedMarketAnalyzer.ended _ _); [reflexivity|].
      rewrite Hl. cbn [bind]. rewrite L. reflexivity.
Qed.

(** The claim C2 fails in the enhanced and simple pre-filters: a market
    that has not ended, with volume 5000 and liquidity 0, is dropped. *)
Lemma C2_volume_without_liquidity_dropped :
  let idle :=
    sample_market (NumValue (F64.of_Z 5000)) (NumValue (F64.of_Z 0)) in
  F64.gt (F64.of_Z 5000) (F64.of_Z 1000) = true /\
  EnhancedMarketAnalyzer.ended (Naive 0) (mk_event_end_date idle) = false /\
  EnhancedMarketAnalyzer.consider (Naive 0) idle = Ok None /\
  SimpleMarketAnalyzer.consider (Naive 0) idle = Ok None.
Proof. vm_compute. repeat split. Qed.

(* ================================================================= *)
(** ** The theorems at sample inputs *)

Lemma C1_witness :
  let m := sample_market NumAbsent (NumValue (F64.of_Z 15000)) in
  to_float (mk_volume m) = Ok F64.c0_0 /\
  to_float (mk_liquidity m) = Ok (F64.of_Z 15000) /\
  exists a,
    analyze_market_for_trading From312 (Naive 0) (sample_event []) m = Ok a /\
            a_volume a = F64.c0_0 /\ a_liquidity a = F64.of_Z 15000.
Proof.
  intros m. split; [reflexivity|]. split; [reflexivity|].
  destruct (C1_numeric_coercion From312 (Naive 0) (sample_event []) m)
    as (_ & _ & H & _).
  exact (proj1 (H F64.c0_0 (F64.of_Z 15000) eq_refl eq_refl)).
Defined.

Lemma C2_witness :
  let m := sample_market (NumValue (F64.of_Z 500)) (NumValue (F64.of_Z 0)) in
  F64.eq (F64.of_Z 0) (F64.of_Z 0) = true /\
  F64.le (F64.of_Z 500) (F64.of_Z 1000) = true /\
  has_activity m = Ok false.
Proof.
  intros m. split; [reflexivity|]. split; [reflexivity|].
  destruct C2_eligibility as (_ & _ & H & _).
  destruct (H m (F64.of_Z 500) (F64.of_Z 0) eq_refl eq_refl) as (_ & K & _).
  apply K; reflexivity.
Defined.

Lemma C3_witness :
  let m := sample_market (NumValue (F64.of_Z 120000))
                         (NumValue (F64.of_Z 15000)) in
  to_float (mk_volume m) = Ok (F64.of_Z 120000) /\
  to_float (mk_liquidity m) = Ok (F64.of_Z 15000) /\
  exists r, _analyze_historical_performance (sample_event []) m = Ok r /\
            F64.in_unit (score r) = true.
Proof.
  intros m. split; [reflexivity|]. split; [reflexivity|].
  exact (proj1 (proj2 (C3_scores_in_unit From312 (sample_event []) m 45
                         (F64.of_Z 120000) (F64.of_Z 15000)
                         eq_refl eq_refl))).
Defined.

Lemma C5_witness :
  let dec :=
    _generate_recommendation F64.c0_0 F64.c0_0 0
      (F64.lit 58 100) (F64.lit 58 100) (F64.lit 58 100) in
  d_recommendation dec = BUY /\
  d_confidence dec
    = Spec.weighted_overall (F64.lit 58 100) (F64.lit 58 100)
        (F64.lit 58 100).
Proof.
  intros dec. split; [vm_compute; reflexivity|].
  destruct C5_two_band_table as (H & _).
  destruct (H F64.c0_0 F64.c0_0 0 (F64.lit 58 100) (F64.lit 58 100)
              (F64.lit 58 100)) as (_ & _ & _ & K & _).
  apply K. vm_compute. reflexivity.
Defined.

Lemma C7_witness :
  let m1 := sample_market (NumValue (F64.of_Z 1500))
                          (NumValue (F64.of_Z 50)) in
  let m2 := sample_market (NumValue (F64.of_Z 60000))
                          (NumValue (F64.of_Z 50)) in
  F64.le (F64.of_Z 1500) (F64.of_Z 60000) = true /\
  exists h1 h2,
    EnhancedMarketAnalyzer._calculate_hype_score m1 = Ok h1 /\
    EnhancedMarketAnalyzer._calculate_hype_score m2 = Ok h2 /\
    F64.le h1 h2 = true.
Proof.
  intros m1 m2. split; [vm_compute; reflexivity|].
  refine (proj1 (C7_hype_monotone m1 m2
                   (F64.of_Z 1500) (F64.of_Z 60000)
                   (F64.of_Z 50) (F64.of_Z 50)
                   eq_refl eq_refl eq_refl eq_refl
                   (or_introl (conj _ eq_refl)))).
  vm_compute. reflexivity.
Defined.

Lemma C8_witness :
  let ms :=
    map (fun n => sample_market (NumValue (F64.of_Z n))
                                (NumValue (F64.of_Z 500)))
        [200; 70000; 3000; 12000; 900; 6000; 25000] in
  forallb numeric ms = true /\
  exists top,
    SimpleMarketAnalyzer.get_hype_markets (Naive 0) (Some ms) = Ok top /\
    (List.length top <= 5)%nat /\ StronglySorted by_hype_desc top.
Proof.
  intros ms. split; [reflexivity|].
  destruct (C8_top_five_sorted (Naive 0)) as (_ & B & _ & D).
  destruct (D ms eq_refl) as (top & E).
  exists top. split; [exact E|exact (B (Some ms) top E)].
Defined.

Lemma C10_witness :
  let m := sample_market (NumValue (F64.of_Z 500))
                         (NumValue (F64.of_Z 50)) in
  F64.le (EnhancedMarketAnalyzer.with_urgency (Naive 0) (mk_endDate m)
            (SimpleMarketAnalyzer.hype_of (F64.of_Z 500) (F64.of_Z 50)))
         F64.c0_1 = true /\
  SimpleMarketAnalyzer.consider (Naive 0) m = Ok None.
Proof.
  intros m. split; [vm_compute; reflexivity|].
  destruct (C10_hype_threshold (Naive 0)) as (_ & H & _).
  apply (H m (F64.of_Z 500) (F64.of_Z 50) eq_refl eq_refl).
  vm_compute. reflexivity.
Defined.

(* ================================================================= *)
(** ** Rounding in binary64 *)


Lemma digits_log2 (p : positive) :
  Z.pos (digits2_pos p) = Z.succ (Z.log2 (Z.pos p)).
Proof.
  assert (digits2_pos p = Pos.size p) as E.
  { induction p as [p IH|p IH|]; simpl; congruence. }
  rewrite E. destruct p; simpl; lia.
Qed.

Lemma digits_bounds (p : positive) :
  2 ^ (Z.pos (digits2_pos p) - 1) <= Z.pos p < 2 ^ Z.pos (digits2_pos p).
Proof.
  rewrite digits_log2.
  replace (Z.succ (Z.log2 (Z.pos p)) - 1) with (Z.log2 (Z.pos p)) by lia.
  apply Z.log2_spec. lia.
Qed.

Lemma digits_unique (p : positive) (d : Z) :
  2 ^ (d - 1) <= Z.pos p < 2 ^ d -> Z.pos (digits2_pos p) = d.
Proof.
  intros H. rewrite digits_log2.
  assert (1 <= d) as Hd.
  { destruct (Z.le_gt_cases 1 d) as [K|K]; [exact K|].
    assert (2 ^ d <= 2 ^ 0) by (apply Z.pow_le_mono_r; lia).
    simpl in *. lia. }
  rewrite (Z.log2_unique (Z.pos p) (d - 1)); [lia|lia|].
  replace (Z.succ (d - 1)) with d by lia. exact H.
Qed.

Lemma iter_pos_nat {A : Type} (f : A -> A) (p : positive) (x : A) :
  iter_pos f p x = Nat.iter (Pos.to_nat p) f x.
Proof.
  revert x. induction p as [p IH|p IH|]; intros x; cbn [iter_pos].
  - rewrite !IH, Pos2Nat.inj_xI.
    replace (S (2 * Pos.to_nat p))%nat
      with (Pos.to_nat p + S (Pos.to_nat p))%nat by lia.
    rewrite Nat.iter_add, Nat.iter_succ_r. reflexivity.
  - rewrite !IH, Pos2Nat.inj_xO.
    replace (2 * Pos.to_nat p)%nat
      with (Pos.to_nat p + Pos.to_nat p)%nat by lia.
    rewrite Nat.iter_add. reflexivity.
  - reflexivity.
Qed.

(** One shift on a non-negative mantissa. *)
Lemma shr_1_spec (m : Z) (r s : bool) :
  0 <= m ->
  shr_m (shr_1 (Build_shr_record m r s)) = m / 2 /\
  shr_r (shr_1 (Build_shr_record m r s)) = Z.odd m.
Proof.
  intros H. destruct m as [|p|p]; [split; reflexivity| |lia].
  destruct p as [p|p|]; simpl; split; try reflexivity.
  - rewrite Pos2Z.inj_xI.
    apply Z.div_unique with (r := 1); lia.
  - rewrite Pos2Z.inj_xO.
    apply Z.div_unique with (r := 0); lia.
Qed.

Lemma shr_iter_spec (n : nat) (m : Z) (r s : bool) :
  0 <= m ->
  shr_m (Nat.iter (S n) shr_1 (Build_shr_record m r s))
    = m / 2 ^ Z.of_nat (S n) /\
  shr_r (Nat.iter (S n) shr_1 (Build_shr_record m r s))
    = Z.odd (m / 2 ^ Z.of_nat n).
Proof.
  intros Hm. induction n as [|n IH].
  - change (Nat.iter 1 shr_1 (Build_shr_record m r s))
      with (shr_1 (Build_shr_record m r s)).
    destruct (shr_1_spec m r s Hm) as [A B].
    rewrite A, B. change (2 ^ Z.of_nat 0) with 1. rewrite Z.div_1_r.
    split; reflexivity.
  - destruct IH as [A B].
    change (Nat.iter (S (S n)) shr_1 (Build_shr_record m r s))
      with (shr_1 (Nat.iter (S n) shr_1 (Build_shr_record m r s))).
    destruct (Nat.iter (S n) shr_1 (Build_shr_record m r s))
      as [m' r' s'] eqn:E.
    cbn [shr_m shr_r] in A, B.
    assert (0 <= m') as Hm'.
    { rewrite A. apply Z.div_pos; [exact Hm|]. apply Z.pow_pos_nonneg; lia. }
    destruct (shr_1_spec m' r' s' Hm') as [C D].
    rewrite C, D, A. split; [|reflexivity].
    rewrite Z.div_div; [|apply Z.pow_nonzero; lia|lia].
    f_equal. rewrite (Nat2Z.inj_succ (S n)), Z.pow_succ_r; lia.
Qed.

(** [shr] by [n > 0] positions: quotient and round bit. *)
Lemma shr_spec (m : Z) (r s : bool) (e n : Z) :
  0 <= m -> 0 < n ->
  let '(mrs, e') := shr (Build_shr_record m r s) e n in
  shr_m mrs = m / 2 ^ n /\ shr_r mrs = Z.odd (m / 2 ^ (n - 1)) /\
  e' = e + n.
Proof.
  intros Hm Hn. destruct n as [|p|p]; try lia.
  unfold shr. rewrite iter_pos_nat.
  destruct (Pos2Nat.is_succ p) as (k & Ek). rewrite Ek.
  destruct (shr_iter_spec k m r s Hm) as [A B].
  assert (Z.pos p = Z.of_nat (S k)) as Ep by lia.
  rewrite A, B, Ep.
  replace (Z.of_nat (S k) - 1) with (Z.of_nat k) by lia.
  repeat split.
Qed.

Lemma fexp_eq (z : Z) : fexp F64.prec F64.emax z = Z.max (z - 53) (-1074).
Proof. reflexivity. Qed.

Lemma round_cases (q : Z) (r s : bool) :
  let m' := round_nearest_even q
              (loc_of_shr_record (Build_shr_record q r s)) in
  q <= m' <= q + 1 /\
  (r = true -> Z.odd q = true -> m' = q + 1).
Proof.
  destruct r, s; simpl; split; try lia; try discriminate.
  - destruct (Z.even q); lia.
  - intros _ H. rewrite <- Z.negb_odd, H. reflexivity.
Qed.

Lemma shr_fexp_keep (m : positive) (e : Z) :
  fexp F64.prec F64.emax (Z.pos (digits2_pos m) + e) <= e ->
  shr_fexp F64.prec F64.emax (Z.pos m) e loc_Exact
  = (Build_shr_record (Z.pos m) false false, e).
Proof.
  intros H. unfold shr_fexp. cbn [Zdigits2 shr_record_of_loc].
  destruct (fexp F64.prec F64.emax (Z.pos (digits2_pos m) + e) - e)
    as [|p|p] eqn:E; try reflexivity. lia.
Qed.

Lemma shr_fexp_zero (e : Z) :
  -1074 <= e ->
  shr_fexp F64.prec F64.emax 0 e loc_Exact
  = (Build_shr_record 0 false false, e).
Proof.
  intros H. unfold shr_fexp. cbn [Zdigits2 shr_record_of_loc].
  rewrite fexp_eq.
  destruct (Z.max (0 + e - 53) (-1074) - e) as [|p|p] eqn:E;
    try reflexivity. lia.
Qed.

Lemma bra_exact (s : bool) (M : positive) (E : Z) :
  fexp F64.prec F64.emax (Z.pos (digits2_pos M) + E) <= E ->
  binary_round_aux F64.prec F64.emax s (Z.pos M) E loc_Exact
  = fin_or_inf s M E.
Proof.
  intros H. unfold binary_round_aux.
  rewrite (shr_fexp_keep M E H).
  cbn [shr_m loc_of_shr_record round_nearest_even].
  rewrite (shr_fexp_keep M E H). reflexivity.
Qed.

Lemma pow2_pos (k : Z) : 0 <= k -> 0 < 2 ^ k.
Proof. intros H. apply Z.pow_pos_nonneg; lia. Qed.

(** The quotient of a [d]-digit mantissa by [2^n]. *)
Lemma quotient_bound (M : positive) (n k : Z) :
  0 < n -> 0 <= k -> Z.pos (digits2_pos M) - n <= k ->
  0 <= Z.pos M / 2 ^ n < 2 ^ k.
Proof.
  intros Hn Hk Hd. pose proof (digits_bounds M) as [_ B].
  pose proof (pow2_pos n ltac:(lia)) as Pn.
  split; [apply Z.div_pos; lia|].
  apply Z.div_lt_upper_bound; [exact Pn|].
  rewrite <- Z.pow_add_r by lia.
  apply Z.lt_le_trans with (1 := B). apply Z.pow_le_mono_r; lia.
Qed.

Lemma bra_round (s : bool) (M : positive) (E : Z) :
  let e1 := fexp F64.prec F64.emax (Z.pos (digits2_pos M) + E) in
  let n := e1 - E in
  0 < n ->
  exists m1,
    Z.pos M / 2 ^ n <= m1 <= Z.pos M / 2 ^ n + 1 /\
    (Z.odd (Z.pos M / 2 ^ (n - 1)) = true ->
     Z.odd (Z.pos M / 2 ^ n) = true -> m1 = Z.pos M / 2 ^ n + 1) /\
    m1 <= 2 ^ 53 /\
    binary_round_aux F64.prec F64.emax s (Z.pos M) E loc_Exact
    = match m1 with
      | Z.pos p1 =>
          if m1 <? 2 ^ 53 then fin_or_inf s p1 e1
          else fin_or_inf s (2 ^ 52)%positive (e1 + 1)
      | _ => S754_zero s
      end.
Proof.
  intros e1 n Hn.
  assert (-1074 <= e1) as He1 by (unfold e1; rewrite fexp_eq; lia).
  assert (Z.pos (digits2_pos M) - n <= 53) as Hd
    by (unfold n, e1; rewrite fexp_eq; lia).
  pose proof (quotient_bound M n 53 Hn ltac:(lia) Hd) as [Q0 Q1].
  unfold binary_round_aux, shr_fexp at 1.
  cbn [Zdigits2 shr_record_of_loc]. fold e1. fold n.
  pose proof (shr_spec (Z.pos M) false false E n ltac:(lia) Hn) as S1.
  destruct (shr (Build_shr_record (Z.pos M) false false) E n)
    as [[q r st] e'] eqn:Es.
  cbn [shr_m shr_r] in S1. destruct S1 as (Eq & Er & Ee).
  replace e' with e1 by (unfold n in Ee; lia).
  cbn [shr_m].
  pose proof (round_cases q r st) as [R1 R2]. cbv zeta in R1, R2.
  set (m1 := round_nearest_even q
               (loc_of_shr_record (Build_shr_record q r st))) in *.
  exists m1. rewrite <- Eq.
  split; [exact R1|]. split.
  { intros O1 O2. apply R2; [rewrite Er; exact O1|exact O2]. }
  split; [lia|].
  destruct m1 as [|p1|p1] eqn:Em; [| |lia].
  - rewrite (shr_fexp_zero e1 He1). reflexivity.
  - destruct (Z.ltb_spec (Z.pos p1) (2 ^ 53)) as [L|L].
    + rewrite shr_fexp_keep; [reflexivity|].
      rewrite fexp_eq.
      assert (Z.pos (digits2_pos p1) <= 53).
      { pose proof (digits_bounds p1) as [B _].
        destruct (Z.le_gt_cases (Z.pos (digits2_pos p1)) 53) as [K|K];
          [exact K|].
        assert (2 ^ 53 <= 2 ^ (Z.pos (digits2_pos p1) - 1))
          by (apply Z.pow_le_mono_r; lia).
        lia. }
      lia.
    + assert (Z.pos p1 = 2 ^ 53) as E53 by lia.
      assert (p1 = (2 ^ 53)%positive) as Ep by (apply Pos2Z.inj; exact E53).
      subst p1. unfold shr_fexp. cbn [Zdigits2 shr_record_of_loc].
      change (digits2_pos (2 ^ 53)) with 54%positive.
      rewrite fexp_eq.
      replace (Z.max (54 + e1 - 53) (-1074) - e1) with 1 by lia.
      reflexivity.
Qed.

Lemma fin_or_inf_bounded (s : bool) (m : positive) (e : Z) :
  Z.pos m < 2 ^ 53 -> bounded53 (fin_or_inf s m e).
Proof. intros H. unfold fin_or_inf. destruct (e <=? 971); simpl; auto. Qed.

Lemma digits_le_53 (m : positive) :
  Z.pos (digits2_pos m) <= 53 -> Z.pos m < 2 ^ 53.
Proof.
  intros H. pose proof (digits_bounds m) as [_ B].
  apply Z.lt_le_trans with (1 := B). apply Z.pow_le_mono_r; lia.
Qed.

Lemma bra_bounded (s : bool) (M : positive) (E : Z) :
  bounded53 (binary_round_aux F64.prec F64.emax s (Z.pos M) E loc_Exact).
Proof.
  destruct (Z.le_gt_cases
              (fexp F64.prec F64.emax (Z.pos (digits2_pos M) + E)) E)
    as [H|H].
  - rewrite (bra_exact s M E H). apply fin_or_inf_bounded.
    apply digits_le_53. rewrite fexp_eq in H. lia.
  - destruct (bra_round s M E ltac:(lia)) as (m1 & _ & _ & _ & R).
    rewrite R. destruct m1 as [|p1|p1]; [exact I| |exact I].
    destruct (Z.ltb_spec (Z.pos p1) (2 ^ 53)) as [L|L];
      apply fin_or_inf_bounded; [exact L|reflexivity].
Qed.

Lemma binary_round_bounded (s : bool) (M : positive) (E : Z) :
  bounded53 (binary_round F64.prec F64.emax s M E).
Proof.
  unfold binary_round. destruct (shl_align _ _ _) as [mz ez].
  apply bra_bounded.
Qed.

Lemma binary_normalize_bounded (z e : Z) (s : bool) :
  bounded53 (binary_normalize F64.prec F64.emax z e s).
Proof.
  destruct z; simpl; auto; apply binary_round_bounded.
Qed.

Lemma mul_bounded (x y : float) : bounded53 (F64.mul x y).
Proof.
  destruct x as [a|a| |a m e], y as [b|b| |b n f]; simpl; auto.
  apply bra_bounded.
Qed.

Lemma add_bounded (x y : float) :
  bounded53 x -> bounded53 y -> bounded53 (F64.add x y).
Proof.
  destruct x as [a|a| |a m e], y as [b|b| |b n f]; simpl; auto;
    try (destruct a, b; simpl; auto; fail).
  intros _ _. apply binary_normalize_bounded.
Qed.

Lemma iter_xO (d m : positive) :
  Z.pos (Pos.iter xO m d) = Z.pos m * 2 ^ Z.pos d.
Proof.
  induction d as [|d IH] using Pos.peano_ind.
  - simpl. lia.
  - rewrite Pos.iter_succ, Pos2Z.inj_xO, IH, Pos2Z.inj_succ, Z.pow_succ_r;
      lia.
Qed.

Lemma shl_align_down (m : positive) (e e' : Z) :
  e' <= e ->
  exists m', shl_align m e e' = (m', e') /\
             Z.pos m' = Z.pos m * 2 ^ (e - e').
Proof.
  intros H. unfold shl_align.
  destruct (e' - e) as [|d|d] eqn:E; [| lia |].
  - exists m. assert (e' = e) by lia. subst e'.
    rewrite Z.sub_diag. split; [reflexivity|simpl; lia].
  - exists (Pos.iter xO m d). split; [reflexivity|].
    rewrite iter_xO. f_equal. f_equal. lia.
Qed.

Lemma shl_align_keep (m : positive) (e e' : Z) :
  e <= e' -> shl_align m e e' = (m, e).
Proof.
  intros H. unfold shl_align.
  destruct (e' - e) as [|d|d] eqn:E; try reflexivity. lia.
Qed.

(** Shifting a mantissa left adds digits. *)
Lemma digits_shift (m m' : positive) (k : Z) :
  0 <= k -> Z.pos m' = Z.pos m * 2 ^ k ->
  Z.pos (digits2_pos m') = Z.pos (digits2_pos m) + k.
Proof.
  intros Hk E. apply digits_unique. rewrite E.
  pose proof (digits_bounds m) as [A B].
  pose proof (pow2_pos k Hk) as P.
  replace (Z.pos (digits2_pos m) + k - 1)
    with (Z.pos (digits2_pos m) - 1 + k) by lia.
  rewrite !Z.pow_add_r by lia. split; nia.
Qed.

Lemma fin_or_inf_at_least_one (m : positive) (e : Z) :
  -52 <= e -> at_least_one (fin_or_inf false m e).
Proof. intros H. unfold fin_or_inf. destruct (e <=? 971); simpl; auto. Qed.

Lemma binary_round_at_least_one (M : positive) (E : Z) :
  1 <= Z.pos (digits2_pos M) + E ->
  at_least_one (binary_round F64.prec F64.emax false M E).
Proof.
  intros H. unfold binary_round.
  set (d := Z.pos (digits2_pos M)) in *.
  assert (fexp F64.prec F64.emax (d + E) = d + E - 53) as Ef
    by (rewrite fexp_eq; lia).
  rewrite Ef.
  destruct (Z.le_gt_cases (d + E - 53) E) as [K|K].
  - destruct (shl_align_down M E (d + E - 53) K) as (mz & Es & Ez).
    rewrite Es.
    assert (Z.pos (digits2_pos mz) = d + (E - (d + E - 53))) as Dz
      by (apply digits_shift; [lia|exact Ez]).
    rewrite bra_exact; [apply fin_or_inf_at_least_one; lia|].
    rewrite fexp_eq, Dz. lia.
  - rewrite shl_align_keep by lia.
    destruct (bra_round false M E) as (m1 & [Q _] & _ & _ & R).
    { fold d. rewrite Ef. lia. }
    fold d in Q, R. rewrite Ef in Q, R. rewrite R.
    assert (2 ^ 52 <= Z.pos M / 2 ^ (d + E - 53 - E)) as L.
    { pose proof (digits_bounds M) as [A _]. fold d in A.
      apply Z.div_le_lower_bound; [apply pow2_pos; lia|].
      rewrite <- Z.pow_add_r by lia.
      replace (d + E - 53 - E + 52) with (d - 1) by lia. exact A. }
    destruct m1 as [|p1|p1]; [lia| |lia].
    destruct (Z.pos p1 <? 2 ^ 53);
      apply fin_or_inf_at_least_one; lia.
Qed.

Lemma at_least_one_ge (y : float) :
  at_least_one y -> F64.le F64.c0_55 y = true.
Proof.
  destruct y as [a|a| |a m e]; cbn [at_least_one]; try tauto.
  - destruct a; [tauto|reflexivity].
  - destruct a; [tauto|]. intros H.
    unfold F64.le, SFleb, F64.c0_55. cbv delta [SFcompare]. cbv beta iota.
    destruct (Z.compare_spec (-53) e); try reflexivity; lia.
Qed.

Lemma one_minus_negative (m : positive) (e : Z) :
  F64.le F64.c0_55 (F64.sub F64.c1_0 (S754_finite true m e)) = true.
Proof.
  apply at_least_one_ge.
  unfold F64.sub, SFsub, F64.c1_0. cbv zeta.
  set (ez := Z.min (-52) e).
  destruct (shl_align_down 4503599627370496 (-52) ez ltac:(lia))
    as (a & Ea & Va).
  destruct (shl_align_down m e ez ltac:(lia)) as (b & Eb & Vb).
  rewrite Ea, Eb. cbn [fst cond_Zopp].
  replace (Z.pos a - - Z.pos b) with (Z.pos (a + b)) by lia.
  cbn [binary_normalize].
  apply binary_round_at_least_one.
  pose proof (digits_bounds (a + b)) as [_ B].
  set (d := Z.pos (digits2_pos (a + b))) in *.
  destruct (Z.le_gt_cases 1 (d + ez)) as [K|K]; [exact K|].
  exfalso.
  assert (2 ^ d <= 2 ^ (- ez)) as P by (apply Z.pow_le_mono_r; lia).
  assert (Z.pos a = 2 ^ (- ez)) as Pa.
  { rewrite Va. change 4503599627370496 with (2 ^ 52).
    rewrite <- Z.pow_add_r by lia. f_equal. lia. }
  lia.
Qed.

(** The mantissa comparison of [SFcompare], read on integers. *)
Lemma mantissa_compare (p q : positive) :
  CompareSpec (Z.pos p = Z.pos q) (Z.pos p < Z.pos q) (Z.pos q < Z.pos p)
              (PosDef.Pos.compare_cont Eq p q).
Proof.
  change (PosDef.Pos.compare_cont Eq p q) with (Pos.compare p q).
  destruct (Pos.compare_spec p q) as [C|C|C]; constructor;
    [rewrite C; reflexivity|exact C|exact C].
Qed.

Lemma le_c0_45 (m : positive) (e : Z) :
  F64.le (S754_finite false m e) F64.c0_45 = true ->
  e < -54 \/ (e = -54 /\ Z.pos m <= 8106479329266893).
Proof.
  unfold F64.le, SFleb, F64.c0_45. cbv delta [SFcompare]. cbv beta iota.
  destruct (Z.compare_spec e (-54)) as [E|E|E]; [| |discriminate].
  - destruct (mantissa_compare m 8106479329266893) as [C|C|C];
      [| |discriminate]; intros _; right; (split; [exact E|]).
    + rewrite C. apply Z.le_refl.
    + apply Z.lt_le_incl. exact C.
  - intros _. left. exact E.
Qed.

Lemma one_minus_small (m : positive) (e : Z) :
  Z.pos m < 2 ^ 53 ->
  e < -54 \/ (e = -54 /\ Z.pos m <= 8106479329266893) ->
  F64.le F64.c0_55 (F64.sub F64.c1_0 (S754_finite false m e)) = true.
Proof.
  intros Hm He.
  assert (e <= -54) as He' by lia.
  unfold F64.sub, SFsub, F64.c1_0. cbv zeta.
  rewrite (Z.min_r (-52) e) by lia.
  destruct (shl_align_down 4503599627370496 (-52) e ltac:(lia))
    as (a & Ea & Va).
  rewrite Ea, (shl_align_keep m e e) by lia. cbn [fst cond_Zopp].
  set (n := -53 - e).
  assert (0 < n) as Hn by (unfold n; lia).
  pose proof (pow2_pos (n - 1) ltac:(lia)) as Pn.
  assert (Z.pos a = 2 ^ 54 * 2 ^ (n - 1)) as Pa.
  { rewrite Va. change 4503599627370496 with (2 ^ 52).
    rewrite <- !Z.pow_add_r by lia. f_equal. unfold n. lia. }
  assert (Z.pos m <= 8106479329266893 * 2 ^ (n - 1)) as Pm.
  { destruct He as [L | [E L]].
    - assert (2 ^ 1 <= 2 ^ (n - 1)) by (apply Z.pow_le_mono_r; unfold n; lia).
      change (2 ^ 53) with 9007199254740992 in Hm.
      change (2 ^ 1) with 2 in *. nia.
    - replace (n - 1) with 0 by (unfold n; lia). simpl. lia. }
  change (2 ^ 54) with 18014398509481984 in Pa.
  destruct (Z.pos a - Z.pos m) as [|M|M] eqn:EM; [nia| |nia].
  cbn [binary_normalize]. unfold binary_round.
  assert (Z.pos (digits2_pos M) = - e) as Dm.
  { apply digits_unique.
    replace (- e) with (54 + (n - 1)) by (unfold n; lia).
    replace (54 + (n - 1) - 1) with (53 + (n - 1)) by lia.
    rewrite !Z.pow_add_r by lia.
    change (2 ^ 54) with 18014398509481984.
    change (2 ^ 53) with 9007199254740992. nia. }
  assert (fexp F64.prec F64.emax (Z.pos (digits2_pos M) + e) = -53) as Ef
    by (rewrite fexp_eq, Dm; lia).
  rewrite Ef, (shl_align_keep M e (-53)) by lia.
  destruct (bra_round false M e) as (m1 & [Q _] & Up & Top & R);
    [rewrite Ef; lia|].
  rewrite Ef in Q, Up, R. fold n in Q, Up, R. rewrite R. clear R.
  assert (9907919180215091 <= Z.pos M / 2 ^ (n - 1)) as Lq.
  { apply Z.div_le_lower_bound; [exact Pn|]. nia. }
  assert (Z.pos M / 2 ^ n = Z.pos M / 2 ^ (n - 1) / 2) as Ehalf.
  { rewrite Z.div_div by lia. f_equal.
    replace n with (n - 1 + 1) at 1 by lia.
    rewrite Z.pow_add_r by lia. reflexivity. }
  assert (4953959590107546 <= m1) as Lm.
  { destruct (Z.le_gt_cases 9907919180215092 (Z.pos M / 2 ^ (n - 1)))
      as [K|K].
    - assert (4953959590107546 <= Z.pos M / 2 ^ (n - 1) / 2)
        by (apply Z.div_le_lower_bound; lia).
      lia.
    - assert (Z.pos M / 2 ^ (n - 1) = 9907919180215091) as Ev by lia.
      rewrite Ehalf, Ev in Up. rewrite (Up eq_refl eq_refl).
      apply Z.leb_le. vm_compute. reflexivity. }
  destruct m1 as [|p1|p1]; [lia| |lia].
  destruct (Z.ltb_spec (Z.pos p1) (2 ^ 53)) as [L|L]; [|reflexivity].
  unfold fin_or_inf. change (-53 <=? 971) with true. cbv iota.
  unfold F64.le, SFleb, F64.c0_55. cbv delta [SFcompare]. cbv beta iota.
  change (-53 ?= -53) with Eq. cbv iota.
  destruct (mantissa_compare 4953959590107546 p1) as [C|C|C];
    try reflexivity.
  lia.
Qed.

(** For every float [x <= 0.45] with a 53-bit mantissa,
    [1.0 - x >= 0.55]. *)
Lemma one_minus_le_0_45 (x : float) :
  bounded53 x -> F64.le x F64.c0_45 = true ->
  F64.le F64.c0_55 (F64.sub F64.c1_0 x) = true.
Proof.
  destruct x as [s|s| |s m e]; intros B H.
  - reflexivity.
  - destruct s; [reflexivity|discriminate H].
  - discriminate H.
  - destruct s.
    + apply one_minus_negative.
    + apply one_minus_small; [exact B|exact (le_c0_45 m e H)].
Qed.

Lemma overall_bounded (s h r : float) :
  bounded53 (Spec.weighted_overall s h r).
Proof.
  unfold Spec.weighted_overall.
  apply add_bounded; [apply add_bounded|]; apply mul_bounded.
Qed.

(** X1: whatever the three scores, a BUY or SELL carries a confidence of
    at least 0.55 and a HOLD a confidence of exactly 0.5. *)
Theorem X1_confidence_floor (v l : float) (d : Z) (s h r : float) :
  let dec := _generate_recommendation v l d s h r in
  (d_recommendation dec = BUY \/ d_recommendation dec = SELL ->
   F64.ge (d_confidence dec) (F64.lit 55 100) = true) /\
  (d_recommendation dec = HOLD -> d_confidence dec = F64.lit 5 10).
Proof.
  intros dec.
  pose proof (generate_is_four_bands v l d s h r) as G.
  fold dec in G. rewrite four_bands_two_bands in G.
  pose proof (overall_bounded s h r) as B.
  set (o := Spec.weighted_overall s h r) in *.
  destruct literals as (_ & _ & _ & E55 & E45 & _ & E1 & _).
  revert G. unfold Spec.two_bands, Spec.first_match.
  destruct (F64.ge o (F64.lit 55 100)) eqn:H55;
    [|destruct (F64.le o (F64.lit 45 100)) eqn:H45];
    intros G; pose proof (f_equal fst G) as G1;
    pose proof (f_equal snd G) as G2; cbn [fst snd] in G1, G2.
  - split.
    + intros _. rewrite G2. exact H55.
    + intros K. congruence.
  - split; [|intros K; congruence]. intros _. rewrite G2.
    unfold F64.ge. rewrite E55, E1. apply one_minus_le_0_45; [exact B|].
    rewrite <- E45. exact H45.
  - split; [intros [K|K]; congruence|intros _; exact G2].
Qed.

Lemma X1_witness :
  let dec :=
    _generate_recommendation F64.c0_0 F64.c0_0 0
      (F64.lit 3 10) (F64.lit 5 10) (F64.lit 5 10) in
  d_recommendation dec = SELL /\
  F64.ge (d_confidence dec) (F64.lit 55 100) = true.
Proof.
  intros dec. split; [vm_compute; reflexivity|].
  apply (X1_confidence_floor F64.c0_0 F64.c0_0 0
           (F64.lit 3 10) (F64.lit 5 10) (F64.lit 5 10)).
  right. vm_compute. reflexivity.
Defined.

(* ================================================================= *)
(** ** The analysis record *)

Lemma historical_shape (ev : event) (m : market) (r : scored) :
  _analyze_historical_performance ev m = Ok r ->
  F64.in_unit (score r) = true /\ List.length (analysis r) = 6%nat /\
  sources r = ["Polymarket historical data (free)"].
Proof.
  intros H.
  destruct (to_float (mk_volume m)) as [v|e] eqn:Hv;
    [|unfold _analyze_historical_performance in H; rewrite Hv in H;
      discriminate H].
  destruct (to_float (mk_liquidity m)) as [l|e] eqn:Hl;
    [|unfold _analyze_historical_performance in H; rewrite Hv, Hl in H;
      cbn [bind] in H; destruct (volume_band _ _); discriminate H].
  destruct (historical_in_unit ev m v l Hv Hl) as (r' & E & U).
  assert (r' = r) by congruence. subst r'.
  split; [exact U|].
  revert H. unfold _analyze_historical_performance. rewrite Hv, Hl.
  cbn [bind].
  destruct (volume_band _ _) as [s1 l1].
  destruct (liquidity_band _ _) as [s2 l2].
  destruct (category_band _ _) as [s3 l3].
  intros H.
  apply (f_equal (fun x => match x with Ok y => y | Raise _ => r end)) in H.
  subst r. split; reflexivity.
Qed.

Lemma risk_shape (m : market) (days : Z) (r : scored) :
  _assess_trading_risk m days = Ok r ->
  F64.in_unit (score r) = true /\ List.length (analysis r) = 4%nat /\
  sources r = [].
Proof.
  intros H.
  destruct (to_float (mk_liquidity m)) as [l|e] eqn:Hl;
    [|unfold _assess_trading_risk in H; destruct (time_risk _ _);
      rewrite Hl in H; discriminate H].
  destruct (risk_in_unit m days l Hl) as (r' & E & U).
  assert (r' = r) by congruence. subst r'.
  split; [exact U|].
  revert H. unfold _assess_trading_risk.
  destruct (time_risk _ _) as [s1 l1]. rewrite Hl. cbn [bind].
  destruct (liquidity_risk _ _) as [s2 l2].
  intros H.
  apply (f_equal (fun x => match x with Ok y => y | Raise _ => r end)) in H.
  subst r. split; reflexivity.
Qed.

Lemma recommendation_shape (v l : float) (d : Z) (s h r : float) :
  List.length (d_analysis (_generate_recommendation v l d s h r)) = 8%nat.
Proof.
  unfold _generate_recommendation.
  set (o := F64.add _ _).
  destruct (F64.ge o F64.c0_6); [reflexivity|].
  destruct (F64.ge o F64.c0_55); [reflexivity|].
  destruct (F64.le o F64.c0_4); [reflexivity|].
  destruct (F64.le o F64.c0_45); reflexivity.
Qed.

(** X2: a completed analysis records three scores in [[0.0, 1.0]], the
    recommendation and confidence that the band table gives for exactly
    these scores, a reasoning trace of 33 lines and the same four data
    sources. *)
Theorem X2_analysis_coherent (py : cpython) (now : datetime) (ev : event) (m : market)
    (a : analysis_data) :
  analyze_market_for_trading py now ev m = Ok a ->
  F64.in_unit (a_sentiment_score a) = true /\
  F64.in_unit (a_historical_score a) = true /\
  F64.in_unit (a_risk_score a) = true /\
  (a_recommendation a, a_confidence a)
    = Spec.first_match Spec.four_bands
        (Spec.weighted_overall (a_sentiment_score a) (a_historical_score a)
           (a_risk_score a)) /\
  to_float (mk_volume m) = Ok (a_volume a) /\
  to_float (mk_liquidity m) = Ok (a_liquidity a) /\
  a_days_until_end a = days_until now (mk_endDate m) /\
  List.length (a_chain_of_thought a) = 33%nat /\
  a_data_sources a
    = ["Reddit API (free)"; "News keyword analysis (free)";
       "Social media keyword analysis (free)";
       "Polymarket historical data (free)"].
Proof.
  unfold analyze_market_for_trading.
  destruct (to_float (mk_volume m)) as [v|e]; [|discriminate].
  destruct (to_float (mk_liquidity m)) as [l|e]; [|discriminate].
  cbn [bind].
  destruct (_analyze_historical_performance ev m) as [h|e] eqn:Eh;
    [|discriminate].
  cbn [bind].
  destruct (_assess_trading_risk m (days_until now (mk_endDate m)))
    as [r|e] eqn:Er; [|discriminate].
  cbn [bind]. intros H.
  apply (f_equal (fun x => match x with Ok y => y | Raise _ => a end)) in H.
  subst a.
  cbn [a_sentiment_score a_historical_score a_risk_score a_recommendation
       a_confidence a_volume a_liquidity a_days_until_end
       a_chain_of_thought a_data_sources].
  destruct (historical_shape ev m h Eh) as (Uh & Lh & Sh).
  destruct (risk_shape m _ r Er) as (Ur & Lr & Sr).
  split; [apply sentiment_in_unit|].
  split; [exact Uh|]. split; [exact Ur|].
  split; [apply generate_is_four_bands|].
  split; [reflexivity|]. split; [reflexivity|]. split; [reflexivity|].
  split.
  - rewrite !length_app, Lh, Lr, recommendation_shape. reflexivity.
  - rewrite Sh. reflexivity.
Qed.

(* ================================================================= *)
(** ** Monotonicity and range of the banded scorers *)

Ltac split_days :=
  repeat match goal with
  | |- context [Z.leb ?d ?c] => destruct (Z.leb_spec d c)
  end.

Ltac scored_pair :=
  eexists; eexists;
  (split; [reflexivity|split; [reflexivity|vm_compute; reflexivity]]).

(** X3: the historical score does not decrease when volume or liquidity
    grows, the category being the same. *)
Theorem X3_historical_monotone (ev : event) (m1 m2 : market)
    (v1 v2 l1 l2 : float) :
  to_float (mk_volume m1) = Ok v1 -> to_float (mk_liquidity m1) = Ok l1 ->
  to_float (mk_volume m2) = Ok v2 -> to_float (mk_liquidity m2) = Ok l2 ->
  F64.le v1 v2 = true -> F64.le l1 l2 = true ->
  exists r1 r2,
    _analyze_historical_performance ev m1 = Ok r1 /\
    _analyze_historical_performance ev m2 = Ok r2 /\
    F64.le (score r1) (score r2) = true.
Proof.
  intros Hv1 Hl1 Hv2 Hl2 Lv Ll.
  unfold _analyze_historical_performance.
  rewrite Hv1, Hl1, Hv2, Hl2. cbn [bind].
  unfold volume_band, liquidity_band, category_band.
  destruct (existsb _ _);
    split_bands_eq; first [band_order | scored_pair].
Qed.

(** X4: the risk score does not decrease when the days to the end or the
    liquidity grow. *)
Theorem X4_risk_monotone (m1 m2 : market) (d1 d2 : Z) (l1 l2 : float) :
  to_float (mk_liquidity m1) = Ok l1 -> to_float (mk_liquidity m2) = Ok l2 ->
  d1 <= d2 -> F64.le l1 l2 = true ->
  exists r1 r2,
    _assess_trading_risk m1 d1 = Ok r1 /\
    _assess_trading_risk m2 d2 = Ok r2 /\
    F64.le (score r1) (score r2) = true.
Proof.
  intros Hl1 Hl2 Ld Ll.
  unfold _assess_trading_risk, time_risk.
  split_days; try lia; rewrite Hl1, Hl2; cbn [bind];
    unfold liquidity_risk;
    split_bands_eq; first [band_order | scored_pair].
Qed.

(** X5: the clamp to [[0, 1]] at the end of the two scorers never changes
    a score: the historical score is the sum of its bands and lies in
    [[0.2, 1.0)], the risk score is the sum of its bands and lies in
    [[0.0, 0.8)]. *)
Theorem X5_score_ranges (ev : event) (m : market) (days : Z) (v l : float) :
  to_float (mk_volume m) = Ok v -> to_float (mk_liquidity m) = Ok l ->
  (exists r, _analyze_historical_performance ev m = Ok r /\
             score r
               = fst (category_band
                        (fst (liquidity_band
                                (fst (volume_band F64.c0_5 v)) l))
                        (ev_category ev)) /\
             F64.le (F64.lit 2 10) (score r) = true /\
             F64.lt (score r) (F64.of_Z 1) = true) /\
  (exists r, _assess_trading_risk m days = Ok r /\
             score r
               = fst (liquidity_risk (fst (time_risk F64.c0_5 days)) l) /\
             F64.le (F64.of_Z 0) (score r) = true /\
             F64.lt (score r) (F64.lit 8 10) = true).
Proof.
  intros Hv Hl. split.
  - unfold _analyze_historical_performance. rewrite Hv, Hl. cbn [bind].
    unfold volume_band, liquidity_band, category_band.
    split_bands; eexists;
      (split; [reflexivity|split; [|split]; vm_compute; reflexivity]).
  - unfold _assess_trading_risk, time_risk.
    split_bands; rewrite Hl; cbn [bind]; unfold liquidity_risk;
      split_bands; eexists;
      (split; [reflexivity|split; [|split]; vm_compute; reflexivity]).
Qed.

(* ================================================================= *)
(** ** End dates with a UTC offset *)

(** X6: an end date that carries a UTC offset (a trailing Z) never takes
    part in a date test, because comparing it with the offset-free
    [datetime.now()] raises inside the [try]: the event always counts as
    current, the market has 0 days until its end, is never skipped as
    ended and never gets the urgency bonus. *)
Theorem X6_offset_dates_ignored (now t : Z) :
  (forall ev, ev_endDate ev = DateText (IsoAware t) ->
              event_is_current (Naive now) ev = true) /\
  days_until (Naive now) (DateText (IsoAware t)) = 0 /\
  EnhancedMarketAnalyzer.ended (Naive now) (DateText (IsoAware t)) = false /\
  (forall score,
     EnhancedMarketAnalyzer.with_urgency (Naive now)
       (DateText (IsoAware t)) score = score).
Proof.
  split; [|split; [|split]]; try reflexivity.
  intros ev E. unfold event_is_current. rewrite E. reflexivity.
Qed.

(* ================================================================= *)
(** ** Markets without a usable end date *)

(** X7: a market whose end date is missing, empty, unparseable or carries
    a UTC offset is analysed with 0 days until its end, so its risk score
    takes the largest time penalty and is 0.0, 0.2 or 0.2 + 0.1. *)
Theorem X7_undated_risk (py : cpython) (now : Z) (ev : event) (m : market)
    (a : analysis_data) :
  (mk_endDate m = DateNone \/ mk_endDate m = DateEmpty \/
   mk_endDate m = DateText IsoBad \/
   exists t, mk_endDate m = DateText (IsoAware t)) ->
  analyze_market_for_trading py (Naive now) ev m = Ok a ->
  a_days_until_end a = 0 /\
  (a_risk_score a = F64.of_Z 0 \/ a_risk_score a = F64.lit 2 10 \/
   a_risk_score a = F64.add (F64.lit 2 10) (F64.lit 1 10)).
Proof.
  intros D. unfold analyze_market_for_trading.
  destruct (to_float (mk_volume m)) as [v|e]; [|discriminate].
  destruct (to_float (mk_liquidity m)) as [l|e] eqn:Hl; [|discriminate].
  cbn [bind].
  destruct (_analyze_historical_performance ev m) as [h|e]; [|discriminate].
  cbn [bind].
  assert (days_until (Naive now) (mk_endDate m) = 0) as E.
  { destruct D as [D | [D | [D | [t D]]]]; rewrite D; reflexivity. }
  rewrite E.
  unfold _assess_trading_risk, time_risk. cbn [Z.leb Z.compare].
  cbv iota. rewrite Hl. cbn [bind]. unfold liquidity_risk.
  destruct (F64.gt l (F64.of_Z 5000));
    [|destruct (F64.gt l (F64.of_Z 1000))];
    cbn [bind]; intros H;
    apply (f_equal (fun x => match x with Ok y => y | Raise _ => a end)) in H;
    subst a; cbn [a_days_until_end a_risk_score score];
    (split; [reflexivity|]).
  - right. right. vm_compute. reflexivity.
  - right. left. vm_compute. reflexivity.
  - left. vm_compute. reflexivity.
Qed.

(* ================================================================= *)
(** ** The report of the enhanced ranker *)

Lemma show_all_raises (ms : list market) (k : market) :
  In k ms -> mk_event_end_date k = DateNone ->
  EnhancedMarketAnalyzer.show_all ms = Raise TypeError.
Proof.
  induction ms as [|m ms IH]; simpl; intros Hk E; [destruct Hk|].
  unfold EnhancedMarketAnalyzer.show at 1.
  destruct Hk as [-> | Hk].
  - rewrite E. reflexivity.
  - destruct (mk_event_end_date m); cbn [bind];
      try exact (IH Hk E); reflexivity.
Qed.

(** X8: when one of the selected markets belongs to an event without an
    [endDate], the enhanced ranker raises [TypeError] while printing its
    report and returns no market at all. *)
Theorem X8_report_needs_end_date (now : datetime) (events : list event)
    (kept : list market) (k : market) :
  collect (EnhancedMarketAnalyzer.consider now)
    (EnhancedMarketAnalyzer.get_markets_from_events events) = Ok kept ->
  In k (firstn 5 (sort_desc hype_key kept)) ->
  mk_event_end_date k = DateNone ->
  EnhancedMarketAnalyzer.get_current_markets now (Some events)
    = Raise TypeError.
Proof.
  intros Ec Hk E. unfold EnhancedMarketAnalyzer.get_current_markets.
  rewrite Ec. cbn [bind]. rewrite (show_all_raises _ k Hk E). reflexivity.
Qed.
(* ================================================================= *)
(** ** The selection of the ranker *)

Lemma sorted_app_dominates {A : Type} (R : A -> A -> Prop) (l1 l2 : list A) :
  StronglySorted R (l1 ++ l2) ->
  forall a b, In a l1 -> In b l2 -> R a b.
Proof.
  induction l1 as [|x l1 IH]; simpl; intros H a b Ha Hb; [destruct Ha|].
  inversion H as [|? ? Hs Hx]; subst.
  destruct Ha as [E | Ha].
  - subst. rewrite Forall_forall in Hx. apply Hx.
    apply in_or_app. right. exact Hb.
  - exact (IH Hs a b Ha Hb).
Qed.

Lemma selection (out : list market) :
  Forall good_key out ->
  let top := firstn 5 (sort_desc hype_key out) in
  let rest := skipn 5 (sort_desc hype_key out) in
  Permutation out (top ++ rest) /\
  (forall a b, In a top -> In b rest ->
               F64.le (hype_key b) (hype_key a) = true) /\
  ((List.length out <= 5)%nat -> rest = []).
Proof.
  intros H top rest.
  assert (top ++ rest = sort_desc hype_key out) as E
    by apply firstn_skipn.
  split; [rewrite E; symmetry; apply sort_desc_perm|].
  split.
  - apply (sorted_app_dominates (desc_by hype_key)). rewrite E.
    apply sort_desc_sorted.
    apply Forall_forall. intros k Hk. apply good_key_ordered.
    rewrite Forall_forall in H. exact (H k Hk).
  - intros L. unfold rest. apply skipn_all2.
    rewrite (Permutation_length (sort_desc_perm hype_key out)). exact L.
Qed.

(** X9: the markets returned are the best of those the pre-filter kept:
    kept markets split into the returned ones and a rest whose hype
    scores are all at most every returned score, and nothing is left out
    when at most five markets were kept. *)
Theorem X9_best_are_selected (now : datetime) :
  (forall events top,
     EnhancedMarketAnalyzer.get_current_markets now (Some events) = Ok top ->
     exists kept rest,
       collect (EnhancedMarketAnalyzer.consider now)
         (EnhancedMarketAnalyzer.get_markets_from_events events) = Ok kept /\
       Permutation kept (top ++ rest) /\
       (forall a b, In a top -> In b rest ->
                    F64.le (hype_key b) (hype_key a) = true) /\
       ((List.length kept <= 5)%nat -> rest = [])) /\
  (forall markets top,
     SimpleMarketAnalyzer.get_hype_markets now (Some markets) = Ok top ->
     exists kept rest,
       collect (SimpleMarketAnalyzer.consider now) markets = Ok kept /\
       Permutation kept (top ++ rest) /\
       (forall a b, In a top -> In b rest ->
                    F64.le (hype_key b) (hype_key a) = true) /\
       ((List.length kept <= 5)%nat -> rest = [])).
Proof.
  split.
  - intros events top.
    unfold EnhancedMarketAnalyzer.get_current_markets.
    destruct (collect _ _) as [kept|e] eqn:Ec; [|discriminate].
    cbn [bind].
    destruct (EnhancedMarketAnalyzer.show_all _); [|discriminate].
    intros H.
    assert (firstn 5 (sort_desc hype_key kept) = top) as <-
      by (cbv beta zeta iota delta [bind] in H; congruence).
    exists kept, (skipn 5 (sort_desc hype_key kept)).
    split; [reflexivity|].
    exact (selection kept (enhanced_collect_good now _ kept Ec)).
  - intros markets top.
    unfold SimpleMarketAnalyzer.get_hype_markets.
    destruct (collect _ _) as [kept|e] eqn:Ec; [|discriminate].
    cbn [bind]. intros H.
    assert (firstn 5 (sort_desc hype_key kept) = top) as <-
      by (cbv beta zeta iota delta [bind] in H; congruence).
    exists kept, (skipn 5 (sort_desc hype_key kept)).
    split; [reflexivity|].
    exact (selection kept (simple_collect_good now _ kept Ec)).
Qed.

(** X10: every market returned by a ranker is one of its input markets
    that is not known to have ended, whose liquidity is not [<= 0] and
    whose score passes the threshold; only its [hype_score] is written,
    with the score capped at 1.0.  In the enhanced script the market
    carries the id, title, category and end date of its own event, and
    that event has an [endDate]. *)
Theorem X10_returned_markets (now : datetime) :
  (forall events top k,
     EnhancedMarketAnalyzer.get_current_markets now (Some events) = Ok top ->
     In k top ->
     exists ev m v l,
       In ev events /\ In m (ev_markets ev) /\
       dated (ev_endDate ev) = true /\
       to_float (mk_volume m) = Ok v /\ to_float (mk_liquidity m) = Ok l /\
       EnhancedMarketAnalyzer.ended now (ev_endDate ev) = false /\
       F64.le l (F64.of_Z 0) = false /\
       F64.gt (EnhancedMarketAnalyzer.with_urgency now (ev_endDate ev)
                 (EnhancedMarketAnalyzer.hype_of v l)) (F64.lit 1 10)
         = true /\
       k = set_hype_score (EnhancedMarketAnalyzer.with_event_context ev m)
             (F64.py_min
                (EnhancedMarketAnalyzer.with_urgency now (ev_endDate ev)
                   (EnhancedMarketAnalyzer.hype_of v l)) F64.c1_0)) /\
  (forall markets top k,
     SimpleMarketAnalyzer.get_hype_markets now (Some markets) = Ok top ->
     In k top ->
     exists m v l,
       In m markets /\
       to_float (mk_volume m) = Ok v /\ to_float (mk_liquidity m) = Ok l /\
       EnhancedMarketAnalyzer.ended now (mk_endDate m) = false /\
       F64.le l (F64.of_Z 0) = false /\
       F64.gt (EnhancedMarketAnalyzer.with_urgency now (mk_endDate m)
                 (SimpleMarketAnalyzer.hype_of v l)) (F64.lit 1 10)
         = true /\
       k = set_hype_score m
             (F64.py_min
                (EnhancedMarketAnalyzer.with_urgency now (mk_endDate m)
                   (SimpleMarketAnalyzer.hype_of v l)) F64.c1_0)).
Proof.
  split.
  - intros events top k.
    unfold EnhancedMarketAnalyzer.get_current_markets.
    destruct (collect _ _) as [kept|e] eqn:Ec; [|discriminate].
    cbn [bind].
    destruct (EnhancedMarketAnalyzer.show_all _) as [u|e] eqn:Es;
      [|discriminate].
    intros H Hk.
    assert (firstn 5 (sort_desc hype_key kept) = top) as <-
      by (cbv beta zeta iota delta [bind] in H; congruence).
    assert (dated (mk_event_end_date k) = true) as Dk.
    { destruct (mk_event_end_date k) eqn:Ek; try reflexivity.
      rewrite (show_all_raises _ k Hk Ek) in Es. discriminate Es. }
    apply In_firstn in Hk.
    apply (Permutation_in k (sort_desc_perm hype_key kept)) in Hk.
    destruct (collect_kept _ _ _ Ec k Hk) as (m & Hm & Hc).
    destruct (enhanced_consider_kept now m k Hc)
      as (v & l & Hv & Hl & He & Hp & Hg & Ek).
    destruct (In_markets_from_events events m Hm) as (ev & m0 & A & B & E).
    subst m. subst k. exists ev, m0, v, l.
    repeat split; assumption.
  - intros markets top k.
    unfold SimpleMarketAnalyzer.get_hype_markets.
    destruct (collect _ _) as [kept|e] eqn:Ec; [|discriminate].
    cbn [bind].
    intros H Hk.
    assert (firstn 5 (sort_desc hype_key kept) = top) as <-
      by (cbv beta zeta iota delta [bind] in H; congruence).
    apply In_firstn in Hk.
    apply (Permutation_in k (sort_desc_perm hype_key kept)) in Hk.
    destruct (collect_kept _ _ _ Ec k Hk) as (m & Hm & Hc).
    destruct (simple_consider_kept now m k Hc)
      as (v & l & Hv & Hl & He & Hp & Hg & Ek).
    exists m, v, l. repeat split; assumption.
Qed.

(* ================================================================= *)
(** ** Questions without keywords *)

(** X11: a question in which no keyword of the three channels occurs has
    sentiment 0.5 in every channel and overall. *)
Theorem X11_neutral_sentiment (py : cpython) (q : string) :
  count_in (positive_current ++ negative_current ++ positive_words
            ++ negative_words ++ positive_econ ++ negative_econ
            ++ positive_social ++ negative_social) (lower q) = 0 ->
  _get_reddit_sentiment q = F64.lit 5 10 /\
  _get_news_sentiment q = F64.lit 5 10 /\
  _get_social_sentiment q = F64.lit 5 10 /\
  score (_analyze_market_sentiment py q) = F64.lit 5 10.
Proof.
  rewrite !count_in_app. intros H.
  pose proof (count_in_bounds positive_current (lower q)) as B1.
  pose proof (count_in_bounds negative_current (lower q)) as B2.
  pose proof (count_in_bounds positive_words (lower q)) as B3.
  pose proof (count_in_bounds negative_words (lower q)) as B4.
  pose proof (count_in_bounds positive_econ (lower q)) as B5.
  pose proof (count_in_bounds negative_econ (lower q)) as B6.
  pose proof (count_in_bounds positive_social (lower q)) as B7.
  pose proof (count_in_bounds negative_social (lower q)) as B8.
  assert (_get_reddit_sentiment q = F64.lit 5 10) as R.
  { rewrite reddit_is_sub_score. unfold reddit_counts.
    replace (count_in positive_current (lower q)) with 0 by lia.
    replace (count_in negative_current (lower q)) with 0 by lia.
    replace (count_in positive_words (lower q)) with 0 by lia.
    replace (count_in negative_words (lower q)) with 0 by lia.
    reflexivity. }
  assert (_get_news_sentiment q = F64.lit 5 10) as N.
  { rewrite news_is_sub_score.
    replace (count_in positive_econ (lower q)) with 0 by lia.
    replace (count_in negative_econ (lower q)) with 0 by lia.
    reflexivity. }
  assert (_get_social_sentiment q = F64.lit 5 10) as S.
  { rewrite social_is_sub_score.
    replace (count_in positive_social (lower q)) with 0 by lia.
    replace (count_in negative_social (lower q)) with 0 by lia.
    reflexivity. }
  repeat split; try assumption.
  rewrite sentiment_unfold, R, N, S. destruct py; vm_compute; reflexivity.
Qed.
(* ================================================================= *)
(** ** The keyword research of the batch scripts *)

Lemma count2 (p : float -> bool) (a b c : float) :
  (2 <=? Z.of_nat (List.length (filter p [a; b; c])))
  = at_least_two p a b c.
Proof.
  unfold at_least_two. cbn [filter].
  destruct (p a), (p b), (p c); reflexivity.
Qed.

Lemma above_not_below (lo hi s : float) :
  F64.lt lo hi = true -> F64.gt s hi = true -> F64.lt s lo = true -> False.
Proof.
  unfold F64.gt. intros L A B.
  pose proof (lt_le_trans s lo hi B (lt_le lo hi L)) as C.
  pose proof (lt_not_le s hi C) as D.
  rewrite (lt_le hi s A) in D. discriminate D.
Qed.

Ltac settle_vote lo hi :=
  match goal with
  | A : F64.gt ?s hi = true, B : F64.lt ?s lo = true |- _ =>
      exfalso; exact (above_not_below lo hi s eq_refl A B)
  | _ => repeat split; intros; try reflexivity; try discriminate; congruence
  end.

Lemma enhanced_vote (a b c : float) :
  let v := EnhancedResearch.vote [a; b; c] in
  (snd v = BUY <->
   at_least_two (fun s => F64.gt s F64.c0_6) a b c = true) /\
  (snd v = SELL <->
   at_least_two (fun s => F64.lt s F64.c0_4) a b c = true) /\
  fst v = match snd v with
          | BUY => EnhancedResearch.c0_7
          | SELL => F64.c0_3
          | HOLD => F64.c0_5
          end.
Proof.
  unfold EnhancedResearch.vote. cbv zeta. rewrite !count2.
  unfold at_least_two.
  destruct (F64.gt a F64.c0_6) eqn:A1, (F64.lt a F64.c0_4) eqn:A2,
           (F64.gt b F64.c0_6) eqn:B1, (F64.lt b F64.c0_4) eqn:B2,
           (F64.gt c F64.c0_6) eqn:C1, (F64.lt c F64.c0_4) eqn:C2;
    cbn [andb orb fst snd]; settle_vote F64.c0_4 F64.c0_6.
Qed.

Lemma simple_vote (a b c : float) :
  let v := SimpleResearch.vote [a; b; c] in
  (snd v = BUY <->
   at_least_two (fun s => F64.gt s F64.c0_5) a b c = true) /\
  (snd v = SELL <->
   at_least_two (fun s => F64.lt s F64.c0_3) a b c = true) /\
  fst v = match snd v with
          | BUY => EnhancedResearch.c0_7
          | SELL => F64.c0_3
          | HOLD => F64.c0_5
          end.
Proof.
  unfold SimpleResearch.vote. cbv zeta. rewrite !count2.
  unfold at_least_two.
  destruct (F64.gt a F64.c0_5) eqn:A1, (F64.lt a F64.c0_3) eqn:A2,
           (F64.gt b F64.c0_5) eqn:B1, (F64.lt b F64.c0_3) eqn:B2,
           (F64.gt c F64.c0_5) eqn:C1, (F64.lt c F64.c0_3) eqn:C2;
    cbn [andb orb fst snd]; settle_vote F64.c0_3 F64.c0_5.
Qed.

Lemma research_ratios_checked :
  forallb F64.in_unit (Enum.dedup (Enum.ratios 8 8)) = true.
Proof. vm_compute. reflexivity. Qed.

Lemma keyword_ratio_in_unit (pos neg : list string) (text : string) :
  (List.length pos <= 8)%nat -> (List.length neg <= 8)%nat ->
  F64.in_unit
    (if 0 <? count_in pos text + count_in neg text
     then truediv (count_in pos text) (count_in pos text + count_in neg text)
     else F64.c0_5) = true.
Proof.
  intros Hp Hn.
  pose proof (count_in_bounds pos text) as A.
  pose proof (count_in_bounds neg text) as B.
  rewrite sub_score_source by lia.
  apply (proj1 (forallb_forall _ _) research_ratios_checked).
  apply In_dedup. apply In_ratios; lia.
Qed.

Lemma enhanced_research_fields (m : market) :
  let r := EnhancedResearch.research_market m in
  let v := EnhancedResearch.vote
             [EnhancedResearch._get_reddit_sentiment (mk_question m);
              EnhancedResearch._get_news_sentiment (mk_question m);
              EnhancedResearch._get_web_sentiment (mk_question m)] in
  EnhancedResearch.r_market_id r = mk_id m /\
  EnhancedResearch.r_question r = mk_question m /\
  EnhancedResearch.r_reddit_sentiment r
    = EnhancedResearch._get_reddit_sentiment (mk_question m) /\
  EnhancedResearch.r_news_sentiment r
    = EnhancedResearch._get_news_sentiment (mk_question m) /\
  EnhancedResearch.r_web_sentiment r
    = EnhancedResearch._get_web_sentiment (mk_question m) /\
  EnhancedResearch.r_confidence_score r = fst v /\
  EnhancedResearch.r_recommendation r = snd v.
Proof.
  unfold EnhancedResearch.research_market. cbv zeta.
  destruct (EnhancedResearch.vote _) as [conf rec]. repeat split.
Qed.

Lemma simple_research_fields (m : market) :
  let r := SimpleResearch.research_market m in
  let v := SimpleResearch.vote
             [SimpleResearch._get_reddit_sentiment (mk_question m);
              SimpleResearch._get_news_sentiment (mk_question m);
              SimpleResearch._get_web_sentiment (mk_question m)] in
  EnhancedResearch.r_market_id r = mk_id m /\
  EnhancedResearch.r_question r = mk_question m /\
  EnhancedResearch.r_reddit_sentiment r
    = SimpleResearch._get_reddit_sentiment (mk_question m) /\
  EnhancedResearch.r_news_sentiment r
    = SimpleResearch._get_news_sentiment (mk_question m) /\
  EnhancedResearch.r_web_sentiment r
    = SimpleResearch._get_web_sentiment (mk_question m) /\
  EnhancedResearch.r_confidence_score r = fst v /\
  EnhancedResearch.r_recommendation r = snd v.
Proof.
  unfold SimpleResearch.research_market. cbv zeta.
  destruct (SimpleResearch.vote _) as [conf rec]. repeat split.
Qed.

Ltac unit_ratio := apply keyword_ratio_in_unit; simpl; lia.

(** X12: the research of a market records three sentiments in
    [[0.0, 1.0]]; it recommends BUY exactly when at least two of them
    exceed the upper threshold and SELL exactly when at least two are
    below the lower one (the two cannot happen together), with the fixed
    confidence 0.7, 0.3 and, for HOLD, 0.5. *)
Theorem X12_research_vote (m : market) :
  (let r := EnhancedResearch.research_market m in
   let reddit := EnhancedResearch.r_reddit_sentiment r in
   let news := EnhancedResearch.r_news_sentiment r in
   let web := EnhancedResearch.r_web_sentiment r in
   F64.in_unit reddit = true /\ F64.in_unit news = true /\
   F64.in_unit web = true /\
   (EnhancedResearch.r_recommendation r = BUY <->
    at_least_two (fun s => F64.gt s (F64.lit 6 10)) reddit news web = true) /\
   (EnhancedResearch.r_recommendation r = SELL <->
    at_least_two (fun s => F64.lt s (F64.lit 4 10)) reddit news web = true) /\
   EnhancedResearch.r_confidence_score r
     = match EnhancedResearch.r_recommendation r with
       | BUY => F64.lit 7 10
       | SELL => F64.lit 3 10
       | HOLD => F64.lit 5 10
       end) /\
  (let r := SimpleResearch.research_market m in
   let reddit := EnhancedResearch.r_reddit_sentiment r in
   let news := EnhancedResearch.r_news_sentiment r in
   let web := EnhancedResearch.r_web_sentiment r in
   F64.in_unit reddit = true /\ F64.in_unit news = true /\
   F64.in_unit web = true /\
   (EnhancedResearch.r_recommendation r = BUY <->
    at_least_two (fun s => F64.gt s (F64.lit 5 10)) reddit news web = true) /\
   (EnhancedResearch.r_recommendation r = SELL <->
    at_least_two (fun s => F64.lt s (F64.lit 3 10)) reddit news web = true) /\
   EnhancedResearch.r_confidence_score r
     = match EnhancedResearch.r_recommendation r with
       | BUY => F64.lit 7 10
       | SELL => F64.lit 3 10
       | HOLD => F64.lit 5 10
       end).
Proof.
  split; cbv zeta.
  - destruct (enhanced_research_fields m) as (_ & _ & R & N & W & C & A).
    rewrite R, N, W, C, A.
    destruct (enhanced_vote
                (EnhancedResearch._get_reddit_sentiment (mk_question m))
                (EnhancedResearch._get_news_sentiment (mk_question m))
                (EnhancedResearch._get_web_sentiment (mk_question m)))
      as (B & S & F).
    split; [unit_ratio|]. split; [unit_ratio|]. split; [unit_ratio|].
    split; [exact B|]. split; [exact S|exact F].
  - destruct (simple_research_fields m) as (_ & _ & R & N & W & C & A).
    rewrite R, N, W, C, A.
    destruct (simple_vote
                (SimpleResearch._get_reddit_sentiment (mk_question m))
                (SimpleResearch._get_news_sentiment (mk_question m))
                (SimpleResearch._get_web_sentiment (mk_question m)))
      as (B & S & F).
    split; [unit_ratio|]. split; [unit_ratio|]. split; [unit_ratio|].
    split; [exact B|]. split; [exact S|exact F].
Qed.

Lemma simple_web_is_news (q : string) :
  is_in "beat" (lower q) = false -> is_in "defeat" (lower q) = false ->
  SimpleResearch._get_web_sentiment q = SimpleResearch._get_news_sentiment q.
Proof.
  intros B D.
  unfold SimpleResearch._get_web_sentiment,
    SimpleResearch._get_news_sentiment.
  cbv zeta. unfold count_in. cbn [filter]. rewrite B, D. reflexivity.
Qed.

(** X13: in the simple script the web keywords are the news keywords
    without [beat] and [defeat]; for a question that contains neither,
    the web sentiment equals the news sentiment and the news sentiment
    alone decides: BUY iff it exceeds 0.5, SELL iff it is below 0.3,
    whatever the Reddit sentiment. *)
Theorem X13_simple_news_decides (m : market) :
  is_in "beat" (lower (mk_question m)) = false ->
  is_in "defeat" (lower (mk_question m)) = false ->
  let r := SimpleResearch.research_market m in
  EnhancedResearch.r_web_sentiment r = EnhancedResearch.r_news_sentiment r /\
  (EnhancedResearch.r_recommendation r = BUY <->
   F64.gt (EnhancedResearch.r_news_sentiment r) (F64.lit 5 10) = true) /\
  (EnhancedResearch.r_recommendation r = SELL <->
   F64.lt (EnhancedResearch.r_news_sentiment r) (F64.lit 3 10) = true).
Proof.
  intros B D. cbv zeta.
  destruct (simple_research_fields m) as (_ & _ & _ & N & W & _ & A).
  rewrite N, W, A. rewrite (simple_web_is_news _ B D).
  destruct (simple_vote
              (SimpleResearch._get_reddit_sentiment (mk_question m))
              (SimpleResearch._get_news_sentiment (mk_question m))
              (SimpleResearch._get_news_sentiment (mk_question m)))
    as (Hb & Hs & _).
  split; [reflexivity|].
  unfold at_least_two in Hb, Hs.
  split.
  - rewrite Hb.
    change (F64.lit 5 10) with F64.c0_5.
    destruct (F64.gt (SimpleResearch._get_reddit_sentiment _) _),
             (F64.gt (SimpleResearch._get_news_sentiment _) _);
      cbn [andb orb]; split; intros; congruence.
  - rewrite Hs.
    change (F64.lit 3 10) with F64.c0_3.
    destruct (F64.lt (SimpleResearch._get_reddit_sentiment _) _),
             (F64.lt (SimpleResearch._get_news_sentiment _) _);
      cbn [andb orb]; split; intros; congruence.
Qed.
(* ================================================================= *)
(** ** The complete analysis of the batch scripts *)

Lemma buy_sell_le (rs : list EnhancedResearch.research) :
  (List.length (filter (EnhancedResearch.is_action BUY) rs)
   + List.length (filter (EnhancedResearch.is_action SELL) rs)
   <= List.length rs)%nat.
Proof.
  induction rs as [|r rs IH]; [reflexivity|].
  cbn [filter].
  assert (EnhancedResearch.is_action BUY r
          && EnhancedResearch.is_action SELL r = false) as X
    by (unfold EnhancedResearch.is_action;
        destruct (EnhancedResearch.r_recommendation r); reflexivity).
  destruct (EnhancedResearch.is_action BUY r),
           (EnhancedResearch.is_action SELL r);
    try discriminate X; cbn [List.length]; lia.
Qed.

Lemma reports_selected
    (research_market : market -> EnhancedResearch.research)
    (top : list market) :
  top <> [] -> (List.length top <= 5)%nat ->
  reports research_market top
    (EnhancedResearch.Analysed top (map research_market top)
       (Z.of_nat (List.length (map research_market top)))
       (Z.of_nat (List.length
          (filter (EnhancedResearch.is_action BUY)
                  (map research_market top))))
       (Z.of_nat (List.length
          (filter (EnhancedResearch.is_action SELL)
                  (map research_market top))))).
Proof.
  intros N L. unfold reports. rewrite length_map.
  pose proof (buy_sell_le (map research_market top)) as B.
  rewrite length_map in B.
  assert (List.length top <> 0)%nat
    by (destruct top; [congruence|discriminate]).
  repeat split; try reflexivity; lia.
Qed.

(** X14: the complete analysis of either batch script reports exactly
    what its ranker selected: no market when the selection is empty (a
    failed request is reported in the same way), otherwise the selected
    markets, one research result per market in the same order, between 1
    and 5 analysed markets, and BUY and SELL counts that add up to at
    most that number; an exception of the ranker is not handled. *)
Theorem X14_complete_analysis (now : datetime) :
  (forall events_result,
     match EnhancedMarketAnalyzer.get_current_markets now events_result with
     | Ok top =>
         exists out,
           EnhancedResearch.run_complete_analysis now events_result = Ok out /\
           reports EnhancedResearch.research_market top out
     | Raise e =>
         EnhancedResearch.run_complete_analysis now events_result = Raise e
     end) /\
  (forall api_result,
     match SimpleMarketAnalyzer.get_hype_markets now api_result with
     | Ok top =>
         exists out,
           SimpleResearch.run_complete_analysis now api_result = Ok out /\
           reports SimpleResearch.research_market top out
     | Raise e =>
         SimpleResearch.run_complete_analysis now api_result = Raise e
     end) /\
  EnhancedResearch.run_complete_analysis now None
    = Ok EnhancedResearch.NoMarkets /\
  SimpleResearch.run_complete_analysis now None
    = Ok EnhancedResearch.NoMarkets.
Proof.
  split; [|split; [|split; reflexivity]].
  - intros r. unfold EnhancedResearch.run_complete_analysis.
    destruct (EnhancedMarketAnalyzer.get_current_markets now r)
      as [top|e] eqn:E; [|reflexivity].
    cbn [bind]. destruct (enhanced_ranked now r top E) as (L & _).
    destruct top as [|m top]; (eexists; split; [reflexivity|]);
      [reflexivity|].
    apply reports_selected; [discriminate|exact L].
  - intros r. unfold SimpleResearch.run_complete_analysis.
    destruct (SimpleMarketAnalyzer.get_hype_markets now r)
      as [top|e] eqn:E; [|reflexivity].
    cbn [bind]. destruct (simple_ranked now r top E) as (L & _).
    destruct top as [|m top]; (eexists; split; [reflexivity|]);
      [reflexivity|].
    apply reports_selected; [discriminate|exact L].
Qed.

(* ================================================================= *)
(** ** The run of ai_trading_system.py *)

Lemma has_activity_numeric (m : market) :
  is_ok (has_activity m) = numeric m.
Proof.
  unfold has_activity, numeric.
  destruct (to_float (mk_liquidity m)), (to_float (mk_volume m));
    reflexivity.
Qed.

Lemma active_in_event_spec (ev : event) (ms : list market) :
  forallb numeric ms = true ->
  exists out,
    active_in_event ev ms = Ok out /\
    forall em, In em out ->
      fst em = ev /\ In (snd em) ms /\ has_activity (snd em) = Ok true.
Proof.
  induction ms as [|m ms IH]; simpl; intros H.
  - exists []. split; [reflexivity|]. intros em [].
  - apply andb_prop in H. destruct H as [Hm Hms].
    destruct (IH Hms) as (tail & Et & Ht).
    rewrite <- has_activity_numeric in Hm.
    destruct (has_activity m) as [keep|e] eqn:Ea; [|discriminate Hm].
    cbn [bind]. rewrite Et. cbn [bind]. eexists. split; [reflexivity|].
    intros em Hem. destruct keep.
    + destruct Hem as [<- | Hem].
      * repeat split; [left; reflexivity|exact Ea].
      * destruct (Ht em Hem) as (A & B & C).
        repeat split; [exact A|right; exact B|exact C].
    + destruct (Ht em Hem) as (A & B & C).
      repeat split; [exact A|right; exact B|exact C].
Qed.

Lemma active_in_event_raises (ev : event) (ms : list market) (m : market) :
  In m ms -> numeric m = false ->
  exists e, active_in_event ev ms = Raise e.
Proof.
  induction ms as [|m0 ms IH]; simpl; intros Hm N; [destruct Hm|].
  destruct (has_activity m0) as [keep|e] eqn:Ea;
    [|exists e; reflexivity].
  cbn [bind]. destruct Hm as [-> | Hm].
  - rewrite <- has_activity_numeric, Ea in N. discriminate N.
  - destruct (IH Hm N) as (e & E). rewrite E. exists e. reflexivity.
Qed.

Lemma active_markets_spec (events : list event) :
  forallb (fun ev => forallb numeric (ev_markets ev)) events = true ->
  exists out,
    active_markets events = Ok out /\
    forall em, In em out ->
      In (fst em) events /\ In (snd em) (ev_markets (fst em)) /\
      has_activity (snd em) = Ok true.
Proof.
  induction events as [|ev events IH]; simpl; intros H.
  - exists []. split; [reflexivity|]. intros em [].
  - apply andb_prop in H. destruct H as [Hev Hevs].
    destruct (active_in_event_spec ev (ev_markets ev) Hev)
      as (here & Eh & Hh).
    destruct (IH Hevs) as (tail & Et & Ht).
    rewrite Eh. cbn [bind]. rewrite Et. cbn [bind].
    eexists. split; [reflexivity|].
    intros em Hem. apply in_app_or in Hem. destruct Hem as [Hem | Hem].
    + destruct (Hh em Hem) as (A & B & C). rewrite A.
      repeat split; [left; reflexivity|exact B|exact C].
    + destruct (Ht em Hem) as (A & B & C).
      repeat split; [right; exact A|exact B|exact C].
Qed.

Lemma active_markets_raises (events : list event) (ev : event)
    (m : market) :
  In ev events -> In m (ev_markets ev) -> numeric m = false ->
  exists e, active_markets events = Raise e.
Proof.
  induction events as [|ev0 events IH]; simpl; intros Hev Hm N;
    [destruct Hev|].
  destruct (active_in_event ev0 (ev_markets ev0)) as [here|e] eqn:Eh;
    [|exists e; reflexivity].
  cbn [bind]. destruct Hev as [-> | Hev].
  - destruct (active_in_event_raises ev _ m Hm N) as (e & E).
    rewrite E in Eh. discriminate Eh.
  - destruct (IH Hev Hm N) as (e & E). rewrite E. exists e. reflexivity.
Qed.

Lemma active_numeric (m : market) :
  has_activity m = Ok true -> numeric m = true.
Proof.
  intros H. rewrite <- has_activity_numeric, H. reflexivity.
Qed.

Lemma analyze_all_spec (py : cpython) (clock : nat -> datetime) (ms : list (event * market))
    (k : nat) :
  (forall em, In em ms -> numeric (snd em) = true) ->
  exists recs,
    analyze_all py clock k ms = Ok recs /\
    Forall2 (fun em a =>
               exists i,
                 analyze_market_for_trading py (clock i) (fst em) (snd em)
                 = Ok a) ms recs.
Proof.
  revert k. induction ms as [|[ev m] ms IH]; simpl; intros k H.
  - exists []. split; [reflexivity|constructor].
  - pose proof (H (ev, m) (or_introl eq_refl)) as N.
    unfold numeric in N. cbn [snd] in N.
    destruct (to_float (mk_volume m)) as [v|e] eqn:Hv; [|discriminate N].
    destruct (to_float (mk_liquidity m)) as [l|e] eqn:Hl; [|discriminate N].
    destruct (analyze_completes py (clock k) ev m v l Hv Hl) as (a & Ea & _).
    destruct (IH (S k)) as (tail & Et & Ft);
      [intros em Hem; apply H; right; exact Hem|].
    rewrite Ea. cbn [bind]. rewrite Et. cbn [bind].
    eexists. split; [reflexivity|].
    constructor; [exists k; exact Ea|exact Ft].
Qed.

Lemma analyze_all_inv (py : cpython) (clock : nat -> datetime) (ms : list (event * market))
    (k : nat) (recs : list analysis_data) :
  analyze_all py clock k ms = Ok recs ->
  Forall2 (fun em a =>
             exists i,
               analyze_market_for_trading py (clock i) (fst em) (snd em)
               = Ok a) ms recs.
Proof.
  revert k recs. induction ms as [|[ev m] ms IH]; simpl; intros k recs H.
  - assert (recs = []) as -> by congruence. constructor.
  - destruct (analyze_market_for_trading py (clock k) ev m) as [a|e] eqn:Ea;
      [|discriminate H].
    cbn [bind] in H.
    destruct (analyze_all py clock (S k) ms) as [tail|e] eqn:Et;
      [|discriminate H].
    cbn [bind] in H. assert (recs = a :: tail) as -> by congruence.
    constructor; [exists k; exact Ea|exact (IH (S k) tail Et)].
Qed.

Lemma active_markets_inv (events : list event)
    (out : list (event * market)) :
  active_markets events = Ok out ->
  forall em, In em out ->
    In (fst em) events /\ In (snd em) (ev_markets (fst em)) /\
    has_activity (snd em) = Ok true.
Proof.
  intros H.
  destruct (forallb (fun ev => forallb numeric (ev_markets ev)) events)
    eqn:N.
  - destruct (active_markets_spec events N) as (out' & E & K).
    assert (out' = out) as <- by congruence. exact K.
  - exfalso.
    assert (exists ev, In ev events /\
                       forallb numeric (ev_markets ev) = false) as (ev & A & B).
    { clear H. induction events as [|ev events IH]; [discriminate N|].
      simpl in N. apply andb_false_iff in N. destruct N as [N | N].
      - exists ev. split; [left; reflexivity|exact N].
      - destruct (IH N) as (ev' & A & B).
        exists ev'. split; [right; exact A|exact B]. }
    assert (exists m, In m (ev_markets ev) /\ numeric m = false)
      as (m & C & D).
    { revert B. generalize (ev_markets ev) as ms.
      induction ms as [|m ms IH]; [discriminate|].
      simpl. intros B. apply andb_false_iff in B. destruct B as [B | B].
      - exists m. split; [left; reflexivity|exact B].
      - destruct (IH B) as (m' & C & D).
        exists m'. split; [right; exact C|exact D]. }
    destruct (active_markets_raises events ev m A C D) as (e & E).
    rewrite E in H. discriminate H.
Qed.

(** X15: a completed run analysed the first 15 of the markets with
    trading activity of the events that are current, in their order: one
    recommendation per market, each market taken from a fetched event
    that counts as current and passing the activity test. *)
Theorem X15_run_selection (py : cpython) (now : datetime) (clock : nat -> datetime)
    (data : list event) (recs : list analysis_data) :
  run_trading_analysis py now clock (Some data) = Ok (Some recs) ->
  exists active,
    active_markets (current_events now data) = Ok active /\
    Forall2 (fun em a =>
               exists i,
                 analyze_market_for_trading py (clock i) (fst em) (snd em)
                 = Ok a) (firstn 15 active) recs /\
    List.length recs = Nat.min 15 (List.length active) /\
    forall em, In em active ->
      In (fst em) data /\ event_is_current now (fst em) = true /\
      In (snd em) (ev_markets (fst em)) /\ has_activity (snd em) = Ok true.
Proof.
  unfold run_trading_analysis.
  destruct (active_markets (current_events now data)) as [active|e] eqn:Ea;
    [|discriminate].
  cbn [bind].
  destruct (analyze_all py clock 0 (firstn 15 active)) as [rs|e] eqn:Er;
    [|discriminate].
  cbn [bind]. intros H. assert (rs = recs) as -> by congruence.
  exists active. split; [reflexivity|].
  pose proof (analyze_all_inv py clock _ 0 recs Er) as F.
  split; [exact F|]. split.
  - rewrite <- (Forall2_length F). apply length_firstn.
  - intros em Hem.
    destruct (active_markets_inv _ active Ea em Hem) as (A & B & C).
    unfold current_events in A. apply filter_In in A. destruct A as [A1 A2].
    repeat split; assumption.
Qed.

Ltac pair_eq :=
  repeat match goal with
  | |- (_, _) = (_, _) => apply f_equal2
  end; lia.

Lemma count_rec_cons (which : action) (a : analysis_data)
    (recs : list analysis_data) :
  AiTradingReport.count_rec which (a :: recs)
  = (if AiTradingReport.is_rec which a then 1 else 0) + AiTradingReport.count_rec which recs.
Proof.
  unfold AiTradingReport.count_rec. cbn [filter].
  destruct (AiTradingReport.is_rec which a); cbn [List.length]; lia.
Qed.

Lemma tally_counts (recs : list analysis_data) (b s h : Z) :
  AiTradingReport.tally recs (b, s, h)
  = (b + AiTradingReport.count_rec BUY recs, s + AiTradingReport.count_rec SELL recs,
     h + AiTradingReport.count_rec HOLD recs).
Proof.
  revert b s h. induction recs as [|a recs IH]; intros b s h.
  - unfold AiTradingReport.count_rec. cbn [filter List.length AiTradingReport.tally].
    pair_eq.
  - cbn [AiTradingReport.tally]. rewrite !count_rec_cons. unfold AiTradingReport.is_rec.
    destruct (a_recommendation a); rewrite IH; pair_eq.
Qed.

Lemma count_rec_total (recs : list analysis_data) :
  AiTradingReport.count_rec BUY recs + AiTradingReport.count_rec SELL recs + AiTradingReport.count_rec HOLD recs
  = Z.of_nat (List.length recs).
Proof.
  induction recs as [|a recs IH]; [reflexivity|].
  rewrite !count_rec_cons. unfold AiTradingReport.is_rec.
  destruct (a_recommendation a); cbn [List.length]; lia.
Qed.

(** X16: the summary of a run counts every recommendation once: the BUY,
    SELL and HOLD counters are the numbers of recommendations of each
    kind, they add up to the number of analysed markets, and that number
    is at most 15; a failed request gives the failure report. *)
Theorem X16_summary_counts (py : cpython) (now : datetime) (clock : nat -> datetime)
    (response : option (list event)) (out : AiTradingReport.report) :
  AiTradingReport.summary py now clock response = Ok out ->
  match out with
  | AiTradingReport.Failed => response = None
  | AiTradingReport.Done total buy sell hold recs =>
      run_trading_analysis py now clock response = Ok (Some recs) /\
      total = Z.of_nat (List.length recs) /\ total <= 15 /\
      buy = AiTradingReport.count_rec BUY recs /\ sell = AiTradingReport.count_rec SELL recs /\
      hold = AiTradingReport.count_rec HOLD recs /\ buy + sell + hold = total
  end.
Proof.
  unfold AiTradingReport.summary.
  destruct (run_trading_analysis py now clock response) as [[recs|]|e] eqn:E;
    [| |discriminate]; cbn [bind].
  - rewrite tally_counts. intros H.
    assert (out = AiTradingReport.Done (Z.of_nat (List.length recs))
                    (0 + AiTradingReport.count_rec BUY recs) (0 + AiTradingReport.count_rec SELL recs)
                    (0 + AiTradingReport.count_rec HOLD recs) recs) as -> by congruence.
    rewrite !Z.add_0_l.
    split; [reflexivity|]. split; [reflexivity|]. split.
    + destruct response as [data|]; [|discriminate E].
      unfold run_trading_analysis in E.
      destruct (active_markets _) as [active|e]; [|discriminate E].
      cbn [bind] in E.
      destruct (analyze_all py clock 0 (firstn 15 active)) as [rs|e] eqn:Er;
        [|discriminate E].
      cbn [bind] in E. assert (rs = recs) as -> by congruence.
      rewrite <- (Forall2_length (analyze_all_inv py clock _ 0 recs Er)).
      pose proof (firstn_le_length 15 active) as L1.
      rewrite length_firstn. lia.
    + repeat split; try reflexivity. apply count_rec_total.
  - intros H. assert (out = AiTradingReport.Failed) as -> by congruence.
    destruct response as [data|]; [|reflexivity].
    unfold run_trading_analysis in E.
    destruct (active_markets _); [|discriminate E]. cbn [bind] in E.
    destruct (analyze_all _ _ _ _); discriminate E.
Qed.

(** X17: a run completes when the volume and liquidity of every market of
    every current event convert to a number; one market whose field does
    not convert, anywhere in a current event, makes the whole run raise,
    also when that market is not among the 15 analysed. *)
Theorem X17_run_needs_numeric (py : cpython) (now : datetime) (clock : nat -> datetime)
    (data : list event) :
  ((forall ev m, In ev data -> event_is_current now ev = true ->
                 In m (ev_markets ev) -> numeric m = true) ->
   exists recs,
     run_trading_analysis py now clock (Some data) = Ok (Some recs)) /\
  (forall ev m, In ev data -> event_is_current now ev = true ->
                In m (ev_markets ev) -> numeric m = false ->
   exists e, run_trading_analysis py now clock (Some data) = Raise e).
Proof.
  split.
  - intros H. unfold run_trading_analysis.
    destruct (active_markets_spec (current_events now data))
      as (active & Ea & Ha).
    { apply forallb_forall. intros ev Hev. apply forallb_forall.
      intros m Hm. unfold current_events in Hev. apply filter_In in Hev.
      destruct Hev as [A B]. exact (H ev m A B Hm). }
    rewrite Ea. cbn [bind].
    destruct (analyze_all_spec py clock (firstn 15 active) 0) as (recs & Er & _).
    { intros em Hem. apply In_firstn in Hem.
      destruct (Ha em Hem) as (_ & _ & C). exact (active_numeric _ C). }
    rewrite Er. cbn [bind]. exists recs. reflexivity.
  - intros ev m A B C N. unfold run_trading_analysis.
    destruct (active_markets_raises (current_events now data) ev m)
      as (e & E); [|exact C|exact N|].
    + unfold current_events. apply filter_In. split; assumption.
    + rewrite E. exists e. reflexivity.
Qed.

(* ================================================================= *)
(** ** The urgency bonus *)

Lemma urgent_score_passes :
  (forall v l,
     F64.gt (F64.add (EnhancedMarketAnalyzer.hype_of v l) F64.c0_2)
            F64.c0_1 = true /\
     F64.le (F64.lit 2 10)
            (F64.py_min
               (F64.add (EnhancedMarketAnalyzer.hype_of v l) F64.c0_2)
               F64.c1_0) = true) /\
  (forall v l,
     F64.gt (F64.add (SimpleMarketAnalyzer.hype_of v l) F64.c0_2)
            F64.c0_1 = true /\
     F64.le (F64.lit 2 10)
            (F64.py_min
               (F64.add (SimpleMarketAnalyzer.hype_of v l) F64.c0_2)
               F64.c1_0) = true).
Proof.
  split; intros v l.
  - unfold EnhancedMarketAnalyzer.hype_of,
      EnhancedMarketAnalyzer.volume_component,
      EnhancedMarketAnalyzer.liquidity_component.
    split_bands; split; vm_compute; reflexivity.
  - unfold SimpleMarketAnalyzer.hype_of,
      SimpleMarketAnalyzer.volume_component,
      SimpleMarketAnalyzer.liquidity_component.
    split_bands; split; vm_compute; reflexivity.
Qed.

Lemma urgent (now t : Z) (score : float) :
  now <= t < now + 8 * us_per_day ->
  EnhancedMarketAnalyzer.ended (Naive now) (DateText (IsoNaive t)) = false /\
  EnhancedMarketAnalyzer.with_urgency (Naive now) (DateText (IsoNaive t))
    score = F64.add score F64.c0_2.
Proof.
  intros H. unfold EnhancedMarketAnalyzer.ended,
    EnhancedMarketAnalyzer.with_urgency.
  cbn [truthy fromisoformat bind dt_lt dt_days try_pass].
  destruct (Z.ltb_spec t now); [lia|]. split; [reflexivity|].
  assert ((t - now) / us_per_day <= 7) as D.
  { assert ((t - now) / us_per_day < 8); [|lia].
    apply Z.div_lt_upper_bound; unfold us_per_day in *; lia. }
  destruct (Z.leb_spec ((t - now) / us_per_day) 7); [reflexivity|lia].
Qed.

(** X18: the urgency bonus alone passes the threshold: a market that ends
    within the next 8 days (its end time carrying no UTC offset) and
    whose liquidity is not [<= 0] is kept by the pre-filter of either
    script whatever its volume, with a hype score of at least 0.2. *)
Theorem X18_urgent_markets_kept (now t : Z) (m : market) (v l : float) :
  now <= t < now + 8 * us_per_day ->
  to_float (mk_volume m) = Ok v -> to_float (mk_liquidity m) = Ok l ->
  F64.le l (F64.of_Z 0) = false ->
  (mk_event_end_date m = DateText (IsoNaive t) ->
   exists h,
     EnhancedMarketAnalyzer.consider (Naive now) m
       = Ok (Some (set_hype_score m h)) /\
     F64.le (F64.lit 2 10) h = true) /\
  (mk_endDate m = DateText (IsoNaive t) ->
   exists h,
     SimpleMarketAnalyzer.consider (Naive now) m
       = Ok (Some (set_hype_score m h)) /\
     F64.le (F64.lit 2 10) h = true).
Proof.
  intros H Hv Hl Hp. split; intros E.
  - unfold EnhancedMarketAnalyzer.consider,
      EnhancedMarketAnalyzer._calculate_hype_score.
    rewrite E. destruct (urgent now t (EnhancedMarketAnalyzer.hype_of v l) H)
      as [A B].
    rewrite A, Hl, Hv. cbn [bind]. rewrite Hp, B.
    destruct (proj1 urgent_score_passes v l) as [G L].
    rewrite G. eexists. split; [reflexivity|exact L].
  - unfold SimpleMarketAnalyzer.consider,
      SimpleMarketAnalyzer._calculate_simple_hype_score.
    rewrite E. destruct (urgent now t (SimpleMarketAnalyzer.hype_of v l) H)
      as [A B].
    rewrite A, Hl, Hv. cbn [bind]. rewrite Hp, B.
    destruct (proj2 urgent_score_passes v l) as [G L].
    rewrite G. eexists. split; [reflexivity|exact L].
Qed.

(* ================================================================= *)
(** ** The further theorems at sample inputs *)

Lemma X2_witness :
  let m := sample_market (NumValue (F64.of_Z 120000))
                         (NumValue (F64.of_Z 15000)) in
  exists a,
    analyze_market_for_trading From312 (Naive 0) (sample_event []) m = Ok a /\
    List.length (a_chain_of_thought a) = 33%nat.
Proof.
  intros m. eexists. split; [reflexivity|].
  destruct (X2_analysis_coherent From312 (Naive 0) (sample_event []) m _ eq_refl)
    as (_ & _ & _ & _ & _ & _ & _ & L & _).
  exact L.
Defined.

Lemma X3_witness :
  let m1 := sample_market (NumValue (F64.of_Z 1500))
                          (NumValue (F64.of_Z 50)) in
  let m2 := sample_market (NumValue (F64.of_Z 60000))
                          (NumValue (F64.of_Z 2000)) in
  F64.le (F64.of_Z 1500) (F64.of_Z 60000) = true /\
  F64.le (F64.of_Z 50) (F64.of_Z 2000) = true /\
  exists r1 r2,
    _analyze_historical_performance (sample_event []) m1 = Ok r1 /\
    _analyze_historical_performance (sample_event []) m2 = Ok r2 /\
    F64.le (score r1) (score r2) = true.
Proof.
  intros m1 m2. split; [vm_compute; reflexivity|].
  split; [vm_compute; reflexivity|].
  apply (X3_historical_monotone (sample_event []) m1 m2
           (F64.of_Z 1500) (F64.of_Z 60000) (F64.of_Z 50) (F64.of_Z 2000));
    vm_compute; reflexivity.
Defined.

Lemma X4_witness :
  let m1 := sample_market NumAbsent (NumValue (F64.of_Z 50)) in
  let m2 := sample_market NumAbsent (NumValue (F64.of_Z 2000)) in
  2 <= 10 /\ F64.le (F64.of_Z 50) (F64.of_Z 2000) = true /\
  exists r1 r2,
    _assess_trading_risk m1 2 = Ok r1 /\
    _assess_trading_risk m2 10 = Ok r2 /\
    F64.le (score r1) (score r2) = true.
Proof.
  intros m1 m2. split; [lia|]. split; [vm_compute; reflexivity|].
  apply (X4_risk_monotone m1 m2 2 10 (F64.of_Z 50) (F64.of_Z 2000));
    [reflexivity|reflexivity|lia|vm_compute; reflexivity].
Defined.

Lemma X5_witness :
  let m := sample_market (NumValue (F64.of_Z 120000))
                         (NumValue (F64.of_Z 15000)) in
  to_float (mk_volume m) = Ok (F64.of_Z 120000) /\
  to_float (mk_liquidity m) = Ok (F64.of_Z 15000) /\
  exists r, _analyze_historical_performance (sample_event []) m = Ok r /\
            F64.lt (score r) (F64.of_Z 1) = true.
Proof.
  intros m. split; [reflexivity|]. split; [reflexivity|].
  destruct (proj1 (X5_score_ranges (sample_event []) m 0
                     (F64.of_Z 120000) (F64.of_Z 15000) eq_refl eq_refl))
    as (r & E & _ & _ & L).
  exists r. split; [exact E|exact L].
Defined.

Lemma X6_witness :
  let ev := sample_dated_event (DateText (IsoAware 1)) [] in
  ev_endDate ev = DateText (IsoAware 1) /\
  event_is_current (Naive 5) ev = true.
Proof.
  intros ev. split; [reflexivity|].
  exact (proj1 (X6_offset_dates_ignored 5 1) ev eq_refl).
Defined.

Lemma X7_witness :
  let m := plain_market (NumValue (F64.of_Z 2000))
             (NumValue (F64.of_Z 6000)) (DateText (IsoAware 1)) in
  exists a,
    analyze_market_for_trading From312 (Naive 0) (sample_event []) m = Ok a /\
    a_days_until_end a = 0.
Proof.
  intros m. eexists. split; [reflexivity|].
  refine (proj1 (X7_undated_risk From312 0 (sample_event []) m _ _ eq_refl)).
  right. right. right. exists 1. reflexivity.
Defined.

Lemma X8_witness :
  let m := plain_market (NumValue (F64.of_Z 60000))
             (NumValue (F64.of_Z 20000)) DateNone in
  EnhancedMarketAnalyzer.get_current_markets (Naive 0)
    (Some [sample_dated_event DateNone [m]]) = Raise TypeError.
Proof.
  intros m.
  eapply (X8_report_needs_end_date (Naive 0)
            [sample_dated_event DateNone [m]]).
  - vm_compute. reflexivity.
  - left. reflexivity.
  - reflexivity.
Defined.

Lemma X9_witness :
  let ms :=
    map (fun n => sample_market (NumValue (F64.of_Z n))
                                (NumValue (F64.of_Z 500)))
        [200; 70000; 3000; 12000; 900; 6000; 25000] in
  forallb numeric ms = true /\
  exists top kept rest,
    SimpleMarketAnalyzer.get_hype_markets (Naive 0) (Some ms) = Ok top /\
    collect (SimpleMarketAnalyzer.consider (Naive 0)) ms = Ok kept /\
    Permutation kept (top ++ rest).
Proof.
  intros ms. split; [reflexivity|].
  destruct (simple_returns (Naive 0) ms eq_refl) as (top & E).
  destruct (proj2 (X9_best_are_selected (Naive 0)) ms top E)
    as (kept & rest & A & B & _).
  exists top, kept, rest. repeat split; assumption.
Defined.

Lemma X10_witness :
  let m := sample_market (NumValue (F64.of_Z 70000))
                         (NumValue (F64.of_Z 500)) in
  exists k,
    SimpleMarketAnalyzer.get_hype_markets (Naive 0) (Some [m]) = Ok [k] /\
    In k [k] /\
    exists h, k = set_hype_score m h.
Proof.
  intros m. eexists. split; [vm_compute; reflexivity|].
  split; [left; reflexivity|].
  destruct (proj2 (X10_returned_markets (Naive 0)) [m] _ _ eq_refl
              (or_introl eq_refl))
    as (m' & v & l & Hin & _ & _ & _ & _ & _ & E).
  destruct Hin as [<- | []]. eexists. exact E.
Defined.

Lemma X11_witness :
  count_in (positive_current ++ negative_current ++ positive_words
            ++ negative_words ++ positive_econ ++ negative_econ
            ++ positive_social ++ negative_social)
           (lower "Is the sky blue?") = 0 /\
  score (_analyze_market_sentiment From312 "Is the sky blue?") = F64.lit 5 10.
Proof.
  split; [vm_compute; reflexivity|].
  apply (X11_neutral_sentiment From312 "Is the sky blue?"). vm_compute. reflexivity.
Defined.

Lemma X12_witness :
  let r := EnhancedResearch.research_market (asking "Will the team win?") in
  at_least_two (fun s => F64.gt s (F64.lit 6 10))
    (EnhancedResearch.r_reddit_sentiment r)
    (EnhancedResearch.r_news_sentiment r)
    (EnhancedResearch.r_web_sentiment r) = true /\
  EnhancedResearch.r_recommendation r = BUY.
Proof.
  intros r. split; [vm_compute; reflexivity|].
  destruct (proj1 (X12_research_vote (asking "Will the team win?")))
    as (_ & _ & _ & B & _).
  apply B. vm_compute. reflexivity.
Defined.

Lemma X13_witness :
  let m := asking "Will prices rise?" in
  is_in "beat" (lower (mk_question m)) = false /\
  is_in "defeat" (lower (mk_question m)) = false /\
  EnhancedResearch.r_web_sentiment (SimpleResearch.research_market m)
    = EnhancedResearch.r_news_sentiment (SimpleResearch.research_market m).
Proof.
  intros m. split; [reflexivity|]. split; [reflexivity|].
  exact (proj1 (X13_simple_news_decides m eq_refl eq_refl)).
Defined.

Lemma X15_witness :
  let m := sample_market (NumValue (F64.of_Z 120000))
                         (NumValue (F64.of_Z 15000)) in
  let data := [sample_event [m]] in
  exists recs active,
    run_trading_analysis From312 (Naive 0) (fun _ => Naive 0) (Some data)
      = Ok (Some recs) /\
    active_markets (current_events (Naive 0) data) = Ok active /\
    List.length recs = Nat.min 15 (List.length active).
Proof.
  intros m data. eexists.
  destruct (X15_run_selection From312 (Naive 0) (fun _ => Naive 0) data _ eq_refl)
    as (active & A & _ & L & _).
  exists active. split; [reflexivity|]. split; [exact A|exact L].
Defined.

Lemma X16_witness :
  let m := sample_market (NumValue (F64.of_Z 120000))
                         (NumValue (F64.of_Z 15000)) in
  exists out,
    AiTradingReport.summary From312 (Naive 0) (fun _ => Naive 0)
      (Some [sample_event [m]]) = Ok out /\
    match out with
    | AiTradingReport.Failed => False
    | AiTradingReport.Done total buy sell hold _ =>
        total = 1 /\ buy + sell + hold = total
    end.
Proof.
  intros m.
  destruct (AiTradingReport.summary From312 (Naive 0) (fun _ => Naive 0)
              (Some [sample_event [m]])) as [out|e] eqn:E;
    [|vm_compute in E; discriminate E].
  exists out. split; [reflexivity|].
  pose proof (X16_summary_counts From312 (Naive 0) (fun _ => Naive 0)
                (Some [sample_event [m]]) out E) as H.
  destruct out as [|total buy sell hold recs]; [discriminate H|].
  destruct H as (R & T & _ & _ & _ & _ & S).
  split; [|exact S].
  vm_compute in E.
  apply (f_equal (fun x => match x with
                           | Ok (AiTradingReport.Done t _ _ _ _) => t
                           | _ => total
                           end)) in E.
  symmetry. exact E.
Defined.

Lemma X17_witness :
  let bad := sample_market NumText NumAbsent in
  let data := [sample_event [bad]] in
  event_is_current (Naive 0) (sample_event [bad]) = true /\
  numeric bad = false /\
  exists e,
    run_trading_analysis From312 (Naive 0) (fun _ => Naive 0) (Some data)
    = Raise e.
Proof.
  intros bad data. split; [reflexivity|]. split; [reflexivity|].
  exact (proj2 (X17_run_needs_numeric From312 (Naive 0) (fun _ => Naive 0) data)
           (sample_event [bad]) bad (or_introl eq_refl) eq_refl
           (or_introl eq_refl) eq_refl).
Defined.

Lemma X18_witness :
  let m := plain_market NumAbsent (NumValue (F64.of_Z 5))
             (DateText (IsoNaive (3 * us_per_day))) in
  0 <= 3 * us_per_day < 0 + 8 * us_per_day /\
  F64.le (F64.of_Z 5) (F64.of_Z 0) = false /\
  exists h,
    SimpleMarketAnalyzer.consider (Naive 0) m
      = Ok (Some (set_hype_score m h)) /\
    F64.le (F64.lit 2 10) h = true.
Proof.
  intros m.
  assert (0 <= 3 * us_per_day < 0 + 8 * us_per_day) as H
    by (unfold us_per_day; lia).
  split; [exact H|]. split; [vm_compute; reflexivity|].
  exact (proj2 (X18_urgent_markets_kept 0 (3 * us_per_day) m
                  (F64.of_Z 0) (F64.of_Z 5) H eq_refl eq_refl eq_refl)
           eq_refl).
Defined.
